(** * EMF_data_mining: differential analysis of SILAC protein ratios

  A shallow embedding of the two differential-expression scripts
  [DEA/fcsigB.py] and [DEA/mzscore.py]:

  - SQL cells are [option Q]: [None] is SQL NULL, [Some q] a number.  Every
    binary64 value is a rational, and the operations the selection rules
    use (comparison, MIN, MAX, multiplication by -1) are exact on
    binary64, so they are the same on [Q].
  - SQL conditions are three-valued ([option bool]); a WHERE clause keeps a
    row only when its condition is true.
  - Python values that reach a user-defined function are [Py.value];
    a Python call either returns or raises ([Py.result]).
  - The file system touched by the scripts is a finite map from paths to
    file contents.
  - [Normal] reads [pvalue] in exact real arithmetic, with the standard
    normal distribution function given by its series. *)

From stdpp Require Import base option list strings pretty gmap.
From Stdlib Require Import ZArith QArith Qminmax Qabs Qround Lia Lqa Sorted.
From Stdlib Require Reals Lra.

Local Open Scope Q_scope.

(** ** Rational helpers *)

Definition Qltb (x y : Q) : bool := negb (Qle_bool y x).

(** [ROUND(x, digits)] of SQLite and [round(x, digits)] of Python 2: to the
    nearest multiple of [10 ^ -digits], halves away from zero. *)
Definition scale (digits : nat) : Q := inject_Z (10 ^ Z.of_nat digits).

Definition round_half_away (digits : nat) (q : Q) : Q :=
  let s := scale digits in
  let m := inject_Z (Qfloor (Qabs q * s + (1 # 2))) in
  if Qle_bool 0 q then m / s else - (m / s).

(** ** SQL cells and three-valued conditions *)

Module Sql.

(** A numeric cell. *)
Definition value : Type := option Q.

(** The value of a condition: true, false or NULL. *)
Definition truth : Type := option bool.

Definition cmp (op : Q -> Q -> bool) (a b : value) : truth :=
  match a, b with
  | Some x, Some y => Some (op x y)
  | _, _ => None
  end.

Definition gt : value -> value -> truth := cmp (fun x y => Qltb y x).
Definition lt : value -> value -> truth := cmp Qltb.
Definition ge : value -> value -> truth := cmp (fun x y => Qle_bool y x).
Definition le : value -> value -> truth := cmp Qle_bool.

(** [a AND b]: false wins over NULL. *)
Definition and3 (a b : truth) : truth :=
  match a, b with
  | Some false, _ | _, Some false => Some false
  | Some true, Some true => Some true
  | _, _ => None
  end.

(** [a OR b]: true wins over NULL. *)
Definition or3 (a b : truth) : truth :=
  match a, b with
  | Some true, _ | _, Some true => Some true
  | Some false, Some false => Some false
  | _, _ => None
  end.

Fixpoint all3 (l : list truth) : truth :=
  match l with
  | [] => Some true
  | t :: l' => and3 t (all3 l')
  end.

(** A WHERE clause keeps the row only when the condition is true. *)
Definition holds (t : truth) : bool :=
  match t with
  | Some true => true
  | _ => false
  end.

(** The scalar functions [MAX(a, b, ...)] and [MIN(a, b, ...)]: NULL as
    soon as one argument is NULL. *)
Definition lift2 (f : Q -> Q -> Q) (a b : value) : value :=
  match a, b with
  | Some x, Some y => Some (f x y)
  | _, _ => None
  end.

Fixpoint fold_fn (f : Q -> Q -> Q) (a : value) (l : list value) : value :=
  match l with
  | [] => a
  | b :: l' => fold_fn f (lift2 f a b) l'
  end.

Definition MAX (a : value) (l : list value) : value := fold_fn Qmax a l.
Definition MIN (a : value) (l : list value) : value := fold_fn Qmin a l.

(** [-1 * a]. *)
Definition neg (a : value) : value := option_map (fun x => (-1 # 1) * x) a.

(** Truth of a bare numeric cell used as a condition ([AND quant_value]):
    NULL stays NULL, zero is false, every other number is true. *)
Definition truthy (a : value) : truth :=
  option_map (fun x => negb (Qeq_bool x 0)) a.

(** Arithmetic on cells: NULL propagates, and a division by zero is NULL. *)
Definition sub : value -> value -> value := lift2 Qminus.
Definition mul : value -> value -> value := lift2 Qmult.

Definition div (a b : value) : value :=
  match a, b with
  | Some x, Some y => if Qeq_bool y 0 then None else Some (x / y)
  | _, _ => None
  end.

(** [ROUND(a, 4)]. *)
Definition ROUND4 (a : value) : value := option_map (round_half_away 4) a.

(** Equality of cells up to the representation of the rational. *)
Definition same (a b : value) : Prop :=
  match a, b with
  | Some x, Some y => x == y
  | None, None => True
  | _, _ => False
  end.

(** [DISTINCT] inside [GROUP_CONCAT]: each text once, where it first
    occurs. *)
Fixpoint DISTINCT (l : list string) : list string :=
  match l with
  | [] => []
  | x :: l' =>
      x :: List.filter (fun y => negb (bool_decide (y = x))) (DISTINCT l')
  end.

(** [GROUP BY key] on an integer key: one row per value of the key, by
    ascending key.  The rows of one key are folded with [merge], the row met
    first on the left. *)
Fixpoint group_insert {A : Type} (key : A -> Z) (merge : A -> A -> A)
    (x : A) (l : list A) : list A :=
  match l with
  | [] => [x]
  | y :: l' =>
      if (key x <? key y)%Z then x :: l
      else if (key x =? key y)%Z then merge y x :: l'
      else y :: group_insert key merge x l'
  end.

Definition GROUP_BY {A : Type} (key : A -> Z) (merge : A -> A -> A)
    (rows : list A) : list A :=
  fold_left (fun acc x => group_insert key merge x acc) rows [].

End Sql.

(** ** Python values, exceptions and the process *)

Module Py.

(** What [sqlite3] hands to a user-defined function, and what the function
    hands back: [None], a number or a text. *)
Inductive value : Type :=
| VNone
| VFloat (q : Q)
| VStr (s : string).

Inductive exn : Type :=
| TypeError
| ValueError
| ZeroDivisionError
| OperationalError (msg : string).

(** A call returns a value or raises. *)
Inductive result (A : Type) : Type :=
| Return (a : A)
| Raise (e : exn).

Arguments Return {A} a.
Arguments Raise {A} e.

Definition bind {A B : Type} (m : result A) (k : A -> result B) : result B :=
  match m with
  | Return a => k a
  | Raise e => Raise e
  end.

(** [try: body / except: handler] with a bare [except], which catches every
    exception. *)
Definition try_except {A : Type} (body handler : result A) : result A :=
  match body with
  | Return a => Return a
  | Raise _ => handler
  end.

Fixpoint mapM {A B : Type} (f : A -> result B) (l : list A) : result (list B) :=
  match l with
  | [] => Return []
  | a :: l' =>
      bind (f a) (fun b => bind (mapM f l') (fun bs => Return (b :: bs)))
  end.

(** [float(x)] for a cell of a result row. *)
Definition float (x : option Q) : result Q :=
  match x with
  | Some q => Return q
  | None => Raise TypeError
  end.

(** [a / b] on floats. *)
Definition truediv (a b : Q) : result Q :=
  if Qeq_bool b 0 then Raise ZeroDivisionError else Return (a / b).

(** How a value returned by a user-defined function is stored in a cell. *)
Definition to_sql (v : value) : option Q :=
  match v with
  | VFloat q => Some q
  | _ => None
  end.

Definition of_sql (c : option Q) : value :=
  match c with
  | Some q => VFloat q
  | None => VNone
  end.

(** How a process ends: [sys.exit(code)], [parser.error] (status 2), the end
    of the script (status 0), or an exception nobody catches (a traceback and
    status 1). *)
Inductive outcome : Type :=
| Exit (code : Z)
| Uncaught (e : exn).

Definition exit_status (o : outcome) : Z :=
  match o with
  | Exit c => c
  | Uncaught _ => 1%Z
  end.

End Py.

Notation "'let*' x ':=' m 'in' k" := (Py.bind m (fun x => k))
  (at level 10, x name, m at level 100, k at level 200).

(** ** Files and standard streams *)

Module Os.

Record world : Type := World {
  files : gmap string string;
  stdout : list string;
  stderr : list string
}.

Definition linesep : string := String (Ascii.ascii_of_nat 10) "".

(** The line feed inside a string literal of the scripts. *)
Definition newline : string := String (Ascii.ascii_of_nat 10) "".
Definition tab : string := String (Ascii.ascii_of_nat 9) "".

(** [open(path, 'w')]: the file exists and is empty afterwards. *)
Definition open_w (path : string) (w : world) : world :=
  World (<[path := ""]> (files w)) (stdout w) (stderr w).

(** [fout.write(s)]. *)
Definition write (path s : string) (w : world) : world :=
  World (<[path := (default "" (files w !! path) +:+ s)]> (files w))
        (stdout w) (stderr w).

(** [os.remove(path)]. *)
Definition remove (path : string) (w : world) : world :=
  World (delete path (files w)) (stdout w) (stderr w).

(** [os.path.getsize(path) == 0]. *)
Definition is_empty (path : string) (w : world) : bool :=
  match files w !! path with
  | Some "" => true
  | _ => false
  end.

Definition print (s : string) (w : world) : world :=
  World (files w) (stdout w ++ [s]) (stderr w).

Definition eprint (s : string) (w : world) : world :=
  World (files w) (stdout w) (stderr w ++ [s]).

Definition exists_file (path : string) (w : world) : bool :=
  bool_decide (is_Some (files w !! path)).

End Os.

(** ** [DEA/fcsigB.py]: fold changes and significance B *)

Module FcSigB.
Import Sql.

(** The command-line arguments after [parse_args]. *)
Record args : Type := Args {
  dts : string;
  fc_cutoff : Q;
  sigB_cutoff : Q;
  outfile : option string;
  dbfile : string
}.

(** The checks of [main] on the parsed arguments ([parser.error] leaves
    the process with a usage message). *)
Inductive arg_error : Type :=
| FcCutoffTooSmall
| SigBCutoffOutOfRange.

Definition check_args (a : args) : option arg_error :=
  if Qltb (fc_cutoff a) 1 then Some FcCutoffTooSmall
  else if Qltb (sigB_cutoff a) 0 || Qltb 1 (sigB_cutoff a)
       then Some SigBCutoffOutOfRange
  else None.

(** One row of [VVV_PGROUP_QUANT], restricted to the columns of the
    selected data set ([{dts}_] is the common prefix of the names). *)
Record quant_row : Type := QuantRow {
  grp_id : Z;
  L0_M0_H1_norm_ratio_HL : value;
  L0_M0_H1_norm_ratio_LH : value;
  L0_M0_H1_norm_ratio_HM : value;
  L0_M0_H1_norm_ratio_MH : value;
  L0_M0_H1_norm_ratio_LM : value;
  L0_M0_H1_norm_ratio_ML : value;
  L1_M1_H0_norm_ratio_HL : value;
  L1_M1_H0_norm_ratio_LH : value;
  L1_M1_H0_norm_ratio_HM : value;
  L1_M1_H0_norm_ratio_MH : value;
  L1_M1_H0_norm_ratio_LM : value;
  L1_M1_H0_norm_ratio_ML : value;
  L0_M0_H1_sig_ratio_HL : value;
  L0_M0_H1_sig_ratio_HM : value;
  L0_M0_H1_sig_ratio_LM : value;
  L1_M1_H0_sig_ratio_LH : value;
  L1_M1_H0_sig_ratio_MH : value;
  L1_M1_H0_sig_ratio_LM : value
}.

(** [sigB_filter]: the six conjuncts appended to the WHERE clause. *)
Definition sigB_filter (cutoff : Q) (r : quant_row) : truth :=
  all3 [ lt (L0_M0_H1_sig_ratio_HL r) (Some cutoff);
         lt (L0_M0_H1_sig_ratio_HM r) (Some cutoff);
         lt (L1_M1_H0_sig_ratio_LH r) (Some cutoff);
         lt (L1_M1_H0_sig_ratio_MH r) (Some cutoff);
         ge (L0_M0_H1_sig_ratio_LM r) (Some cutoff);
         ge (L1_M1_H0_sig_ratio_LM r) (Some cutoff) ].

(** [treat_gt_ctrl_ratio_filter]. *)
Definition treat_gt_ctrl_ratio_filter (r : quant_row) : truth :=
  gt (MIN (MAX (L0_M0_H1_norm_ratio_HL r) [L0_M0_H1_norm_ratio_LH r])
          [ MAX (L0_M0_H1_norm_ratio_HM r) [L0_M0_H1_norm_ratio_MH r];
            MAX (L1_M1_H0_norm_ratio_LH r) [L1_M1_H0_norm_ratio_HL r];
            MAX (L1_M1_H0_norm_ratio_MH r) [L1_M1_H0_norm_ratio_HM r] ])
     (MAX (L0_M0_H1_norm_ratio_LM r)
          [ L0_M0_H1_norm_ratio_ML r;
            L1_M1_H0_norm_ratio_LM r;
            L1_M1_H0_norm_ratio_ML r ]).

(** [extra_filter = sigB_filter if sigB_cutoff != 1 else
    treat_gt_ctrl_ratio_filter]. *)
Inductive filter_choice : Type :=
| UseSigBFilter
| UseTreatGtCtrlRatioFilter.

Definition extra_filter_choice (sigB : Q) : filter_choice :=
  if negb (Qeq_bool sigB 1) then UseSigBFilter
  else UseTreatGtCtrlRatioFilter.

Definition extra_filter (a : args) (r : quant_row) : truth :=
  match extra_filter_choice (sigB_cutoff a) with
  | UseSigBFilter => sigB_filter (sigB_cutoff a) r
  | UseTreatGtCtrlRatioFilter => treat_gt_ctrl_ratio_filter r
  end.

(** The dye-swap fold-change test of [sql_sel_pgrps]. *)
Definition fc_filter (cutoff : Q) (r : quant_row) : truth :=
  or3 (all3 [ gt (L0_M0_H1_norm_ratio_HL r) (Some cutoff);
              gt (L0_M0_H1_norm_ratio_HM r) (Some cutoff);
              gt (L1_M1_H0_norm_ratio_LH r) (Some cutoff);
              gt (L1_M1_H0_norm_ratio_MH r) (Some cutoff) ])
      (all3 [ gt (L0_M0_H1_norm_ratio_LH r) (Some cutoff);
              gt (L0_M0_H1_norm_ratio_MH r) (Some cutoff);
              gt (L1_M1_H0_norm_ratio_HL r) (Some cutoff);
              gt (L1_M1_H0_norm_ratio_HM r) (Some cutoff) ]).

(** The WHERE clause of [sql_sel_pgrps] on a row of the join (the two
    join conditions select the genes of the group and do not look at
    the ratios). *)
Definition where_clause (a : args) (r : quant_row) : truth :=
  and3 (fc_filter (fc_cutoff a) r) (extra_filter a r).

Definition selected (a : args) (r : quant_row) : bool :=
  holds (where_clause a r).

(** The magnitude rule in the words of the specification: the largest of
    the four treatment-direction ratios against the largest of the
    control-direction ratios. *)
Definition spec_treat_gt_ctrl (r : quant_row) : truth :=
  gt (MAX (L0_M0_H1_norm_ratio_HL r)
          [ L0_M0_H1_norm_ratio_HM r;
            L1_M1_H0_norm_ratio_LH r;
            L1_M1_H0_norm_ratio_MH r ])
     (MAX (L0_M0_H1_norm_ratio_LM r)
          [ L0_M0_H1_norm_ratio_ML r;
            L1_M1_H0_norm_ratio_LM r;
            L1_M1_H0_norm_ratio_ML r ]).

(** The significance rule in the words of the specification: the
    control p-values below the cutoff, the treatment ones at or above. *)
Definition spec_ctrl_below (cutoff : Q) (r : quant_row) : truth :=
  all3 [ lt (L0_M0_H1_sig_ratio_LM r) (Some cutoff);
         lt (L1_M1_H0_sig_ratio_LM r) (Some cutoff) ].

Definition spec_treat_at_or_above (cutoff : Q) (r : quant_row) : truth :=
  all3 [ ge (L0_M0_H1_sig_ratio_HL r) (Some cutoff);
         ge (L0_M0_H1_sig_ratio_HM r) (Some cutoff);
         ge (L1_M1_H0_sig_ratio_LH r) (Some cutoff);
         ge (L1_M1_H0_sig_ratio_MH r) (Some cutoff) ].

(** A row of [VVV_PGROUP_QUANT A] with what the join with [PROT2GRP B] and
    [V_PROTEIN C] pairs it with: the [gene] cells of the proteins of its
    group, one per protein, none for a group without protein. *)
Record group : Type := Group {
  quant : quant_row;
  gene : list (option string)
}.

(** The data base file: for each data set whose columns exist, the rows. *)
Definition database : Type := gmap string (list group).

(** A row of A takes part in the join when its group has a protein. *)
Definition joined (g : group) : bool := negb (bool_decide (gene g = [])).

(** Two rows of one [grp_id] under [GROUP BY A.grp_id]: the cells are read
    from the first one, the genes of both are aggregated. *)
Definition same_group (g h : group) : group :=
  Group (quant g) (gene g ++ gene h).

(** A row of the result set: [grp_id], [genes] and the remaining cells
    ([row[2:]]). *)
Record result_row : Type := ResultRow {
  r_grp_id : Z;
  r_genes : string;
  r_cells : list value
}.

(** [IFNULL(GROUP_CONCAT(DISTINCT gene), '-')]: the genes that are not NULL,
    each once, in the order the rows of the group are read. *)
Definition genes (gs : list (option string)) : string :=
  match DISTINCT (omap id gs) with
  | [] => "-"
  | l => String.concat "," l
  end.

(** The column names of the result set, in order. *)
Definition header : list string :=
  [ "grp_id"; "genes";
    "ratio_H1L0"; "ratio_L1H0"; "ratio_H1M0"; "ratio_M1H0";
    "ratio_L0M0"; "ratio_L1M1";
    "log2ratio_H1L0"; "log2ratio_L1H0"; "log2ratio_H1M0"; "log2ratio_M1H0";
    "log2ratio_L0M0"; "log2ratio_L1M1";
    "pval_H1L0"; "pval_L1H0"; "pval_H1M0"; "pval_M1H0";
    "pval_L0M0"; "pval_L1M1" ].

Section Run.

(** [math.log] on a positive binary64 number. *)
Variable ln : Q -> Q.

(** [str] on a binary64 number. *)
Variable str_float : Q -> string.

(** [math.log(x)]: a number is required, and a positive one. *)
Definition math_log (x : Py.value) : Py.result Q :=
  match x with
  | Py.VFloat q => if Qltb 0 q then Py.Return (ln q) else Py.Raise Py.ValueError
  | _ => Py.Raise Py.TypeError
  end.

(** The user-defined function [log(value, base)]. *)
Definition log (value base : Py.value) : Py.result Py.value :=
  Py.try_except
    (let* a := math_log value in
     let* b := math_log base in
     let* q := Py.truediv a b in
     Py.Return (Py.VFloat q))
    (Py.Return Py.VNone).

(** [LOG(x, 2)] in a query: what [log] returns, stored in a cell; a call
    that raised would fail the statement. *)
Definition LOG2 (x : value) : Py.result value :=
  let* v := log (Py.of_sql x) (Py.VFloat 2) in Py.Return (Py.to_sql v).

(** The select list of [sql_sel_pgrps] on one group. *)
Definition select_list (g : group) : Py.result result_row :=
  let r := quant g in
  let ratios :=
    [ L0_M0_H1_norm_ratio_HL r; L1_M1_H0_norm_ratio_LH r;
      L0_M0_H1_norm_ratio_HM r; L1_M1_H0_norm_ratio_MH r;
      L0_M0_H1_norm_ratio_LM r; L1_M1_H0_norm_ratio_LM r ] in
  let pvals :=
    [ L0_M0_H1_sig_ratio_HL r; L1_M1_H0_sig_ratio_LH r;
      L0_M0_H1_sig_ratio_HM r; L1_M1_H0_sig_ratio_MH r;
      L0_M0_H1_sig_ratio_LM r; L1_M1_H0_sig_ratio_LM r ] in
  let* logs := Py.mapM LOG2 ratios in
  Py.Return (ResultRow (grp_id r) (genes (gene g)) (ratios ++ logs ++ pvals)).

(** [cur.execute(sql_sel_pgrps)], read to its end: an [OperationalError]
    when the columns of the data set do not exist; otherwise the rows that
    take part in the join and pass the WHERE clause, one per [grp_id], by
    ascending [grp_id]. *)
Definition execute (a : args) (db : database) : Py.result (list result_row) :=
  match db !! dts a with
  | None => Py.Raise (Py.OperationalError "no such column")
  | Some groups =>
      Py.mapM select_list
        (GROUP_BY (fun g => grp_id (quant g)) same_group
           (List.filter (fun g => joined g && selected a (quant g)) groups))
  end.

(** One cell of [scores]. *)
Definition render_cell (x : value) : Py.result string :=
  match x with
  | None => Py.Return "NA"
  | Some _ => let* q := Py.float x in Py.Return (str_float (round_half_away 4 q))
  end.

(** The line written for one row of the result set. *)
Definition render_row (row : result_row) : Py.result string :=
  let* cells := Py.mapM render_cell (r_cells row) in
  let scores := String.concat Os.tab cells in
  Py.Return
    (String.concat Os.tab [pretty (r_grp_id row); r_genes row; scores]
     +:+ Os.linesep).

(** The loop over the result set: the header before the first row, then one
    line per row; [n_pgrps] counts the rows written. *)
Fixpoint write_rows (path : string) (rows : list result_row) (n_pgrps : nat)
    (w : Os.world) : Os.world * Py.result nat :=
  match rows with
  | [] => (w, Py.Return n_pgrps)
  | row :: rows' =>
      let w1 :=
        if Nat.eqb n_pgrps 0
        then Os.write path (String.concat Os.tab header +:+ Os.linesep) w
        else w in
      match render_row row with
      | Py.Raise e => (w1, Py.Raise e)
      | Py.Return srow => write_rows path rows' (S n_pgrps) (Os.write path srow w1)
      end
  end.

(** [os.path.join(os.path.dirname(dbfile), name)]. *)
Variable path_in_dir_of : string -> string -> string.

Definition outfile_of (a : args) : string :=
  match outfile a with
  | Some f => f
  | None => path_in_dir_of (dbfile a) (dts a +:+ "_fcsigB.tab")
  end.

(** [main] from the opening of the output file on. *)
Definition run (a : args) (db : database) (w : Os.world)
    : Os.world * Py.outcome :=
  let out := outfile_of a in
  let w := Os.open_w out w in
  match execute a db with
  | Py.Raise (Py.OperationalError err) =>
      let w := Os.eprint ("Error: Selected data set not found: " +:+ err) w in
      let w := Os.remove out w in
      (w, Py.Exit 1)
  | Py.Raise e => (w, Py.Uncaught e)
  | Py.Return rows =>
      match write_rows out rows 0 w with
      | (w, Py.Raise (Py.OperationalError err)) =>
          let w := Os.eprint ("Error: Selected data set not found: " +:+ err) w in
          let w := Os.remove out w in
          (w, Py.Exit 1)
      | (w, Py.Raise e) => (w, Py.Uncaught e)
      | (w, Py.Return n_pgrps) =>
          if Os.is_empty out w
          then (Os.remove out (Os.print "Nothing to write onto outfile." w),
                Py.Exit 0)
          else (Os.print ("Ndiff = " +:+ pretty n_pgrps) w, Py.Exit 0)
      end
  end.

(** ['%.<digits>f' % x]. *)
Variable format_float : nat -> Q -> string.

(** The text printed once the arguments are accepted. *)
Definition banner (a : args) : string :=
  Os.newline +:+ "dbfile = " +:+ dbfile a
  +:+ Os.newline +:+ "outfile = " +:+ outfile_of a
  +:+ Os.newline +:+ "dataset = " +:+ dts a
  +:+ Os.newline +:+ "FC cutoff = " +:+ format_float 4 (fc_cutoff a)
  +:+ Os.newline +:+ "P-value cutoff = " +:+ format_float 4 (sigB_cutoff a)
  +:+ Os.newline +:+ "   ".

(** [main]: the checks on the arguments, the text printed, then the run. *)
Definition main (a : args) (dbs : gmap string database) (w : Os.world)
    : Os.world * Py.outcome :=
  match dbs !! dbfile a with
  | None => (Os.eprint ("dbfile not found") w, Py.Exit 2)
  | Some db =>
      match check_args a with
      | Some FcCutoffTooSmall =>
          (Os.eprint "fold-change cutoff cannot be smaller than 1" w, Py.Exit 2)
      | Some SigBCutoffOutOfRange =>
          (Os.eprint "sigB cutoff (P-value) must be between 0 and 1" w, Py.Exit 2)
      | None => run a db (Os.print (banner a) w)
      end
  end.

End Run.

End FcSigB.

(** ** [DEA/mzscore.py]: standardized scores *)

Module MzScore.
Import Sql.

(** [ratio_types]: quantity names of the source table and the names of the
    ratio types derived from them. *)
Definition ratio_types : list (string * string) :=
  [ ("RATIO H/L", "raw_ratio_HL");
    ("RATIO H/M", "raw_ratio_HM");
    ("RATIO M/L", "raw_ratio_ML");
    ("RATIO H/L NORMALIZED", "norm_ratio_HL");
    ("RATIO H/M NORMALIZED", "norm_ratio_HM");
    ("RATIO M/L NORMALIZED", "norm_ratio_ML") ].

(** [score_types]: the score families of the command line and the column
    infix of each. *)
Definition score_types : list (string * string) :=
  [ ("Zr", "z_score_raw_ratio");
    ("Zn", "z_score_norm_ratio");
    ("Mr", "m_score_raw_ratio");
    ("Mn", "m_score_norm_ratio") ].

Fixpoint assoc {A : Type} (k : string) (l : list (string * A)) : option A :=
  match l with
  | [] => None
  | (k', v) :: l' => if bool_decide (k = k') then Some v else assoc k l'
  end.

(** A binary64 result of numpy. *)
Inductive npfloat : Type :=
| Finite (q : Q)
| NaN
| Inf.

(** A NaN handed to SQLite is stored as NULL.  An infinite result has no
    rational cell; the aggregates of this script never give one. *)
Definition result_double (x : npfloat) : value :=
  match x with
  | Finite q => Some q
  | NaN => None
  | Inf => None
  end.

Definition Qsum (xs : list Q) : Q := fold_right Qplus 0 xs.

Definition Qlen (xs : list Q) : Q := inject_Z (Z.of_nat (length xs)).

Definition np_mean (xs : list Q) : Q := Qsum xs / Qlen xs.

(** Sum of the squared deviations from the mean. *)
Definition sq_dev (xs : list Q) : Q :=
  Qsum (map (fun x => (x - np_mean xs) * (x - np_mean xs)) xs).

(** An array built from a list that holds [None] or a text is not a float
    array, and the arithmetic of the reductions raises on it. *)
Definition np_array (l : list Py.value) : Py.result (list Q) :=
  Py.mapM (fun v => match v with
                    | Py.VFloat q => Py.Return q
                    | _ => Py.Raise Py.TypeError
                    end) l.

Fixpoint insert_sorted (x : Q) (l : list Q) : list Q :=
  match l with
  | [] => [x]
  | y :: l' => if Qle_bool x y then x :: l else y :: insert_sorted x l'
  end.

Definition sort (l : list Q) : list Q := fold_right insert_sorted [] l.

(** [np.median]: the middle of the sorted values, the mean of the two middle
    ones for an even count, NaN for none. *)
Definition np_median (xs : list Q) : npfloat :=
  let s := sort xs in
  let n := length s in
  if Nat.eqb n 0 then NaN
  else if Nat.even n
       then Finite ((nth (n / 2 - 1) s 0 + nth (n / 2) s 0) / 2)
       else Finite (nth (n / 2) s 0).

Section Udf.

(** [math.log] and [math.sqrt] on a positive binary64 number, and
    [scipy.stats.norm.cdf]. *)
Variable ln : Q -> Q.
Variable fsqrt : Q -> Q.
Variable norm_cdf : Q -> Q.

Definition math_log (x : Py.value) : Py.result Q :=
  match x with
  | Py.VFloat q => if Qltb 0 q then Py.Return (ln q) else Py.Raise Py.ValueError
  | _ => Py.Raise Py.TypeError
  end.

(** The user-defined function [log(value, base)]. *)
Definition log (value base : Py.value) : Py.result Py.value :=
  Py.try_except
    (let* a := math_log value in
     let* b := math_log base in
     let* q := Py.truediv a b in
     Py.Return (Py.VFloat q))
    (Py.Return Py.VNone).

(** [abs(x)]. *)
Definition abs (x : Py.value) : Py.result Q :=
  match x with
  | Py.VFloat q => Py.Return (Qabs q)
  | _ => Py.Raise Py.TypeError
  end.

(** The user-defined function [pvalue(score)]. *)
Definition pvalue (score : Py.value) : Py.result Py.value :=
  Py.try_except
    (let* a := abs score in
     Py.Return (Py.VFloat (2 * norm_cdf (- a))))
    (Py.Return Py.VNone).

(** [math.sqrt(x)]: a number is required, and not a negative one. *)
Definition math_sqrt (x : Py.value) : Py.result Q :=
  match x with
  | Py.VFloat q =>
      if Qle_bool 0 q then Py.Return (fsqrt q) else Py.Raise Py.ValueError
  | _ => Py.Raise Py.TypeError
  end.

(** The user-defined function [sqrt(value)]. *)
Definition sqrt (value : Py.value) : Py.result Py.value :=
  Py.try_except
    (let* r := math_sqrt value in Py.Return (Py.VFloat r))
    (Py.Return Py.VNone).

(** [ndarray.std(ddof)]: the square root of the sum of squared deviations
    over [max(n - ddof, 0)]; a zero divisor gives NaN under a zero sum and
    infinity otherwise; no value at all gives NaN. *)
Definition np_std (ddof : Z) (xs : list Q) : npfloat :=
  let n := Z.of_nat (length xs) in
  let rcount := Z.max (n - ddof) 0 in
  if Z.eqb n 0 then NaN
  else if Z.eqb rcount 0
       then (if Qeq_bool (sq_dev xs) 0 then NaN else Inf)
       else Finite (fsqrt (sq_dev xs / inject_Z rcount)).

(** The aggregate class [Stdev]. *)
Record Stdev : Type := MkStdev { vec : list Py.value }.

Definition Stdev_init : Stdev := MkStdev [].

Definition Stdev_step (self : Stdev) (value : Py.value) : Stdev :=
  MkStdev (vec self ++ [value]).

Definition Stdev_finalize (self : Stdev) : Py.result npfloat :=
  let* a := np_array (vec self) in Py.Return (np_std 1 a).

(** The aggregate classes [Median] and [Mad]. *)
Record Median : Type := MkMedian { arr : list Py.value }.

Definition Median_init : Median := MkMedian [].

Definition Median_step (self : Median) (value : Py.value) : Median :=
  MkMedian (arr self ++ [value]).

Definition Median_finalize (self : Median) : Py.result npfloat :=
  let* a := np_array (arr self) in Py.Return (np_median a).

Record Mad : Type := MkMad { mad_arr : list Py.value }.

Definition Mad_init : Mad := MkMad [].

Definition Mad_step (self : Mad) (value : Py.value) : Mad :=
  MkMad (mad_arr self ++ [value]).

Definition Mad_finalize (self : Mad) : Py.result npfloat :=
  let* a := np_array (mad_arr self) in
  match np_median a with
  | Finite median =>
      Py.Return (np_median (map (fun x => Qabs (x - median)) a))
  | other => Py.Return other
  end.

(** An aggregate run over the cells of a bucket: one [step] per row, then
    [finalize], whose result is stored in a cell; an exception raised by
    [finalize] fails the statement with an [OperationalError]. *)
Definition finalize_error : Py.exn :=
  Py.OperationalError
    "user-defined aggregate's 'finalize' method raised error".

Definition STDEV (cells : list Py.value) : Py.result value :=
  match Stdev_finalize (fold_left Stdev_step cells Stdev_init) with
  | Py.Return x => Py.Return (result_double x)
  | Py.Raise _ => Py.Raise finalize_error
  end.

Definition MEDIAN (cells : list Py.value) : Py.result value :=
  match Median_finalize (fold_left Median_step cells Median_init) with
  | Py.Return x => Py.Return (result_double x)
  | Py.Raise _ => Py.Raise finalize_error
  end.

Definition MAD (cells : list Py.value) : Py.result value :=
  match Mad_finalize (fold_left Mad_step cells Mad_init) with
  | Py.Return x => Py.Return (result_double x)
  | Py.Raise _ => Py.Raise finalize_error
  end.

(** *** The tables and views of [sql_create_tables] *)

(** A row of [PGROUP_QUANT]. *)
Record pgroup_quant : Type := PgroupQuant {
  pq_grp_id : Z;
  pq_exp_name : string;
  quant_type : string;
  quant_value : value
}.

(** A row of [V_PGROUP_RATIO]. *)
Record ratio_row : Type := RatioRow {
  rr_grp_id : Z;
  rr_exp_name : string;
  rr_ratio_type : option string;
  ratio_value : value
}.

(** The WHERE clause of [V_PGROUP_RATIO] on a pair of rows of
    [PGROUP_QUANT A, V_PGROUP B]. *)
Definition ratio_where (A : pgroup_quant) (B : Z) : truth :=
  all3 [ Some (bool_decide (pq_grp_id A = B));
         Some (bool_decide (quant_type A ∈ (map fst ratio_types)));
         truthy (quant_value A) ].

Definition V_PGROUP_RATIO (PGROUP_QUANT : list pgroup_quant)
    (V_PGROUP : list Z) : list ratio_row :=
  flat_map (fun A =>
    flat_map (fun B =>
      if holds (ratio_where A B)
      then [ RatioRow (pq_grp_id A) (pq_exp_name A)
               (assoc (quant_type A) ratio_types) (quant_value A) ]
      else []) V_PGROUP) PGROUP_QUANT.

(** The view in the words of the specification: positive ratios only. *)
Definition spec_positive_only (v : list ratio_row) : Prop :=
  Forall (fun row => exists q, ratio_value row = Some q /\ 0 < q) v.

(** [LOG(x, 2)] in a statement: the value [log] returns, stored in a cell. *)
Definition LOG2 (x : value) : Py.result Py.value :=
  log (Py.of_sql x) (Py.VFloat 2).

(** A row of [PGROUP_LOG2RATIO_STAT]. *)
Record stat_row : Type := StatRow {
  st_exp_name : string;
  st_ratio_type : option string;
  n : Z;
  min : value;
  max : value;
  mean : value;
  median : value;
  sd : value;
  mad : value
}.

(** The built-in aggregates skip NULL cells. *)
Definition COUNT (cells : list value) : Z :=
  Z.of_nat (length (omap id cells)).

Definition agg (f : Q -> Q -> Q) (cells : list value) : value :=
  match omap id cells with
  | [] => None
  | x :: xs => Some (fold_left f xs x)
  end.

Definition AVG (cells : list value) : value :=
  match omap id cells with
  | [] => None
  | xs => Some (np_mean xs)
  end.

(** The rows of the view in one bucket of [GROUP BY exp_name, ratio_type]. *)
Definition bucket (view : list ratio_row) (key : string * option string)
    : list ratio_row :=
  List.filter (fun r => bool_decide ((rr_exp_name r, rr_ratio_type r) = key))
              view.

(** The row of [PGROUP_LOG2RATIO_STAT] for one bucket. *)
Definition stat_of_bucket (key : string * option string)
    (rows : list ratio_row) : Py.result stat_row :=
  let* logs := Py.mapM (fun r => LOG2 (ratio_value r)) rows in
  let cells := map Py.to_sql logs in
  let* med := MEDIAN logs in
  let* dev := STDEV logs in
  let* md := MAD logs in
  Py.Return (StatRow (fst key) (snd key)
               (COUNT (map ratio_value rows))
               (agg Qmin cells) (agg Qmax cells) (AVG cells) med dev md).

Definition PGROUP_LOG2RATIO_STAT (view : list ratio_row)
    : Py.result (list stat_row) :=
  Py.mapM (fun key => stat_of_bucket key (bucket view key))
          (remove_dups (map (fun r => (rr_exp_name r, rr_ratio_type r)) view)).

(** A row of [PGROUP_MZSCORE]. *)
Record mzscore_row : Type := MzscoreRow {
  mz_grp_id : Z;
  mz_exp_name : string;
  mz_ratio_type : option string;
  z_score : value;
  m_score : value
}.

(** The select list of [PGROUP_MZSCORE] on a pair of rows of
    [V_PGROUP_RATIO A, PGROUP_LOG2RATIO_STAT B]. *)
Definition mzscore_of (A : ratio_row) (B : stat_row) : Py.result mzscore_row :=
  let* l := LOG2 (ratio_value A) in
  let l := Py.to_sql l in
  Py.Return (MzscoreRow (rr_grp_id A) (rr_exp_name A) (rr_ratio_type A)
               (div (sub l (mean B)) (sd B))
               (div (mul (Some (6745 # 10000)) (sub l (median B))) (mad B))).

(** [A.exp_name = B.exp_name AND A.ratio_type = B.ratio_type]: a NULL ratio
    type equals nothing. *)
Definition mzscore_where (A : ratio_row) (B : stat_row) : bool :=
  bool_decide (rr_exp_name A = st_exp_name B)
  && match rr_ratio_type A, st_ratio_type B with
     | Some a, Some b => bool_decide (a = b)
     | _, _ => false
     end.

Definition PGROUP_MZSCORE (view : list ratio_row) (stats : list stat_row)
    : Py.result (list mzscore_row) :=
  Py.mapM (fun AB => mzscore_of (fst AB) (snd AB))
    (flat_map (fun A =>
       flat_map (fun B => if mzscore_where A B then [(A, B)] else []) stats)
       view).

End Udf.

(** *** The channel expansion [sql_create_view] *)

(** [r[:-2] + r[-2:][::-1]]: the name of the inverse ratio. *)
Definition inverse_ratio (r : string) : string :=
  let l := String.list_ascii_of_string r in
  let k := (length l - 2)%nat in
  String.string_of_list_ascii (take k l ++ rev (drop k l)).

(** [CASE WHEN exp_name = e AND ratio_type = r THEN f ELSE NULL END]. *)
Definition case_when (e r : string) (f : mzscore_row -> value)
    (row : mzscore_row) : value :=
  if bool_decide (mz_exp_name row = e)
     && bool_decide (mz_ratio_type row = Some r)
  then f row else None.

(** A view of the data base: the names of its columns, and for each group
    its cells by column. *)
Record view : Type := View {
  view_columns : list string;
  view_rows : list (Z * list (string * value))
}.

Section View.

(** A number written as text by [GROUP_CONCAT] and read back by [CAST]. *)
Variable text_roundtrip : Q -> Q.

(** [CAST(GROUP_CONCAT(cells) AS NUMERIC)]: the non-NULL cells are joined by
    commas, and the cast reads the number the text starts with. *)
Definition GROUP_CONCAT_NUMERIC (cells : list value) : value :=
  match omap id cells with
  | [] => None
  | q :: _ => Some (text_roundtrip q)
  end.

Definition channel_column (e r : string) (f : mzscore_row -> value)
    (rows : list mzscore_row) : value :=
  ROUND4 (GROUP_CONCAT_NUMERIC (map (case_when e r f) rows)).

(** The four columns added for experiment [e] and ratio type [r], on the
    rows of one group. *)
Definition channel (e r : string) (rows : list mzscore_row)
    : list (string * value) :=
  let rr := inverse_ratio r in
  [ (e +:+ "_z_score_" +:+ r, channel_column e r z_score rows);
    (e +:+ "_z_score_" +:+ rr,
       channel_column e r (fun x => neg (z_score x)) rows);
    (e +:+ "_m_score_" +:+ r, channel_column e r m_score rows);
    (e +:+ "_m_score_" +:+ rr,
       channel_column e r (fun x => neg (m_score x)) rows) ].

Definition channels (exp_names ratio_names : list string)
    (rows : list mzscore_row) : list (string * value) :=
  flat_map (fun e => flat_map (fun r => channel e r rows) ratio_names)
           exp_names.

(** [V_PGROUP_MZSCORE]: one row per [grp_id] of [PGROUP_MZSCORE]. *)
Definition V_PGROUP_MZSCORE (exp_names ratio_names : list string)
    (table : list mzscore_row) : view :=
  View (map fst (channels exp_names ratio_names []))
       (map (fun g =>
               (g, channels exp_names ratio_names
                     (List.filter (fun x => bool_decide (mz_grp_id x = g))
                                  table)))
            (remove_dups (map mz_grp_id table))).

End View.

(** *** The selection [sql_sel_pgrps] and the output *)

Record args : Type := Args {
  dbfile : string;
  outfile : option string;
  new_tabs : bool;
  dts : string;
  s : string;
  cutoff : Q
}.

Inductive arg_error : Type :=
| ScoreAndCutoffTogether
| NegativeCutoff.

(** The checks of the script on the parsed arguments; [-s] is one of the
    keys of [score_types]. *)
Definition check_args (a : args) : option arg_error :=
  if negb (bool_decide (s a = "")) && negb (Qeq_bool (cutoff a) 0)
  then (if Qltb (cutoff a) 0 then Some NegativeCutoff else None)
  else Some ScoreAndCutoffTogether.

Definition score_type (a : args) : string :=
  default "" (assoc (s a) score_types).

(** The name of a score column: data set, experiment, score family and
    ratio direction. *)
Definition column (a : args) (exp dir : string) : string :=
  dts a +:+ "_" +:+ exp +:+ "_" +:+ score_type a +:+ "_" +:+ dir.

Definition cell (row : list (string * value)) (name : string) : value :=
  default None (assoc name row).

(** The WHERE clause of [sql_sel_pgrps] on a row of the view. *)
Definition where_clause (a : args) (row : list (string * value)) : truth :=
  let c := Some (cutoff a) in
  let v exp dir := cell row (column a exp dir) in
  and3
    (or3 (all3 [ gt (v "L0_M0_H1" "HL") c; gt (v "L0_M0_H1" "HM") c;
                 gt (v "L1_M1_H0" "LH") c; gt (v "L1_M1_H0" "MH") c ])
         (all3 [ gt (v "L0_M0_H1" "LH") c; gt (v "L0_M0_H1" "MH") c;
                 gt (v "L1_M1_H0" "HL") c; gt (v "L1_M1_H0" "HM") c ]))
    (all3 [ le (v "L0_M0_H1" "ML") c; le (v "L0_M0_H1" "LM") c;
            le (v "L1_M1_H0" "ML") c; le (v "L1_M1_H0" "LM") c ]).

(** The columns the statement names. *)
Definition named_columns (a : args) : list string :=
  [ column a "L0_M0_H1" "HL"; column a "L1_M1_H0" "LH";
    column a "L0_M0_H1" "HM"; column a "L1_M1_H0" "MH";
    column a "L0_M0_H1" "LM"; column a "L1_M1_H0" "LM";
    column a "L0_M0_H1" "LH"; column a "L0_M0_H1" "MH";
    column a "L1_M1_H0" "HL"; column a "L1_M1_H0" "HM";
    column a "L0_M0_H1" "ML"; column a "L1_M1_H0" "ML" ].

Record result_row : Type := ResultRow {
  r_grp_id : Z;
  r_genes : string;
  r_cells : list value
}.

(** [IFNULL(GROUP_CONCAT(DISTINCT gene), '-')]: the genes that are not NULL,
    each once, in the order the rows of the group are read. *)
Definition genes (gs : list (option string)) : string :=
  match DISTINCT (omap id gs) with
  | [] => "-"
  | l => String.concat "," l
  end.

Definition header (a : args) : list string :=
  [ "grp_id"; "genes";
    s a +:+ "_H1L0"; s a +:+ "_L1H0"; s a +:+ "_H1M0"; s a +:+ "_M1H0";
    s a +:+ "_L0M0"; s a +:+ "_L1M1";
    "pval_H1L0"; "pval_L1H0"; "pval_H1M0"; "pval_M1H0";
    "pval_L0M0"; "pval_L1M1" ].

(** The data base file.  [gene] gives, for a group, the [gene] cells of its
    proteins in the join of [PROT2GRP] with [V_PROTEIN], one per protein; a
    group without protein has none. *)
Record database : Type := Database {
  PGROUP_QUANT : list pgroup_quant;
  V_PGROUP : list Z;
  EXPERIMENT : list string;
  stored_V_PGROUP_MZSCORE : option view;
  gene : gmap Z (list (option string))
}.

(** The [gene] cells a row of the view is joined with. *)
Definition genes_of (gene_of : gmap Z (list (option string))) (g : Z)
    : list (option string) :=
  default [] (gene_of !! g).

Section Run.

Variable ln : Q -> Q.
Variable fsqrt : Q -> Q.
Variable norm_cdf : Q -> Q.
Variable text_roundtrip : Q -> Q.
Variable str_float : Q -> string.
Variable path_in_dir_of : string -> string -> string.

(** ['%.<digits>f' % x]. *)
Variable format_float : nat -> Q -> string.

(** [PVALUE(x)] in a statement. *)
Definition PVALUE (x : value) : Py.result value :=
  let* v := pvalue norm_cdf (Py.of_sql x) in Py.Return (Py.to_sql v).

(** The select list of [sql_sel_pgrps] on a row of the view joined with the
    genes of its group. *)
Definition select_list (a : args) (g : Z) (row : list (string * value))
    (gs : list (option string)) : Py.result result_row :=
  let scores := map (cell row) (take 6 (named_columns a)) in
  let* pvals := Py.mapM PVALUE scores in
  Py.Return (ResultRow g (genes gs) (scores ++ pvals)).

(** A row of the view takes part in the join when its group has a
    protein. *)
Definition joined (gene_of : gmap Z (list (option string)))
    (gr : Z * list (string * value)) : bool :=
  negb (bool_decide (genes_of gene_of (fst gr) = [])).

(** [cur.execute(sql_sel_pgrps)], read to its end: an [OperationalError]
    when the view or one of the named columns does not exist; otherwise the
    rows of the view that take part in the join and pass the WHERE clause,
    one per [grp_id] (the first one met), by ascending [grp_id]. *)
Definition execute (a : args) (v : option view)
    (gene_of : gmap Z (list (option string)))
    : Py.result (list result_row) :=
  match v with
  | None => Py.Raise (Py.OperationalError "no such table: V_PGROUP_MZSCORE")
  | Some v =>
      if forallb (fun c => bool_decide (c ∈ view_columns v)) (named_columns a)
      then
        Py.mapM (fun gr =>
                   select_list a (fst gr) (snd gr)
                     (genes_of gene_of (fst gr)))
          (GROUP_BY fst (fun gr _ => gr)
             (List.filter (fun gr =>
                             joined gene_of gr
                             && holds (where_clause a (snd gr)))
                          (view_rows v)))
      else Py.Raise (Py.OperationalError "no such column")
  end.

(** One element of [scores]. *)
Definition render_cell (x : value) : Py.result string :=
  let* q := Py.float x in Py.Return (str_float (round_half_away 4 q)).

(** The line written for one row of the result set. *)
Definition render_row (row : result_row) : Py.result string :=
  let* scores := Py.mapM render_cell (r_cells row) in
  Py.Return
    (pretty (r_grp_id row) +:+ Os.tab +:+ r_genes row +:+ Os.tab
     +:+ String.concat Os.tab scores +:+ Os.linesep).

Fixpoint write_rows (a : args) (path : string) (rows : list result_row)
    (n_pgrps : nat) (w : Os.world) : Os.world * Py.result nat :=
  match rows with
  | [] => (w, Py.Return n_pgrps)
  | row :: rows' =>
      let w1 :=
        if Nat.eqb n_pgrps 0
        then Os.write path (String.concat Os.tab (header a) +:+ Os.linesep) w
        else w in
      match render_row row with
      | Py.Raise e => (w1, Py.Raise e)
      | Py.Return srow =>
          write_rows a path rows' (S n_pgrps) (Os.write path srow w1)
      end
  end.

(** The output file: the one given, or
    ['%s_mzscore_%s_%.2f.tab' % (dts, stype, cutoff)] beside the data base. *)
Definition outfile_of (a : args) : string :=
  match outfile a with
  | Some f => f
  | None =>
      path_in_dir_of (dbfile a)
        (dts a +:+ "_mzscore_" +:+ s a +:+ "_"
         +:+ format_float 2 (cutoff a) +:+ ".tab")
  end.

(** What [executescript(sql_create_view)] raises when there is no
    experiment or no ratio type: the loop adds no column and the select list
    of the statement ends with the comma after [grp_id]. *)
Definition empty_select_list : Py.exn :=
  Py.OperationalError "near FROM: syntax error".

(** The statements run under [-n]: the tables and views are built anew from
    [PGROUP_QUANT].  The names put between quotes in [sql_create_view] are
    taken to hold no quote. *)
Definition populate (db : database) : Py.result view :=
  let ratios := V_PGROUP_RATIO (PGROUP_QUANT db) (V_PGROUP db) in
  let* stats := PGROUP_LOG2RATIO_STAT ln fsqrt ratios in
  let* table := PGROUP_MZSCORE ln ratios stats in
  let exp_names := remove_dups (EXPERIMENT db) in
  let ratio_names :=
    remove_dups (map (fun st => default "None" (st_ratio_type st)) stats) in
  match exp_names, ratio_names with
  | _ :: _, _ :: _ =>
      Py.Return (V_PGROUP_MZSCORE text_roundtrip exp_names ratio_names table)
  | _, _ => Py.Raise empty_select_list
  end.

(** The part of the script that writes the results. *)
Definition write_results (a : args) (v : option view)
    (gene_of : gmap Z (list (option string))) (w : Os.world)
    : Os.world * Py.outcome :=
  let out := outfile_of a in
  let w := Os.open_w out w in
  match execute a v gene_of with
  | Py.Raise (Py.OperationalError err) =>
      (Os.eprint ("Error: Selected data set not found: " +:+ err) w, Py.Exit 1)
  | Py.Raise e => (w, Py.Uncaught e)
  | Py.Return rows =>
      match write_rows a out rows 0 w with
      | (w, Py.Raise (Py.OperationalError err)) =>
          (Os.eprint ("Error: Selected data set not found: " +:+ err) w,
           Py.Exit 1)
      | (w, Py.Raise e) => (w, Py.Uncaught e)
      | (w, Py.Return n_pgrps) =>
          if Os.is_empty out w
          then (Os.remove out (Os.print "Nothing to write onto outfile." w),
                Py.Exit 0)
          else (Os.print ("Ndiff = " +:+ pretty n_pgrps) w, Py.Exit 0)
      end
  end.

(** The script from the connection to the data base on. *)
Definition run (a : args) (db : database) (w : Os.world)
    : Os.world * Py.outcome :=
  if new_tabs a
  then match populate db with
       | Py.Raise e => (w, Py.Uncaught e)
       | Py.Return v => write_results a (Some v) (gene db) w
       end
  else write_results a (stored_V_PGROUP_MZSCORE db) (gene db) w.

(** The text printed once the arguments are accepted. *)
Definition banner (a : args) : string :=
  Os.newline +:+ "dbfile = " +:+ dbfile a
  +:+ Os.newline +:+ "outfile = " +:+ outfile_of a
  +:+ Os.newline +:+ "dataset = " +:+ dts a
  +:+ Os.newline +:+ "re-score = " +:+ (if new_tabs a then "True" else "False")
  +:+ Os.newline +:+ "score type = " +:+ s a
  +:+ Os.newline +:+ "score cutoff = " +:+ format_float 2 (cutoff a)
  +:+ Os.newline.

(** The script: the checks on the arguments, the text printed, then the
    run. *)
Definition main (a : args) (dbs : gmap string database) (w : Os.world)
    : Os.world * Py.outcome :=
  match dbs !! dbfile a with
  | None => (Os.eprint "dbfile not found" w, Py.Exit 2)
  | Some db =>
      match check_args a with
      | Some ScoreAndCutoffTogether =>
          (Os.eprint "-s and -c args must be used together" w, Py.Exit 2)
      | Some NegativeCutoff =>
          (Os.eprint "the absolute score cutoff must be a positive value" w,
           Py.Exit 2)
      | None => run a db (Os.print (banner a) w)
      end
  end.

End Run.

End MzScore.

(** ** The standard normal distribution, and [pvalue] on real scores *)

Module Normal.
Import Reals Lra.
Local Open Scope R_scope.

(** The coefficient of [y ^ n] in the series of the integral of
    [exp (- t * t / 2)] from 0 to [x], written [x * sum] with
    [y = x * x / 2]. *)
Definition coef (n : nat) : R :=
  (-1) ^ n / (INR (fact n) * INR (2 * n + 1)).

(** The series converges for every [y] (ratio test). *)
Definition series_exists (y : R) : {l : R | Pser coef y l}.
Proof.
  apply Alembert_C3.
  - intros n. unfold coef. apply Rmult_integral_contrapositive_currified.
    + apply pow_nonzero. lra.
    + apply Rinv_neq_0_compat, Rmult_integral_contrapositive_currified.
      * apply INR_fact_neq_0.
      * apply not_0_INR. lia.
  - intros eps Heps.
    destruct (Alembert_exp eps Heps) as (N & HN).
    exists N. intros n Hn. specialize (HN n Hn).
    unfold Rdist in *. rewrite Rminus_0_r in *. rewrite Rabs_Rabsolu in *.
    eapply Rle_lt_trans; [|exact HN].
    assert (H1 : 0 < INR (fact n)) by apply INR_fact_lt_0.
    assert (H2 : 0 < INR (2 * n + 1)) by (apply lt_0_INR; lia).
    assert (H3 : 0 < INR (2 * n + 3)) by (apply lt_0_INR; lia).
    assert (H4 : 0 < INR (S n)) by (apply lt_0_INR; lia).
    assert (H5 : (-1) ^ n <> 0) by (apply pow_nonzero; lra).
    assert (H23 : INR (2 * n + 1) <= INR (2 * n + 3)) by (apply le_INR; lia).
    assert (E1 : coef (S n) / coef n
                 = - (INR (2 * n + 1) / (INR (S n) * INR (2 * n + 3)))).
    { unfold coef.
      replace (2 * S n + 1)%nat with (2 * n + 3)%nat by lia.
      rewrite fact_simpl, mult_INR, <- tech_pow_Rmult.
      field. repeat split; try (apply Rgt_not_eq; assumption). exact H5. }
    assert (E2 : / INR (fact (S n)) * / / INR (fact n) = / INR (S n)).
    { rewrite fact_simpl, mult_INR. field.
      split; apply Rgt_not_eq; assumption. }
    rewrite E1, E2, Rabs_Ropp.
    rewrite (Rabs_pos_eq (/ INR (S n)));
      [|apply Rlt_le, Rinv_0_lt_compat, H4].
    rewrite Rabs_pos_eq.
    + apply (Rmult_le_reg_r (INR (S n) * INR (2 * n + 3)));
        [apply Rmult_lt_0_compat; assumption|].
      replace (INR (2 * n + 1) / (INR (S n) * INR (2 * n + 3)) *
               (INR (S n) * INR (2 * n + 3))) with (INR (2 * n + 1))
        by (field; split; apply Rgt_not_eq; assumption).
      replace (/ INR (S n) * (INR (S n) * INR (2 * n + 3)))
        with (INR (2 * n + 3)) by (field; apply Rgt_not_eq; assumption).
      exact H23.
    + apply Rmult_le_pos; [apply Rlt_le, H2|].
      apply Rlt_le, Rinv_0_lt_compat, Rmult_lt_0_compat; assumption.
Qed.

Definition series (y : R) : R := proj1_sig (series_exists y).

(** The distribution function of the standard normal law, by its series
    at 0:
    [Phi x = 1/2 + (x - x^3/6 + x^5/40 - ...) / sqrt (2 * PI)]. *)
Definition Phi (x : R) : R :=
  1 / 2 + x * series (x * x / 2) / sqrt (2 * PI).

(** The terms of the series at [y], without their signs. *)
Definition term (y : R) (n : nat) : R :=
  y ^ n / (INR (fact n) * INR (2 * n + 1)).

(** A score as a real number, [None] or a text. *)
Inductive value : Type :=
| VNone
| VFloat (x : R)
| VStr (s : string).

(** [abs(x)]. *)
Definition abs (x : value) : Py.result R :=
  match x with
  | VFloat r => Py.Return (Rabs r)
  | _ => Py.Raise Py.TypeError
  end.

(** The user-defined function [pvalue(score)] in exact arithmetic, with
    [Phi] for [scipy.stats.norm.cdf]. *)
Definition pvalue (score : value) : Py.result value :=
  Py.try_except
    (let* a := abs score in
     Py.Return (VFloat (2 * Phi (- a))))
    (Py.Return VNone).

End Normal.

(** * Sample data *)

Module Samples.
Import Sql.

Definition default_args : FcSigB.args :=
  FcSigB.Args "VH10" 1 1 None "piqmie.sqlite".

Definition sig_args : FcSigB.args :=
  FcSigB.Args "VH10" 1 (1 # 20) None "piqmie.sqlite".

(** One strong treatment channel, three moderate ones, and control ratios
    in between. *)
Definition lopsided_group : FcSigB.quant_row :=
  FcSigB.QuantRow 7
    (Some 10) (Some (1 # 10)) (Some 2) (Some (1 # 2))
    (Some 5) (Some (1 # 5))
    (Some (1 # 2)) (Some 2) (Some (1 # 2)) (Some 2)
    (Some 5) (Some (1 # 5))
    None None None None None None.

(** Treatment clearly above control, significant treatment p-values and
    unremarkable control p-values. *)
Definition regulated_group : FcSigB.quant_row :=
  FcSigB.QuantRow 11
    (Some (5 # 2)) (Some (2 # 5)) (Some (5 # 2)) (Some (2 # 5))
    (Some (1 # 2)) (Some 2)
    (Some (2 # 5)) (Some (5 # 2)) (Some (2 # 5)) (Some (5 # 2))
    (Some (1 # 2)) (Some 2)
    (Some (1 # 100)) (Some (1 # 100)) (Some (9 # 10))
    (Some (1 # 100)) (Some (1 # 100)) (Some (9 # 10)).

(** A source table with one negative H/L ratio. *)
Definition negative_quant : list MzScore.pgroup_quant :=
  [ MzScore.PgroupQuant 1 "VH10_L0_M0_H1" "RATIO H/L" (Some (-1 # 1)) ].

(** The scores of one group in two experiments. *)
Definition scored_group : list MzScore.mzscore_row :=
  [ MzScore.MzscoreRow 3 "VH10_L0_M0_H1" (Some "raw_ratio_HL")
      (Some (123456 # 100000)) (Some (-5 # 3));
    MzScore.MzscoreRow 3 "VH10_L1_M1_H0" (Some "raw_ratio_HL")
      (Some (-2 # 1)) None ].

(** A run of [mzscore.py] on the raw-ratio Z-scores of VH10. *)
Definition mz_args : MzScore.args :=
  MzScore.Args "piqmie.sqlite" (Some "out.tab") false "VH10" "Zr" (196 # 100).

(** A stored view with the twelve columns the selection names and one
    group, selected through the mirrored channels, whose forward H/L score
    of the first experiment is NULL. *)
Definition null_forward_row : list (string * value) :=
  [ ("VH10_L0_M0_H1_z_score_raw_ratio_HL", None);
    ("VH10_L1_M1_H0_z_score_raw_ratio_LH", Some (-3 # 1));
    ("VH10_L0_M0_H1_z_score_raw_ratio_HM", Some (-3 # 1));
    ("VH10_L1_M1_H0_z_score_raw_ratio_MH", Some (-3 # 1));
    ("VH10_L0_M0_H1_z_score_raw_ratio_LM", Some 0);
    ("VH10_L1_M1_H0_z_score_raw_ratio_LM", Some 0);
    ("VH10_L0_M0_H1_z_score_raw_ratio_LH", Some 3);
    ("VH10_L0_M0_H1_z_score_raw_ratio_MH", Some 3);
    ("VH10_L1_M1_H0_z_score_raw_ratio_HL", Some 3);
    ("VH10_L1_M1_H0_z_score_raw_ratio_HM", Some 3);
    ("VH10_L0_M0_H1_z_score_raw_ratio_ML", Some 0);
    ("VH10_L1_M1_H0_z_score_raw_ratio_ML", Some 0) ].

Definition null_forward_view : MzScore.view :=
  MzScore.View (map fst null_forward_row) [ (5%Z, null_forward_row) ].

Definition one_gene : gmap Z (list (option string)) :=
  {[ 5%Z := [ Some "TP53" ] ]}.

(** A group of [fcsigB.py] selected in magnitude mode, without p-values. *)
Definition no_pvalue_group : FcSigB.group :=
  FcSigB.Group
    (FcSigB.QuantRow 11
       (Some (5 # 2)) (Some (2 # 5)) (Some (5 # 2)) (Some (2 # 5))
       (Some (1 # 2)) (Some 2)
       (Some (2 # 5)) (Some (5 # 2)) (Some (2 # 5)) (Some (5 # 2))
       (Some (1 # 2)) (Some 2)
       None None None None None None)
    [ Some "TP53" ].

End Samples.


(** * Vocabulary of the statements below *)

Module Terms.
Import Sql.

(** A cell that holds a number above, or at most, a cutoff. *)
Definition exceeds (v : value) (c : Q) : Prop :=
  exists x, v = Some x /\ c < x.

Definition at_most (v : value) (c : Q) : Prop :=
  exists x, v = Some x /\ x <= c.


(** The text of a file written line by line. *)
Definition text (lines : list string) : string :=
  fold_right String.append "" lines.

(** A row of the ratio view whose ratio has a logarithm. *)
Definition transformable (r : MzScore.ratio_row) : Prop :=
  exists q, MzScore.ratio_value r = Some q /\ 0 < q.

(** The key of [GROUP BY exp_name, ratio_type], on a row of the ratio view
    and on a row of statistics. *)
Definition bucket_key (r : MzScore.ratio_row) : string * option string :=
  (MzScore.rr_exp_name r, MzScore.rr_ratio_type r).

Definition stat_key (st : MzScore.stat_row) : string * option string :=
  (MzScore.st_exp_name st, MzScore.st_ratio_type st).

(** What identifies a measurement: group, experiment and ratio type. *)
Definition ratio_id (r : MzScore.ratio_row) : Z * string * option string :=
  (MzScore.rr_grp_id r, MzScore.rr_exp_name r, MzScore.rr_ratio_type r).

Definition score_id (z : MzScore.mzscore_row) : Z * string * option string :=
  (MzScore.mz_grp_id z, MzScore.mz_exp_name z, MzScore.mz_ratio_type z).

(** The header lines of the two scripts. *)
Definition fc_header_line : string :=
  String.concat Os.tab FcSigB.header +:+ Os.linesep.

Definition mz_header_line (a : MzScore.args) : string :=
  String.concat Os.tab (MzScore.header a) +:+ Os.linesep.

(** The loop both scripts run over the rows of the result set, for a
    header line and a way to write a row. *)
Fixpoint write_loop {R : Type} (hdr : string) (render : R -> Py.result string)
    (path : string) (rows : list R) (n_pgrps : nat) (w : Os.world)
    : Os.world * Py.result nat :=
  match rows with
  | [] => (w, Py.Return n_pgrps)
  | row :: rows' =>
      let w1 := if Nat.eqb n_pgrps 0 then Os.write path hdr w else w in
      match render row with
      | Py.Raise e => (w1, Py.Raise e)
      | Py.Return srow =>
          write_loop hdr render path rows' (S n_pgrps) (Os.write path srow w1)
      end
  end.

End Terms.

(** * More sample data *)

Module MoreSamples.
Import Sql Samples.

(** A data base of [fcsigB.py] with the columns of VH10 and one group. *)
Definition sample_db : FcSigB.database :=
  {[ "VH10" := [ no_pvalue_group ] ]}.

Definition empty_world : Os.world := Os.World ∅ [] [].

(** A source table with two groups measured in one experiment. *)
Definition two_quant : list MzScore.pgroup_quant :=
  [ MzScore.PgroupQuant 1 "VH10_L0_M0_H1" "RATIO H/L" (Some 2);
    MzScore.PgroupQuant 2 "VH10_L0_M0_H1" "RATIO H/L" (Some 4);
    MzScore.PgroupQuant 2 "VH10_L0_M0_H1" "RATIO H/M" (Some 8);
    MzScore.PgroupQuant 3 "VH10_L0_M0_H1" "RATIO H/M" None ].

(** A stored view of [mzscore.py] with one group whose four treatment
    scores are 3 in both experiments and whose control scores are 0. *)
Definition regulated_row : list (string * value) :=
  [ ("VH10_L0_M0_H1_z_score_raw_ratio_HL", Some 3);
    ("VH10_L1_M1_H0_z_score_raw_ratio_LH", Some 3);
    ("VH10_L0_M0_H1_z_score_raw_ratio_HM", Some 3);
    ("VH10_L1_M1_H0_z_score_raw_ratio_MH", Some 3);
    ("VH10_L0_M0_H1_z_score_raw_ratio_LM", Some 0);
    ("VH10_L1_M1_H0_z_score_raw_ratio_LM", Some 0);
    ("VH10_L0_M0_H1_z_score_raw_ratio_LH", Some (-3 # 1));
    ("VH10_L0_M0_H1_z_score_raw_ratio_MH", Some (-3 # 1));
    ("VH10_L1_M1_H0_z_score_raw_ratio_HL", Some (-3 # 1));
    ("VH10_L1_M1_H0_z_score_raw_ratio_HM", Some (-3 # 1));
    ("VH10_L0_M0_H1_z_score_raw_ratio_ML", Some 0);
    ("VH10_L1_M1_H0_z_score_raw_ratio_ML", Some 0) ].

Definition regulated_view : MzScore.view :=
  MzScore.View (map fst regulated_row) [ (5%Z, regulated_row) ].

(** Rows of [fcsigB.py] that pass the WHERE clause: one with three proteins,
    two of them of the same gene and one without gene, and one without
    protein. *)
Definition three_proteins_group : FcSigB.group :=
  FcSigB.Group
    (FcSigB.QuantRow 7
       (Some (5 # 2)) (Some (2 # 5)) (Some (5 # 2)) (Some (2 # 5))
       (Some (1 # 2)) (Some 2)
       (Some (2 # 5)) (Some (5 # 2)) (Some (2 # 5)) (Some (5 # 2))
       (Some (1 # 2)) (Some 2)
       None None None None None None)
    [ Some "B"; Some "A"; None; Some "B" ].

Definition no_protein_group : FcSigB.group :=
  FcSigB.Group
    (FcSigB.QuantRow 9
       (Some (5 # 2)) (Some (2 # 5)) (Some (5 # 2)) (Some (2 # 5))
       (Some (1 # 2)) (Some 2)
       (Some (2 # 5)) (Some (5 # 2)) (Some (2 # 5)) (Some (5 # 2))
       (Some (1 # 2)) (Some 2)
       None None None None None None)
    [].

Definition mixed_db : FcSigB.database :=
  {[ "VH10" := [ no_pvalue_group; no_protein_group; three_proteins_group ] ]}.

(** A run of [mzscore.py] without [-o], at the cutoff 2. *)
Definition mz_args_no_outfile : MzScore.args :=
  MzScore.Args "piqmie.sqlite" None false "VH10" "Zr" 2.

(** A stored view with three regulated groups, of which one has proteins of
    two genes, one a protein without gene and one no protein. *)
Definition three_group_view : MzScore.view :=
  MzScore.View (map fst regulated_row)
    [ (8%Z, regulated_row); (6%Z, regulated_row); (5%Z, regulated_row) ].

Definition some_genes : gmap Z (list (option string)) :=
  {[ 5%Z := [ Some "B"; Some "A"; Some "B" ]; 8%Z := [ None ] ]}.

End MoreSamples.
(** * Facts about cells and conditions *)

Lemma Qltb_lt (x y : Q) : Qltb x y = true <-> x < y.
Proof.
  unfold Qltb. rewrite negb_true_iff. split.
  - intros H. apply Qnot_le_lt. intros Hle.
    apply Qle_bool_iff in Hle. congruence.
  - intros H. destruct (Qle_bool y x) eqn:E; [|reflexivity].
    apply Qle_bool_iff in E. exfalso. apply (Qlt_not_le _ _ H E).
Qed.

Module SqlFacts.
Import Sql.

Lemma holds_and3 (a b : truth) :
  holds (and3 a b) = holds a && holds b.
Proof. destruct a as [[]|], b as [[]|]; reflexivity. Qed.

Lemma holds_or3 (a b : truth) :
  holds (or3 a b) = holds a || holds b.
Proof. destruct a as [[]|], b as [[]|]; reflexivity. Qed.

Lemma holds_all3 (l : list truth) :
  holds (all3 l) = forallb holds l.
Proof.
  induction l as [|t l IH]; [reflexivity|].
  simpl. rewrite holds_and3, IH. reflexivity.
Qed.

Lemma holds_cmp (op : Q -> Q -> bool) (a b : value) :
  holds (cmp op a b) = true <->
  exists x y, a = Some x /\ b = Some y /\ op x y = true.
Proof.
  destruct a as [x|], b as [y|]; simpl; split;
    try (intros H; discriminate H);
    try (intros (x' & y' & H1 & H2 & _); discriminate).
  - destruct (op x y) eqn:E; [|discriminate].
    intros _. exists x, y. repeat split. exact E.
  - intros (x' & y' & [= <-] & [= <-] & H). now rewrite H.
Qed.

Lemma holds_gt (a : value) (c : Q) :
  holds (gt a (Some c)) = true <-> exists x, a = Some x /\ c < x.
Proof.
  unfold gt. rewrite holds_cmp. split.
  - intros (x & y & -> & [= <-] & H). exists x. split; [reflexivity|].
    now apply Qltb_lt.
  - intros (x & -> & H). exists x, c. repeat split. now apply Qltb_lt.
Qed.

Lemma holds_lt (a : value) (c : Q) :
  holds (lt a (Some c)) = true <-> exists x, a = Some x /\ x < c.
Proof.
  unfold lt. rewrite holds_cmp. split.
  - intros (x & y & -> & [= <-] & H). exists x. split; [reflexivity|].
    now apply Qltb_lt.
  - intros (x & -> & H). exists x, c. repeat split. now apply Qltb_lt.
Qed.

Lemma holds_ge (a : value) (c : Q) :
  holds (ge a (Some c)) = true <-> exists x, a = Some x /\ c <= x.
Proof.
  unfold ge. rewrite holds_cmp. split.
  - intros (x & y & -> & [= <-] & H). exists x. split; [reflexivity|].
    now apply Qle_bool_iff.
  - intros (x & -> & H). exists x, c. repeat split. now apply Qle_bool_iff.
Qed.

Lemma holds_le (a : value) (c : Q) :
  holds (le a (Some c)) = true <-> exists x, a = Some x /\ x <= c.
Proof.
  unfold le. rewrite holds_cmp. split.
  - intros (x & y & -> & [= <-] & H). exists x. split; [reflexivity|].
    now apply Qle_bool_iff.
  - intros (x & -> & H). exists x, c. repeat split. now apply Qle_bool_iff.
Qed.

Lemma lift2_Some (f : Q -> Q -> Q) (a b : value) (z : Q) :
  lift2 f a b = Some z <->
  exists x y, a = Some x /\ b = Some y /\ z = f x y.
Proof.
  destruct a as [x|], b as [y|]; simpl; split;
    try (intros H; discriminate H);
    try (intros (x' & y' & H1 & H2 & _); discriminate).
  - intros [= <-]. now exists x, y.
  - intros (x' & y' & [= <-] & [= <-] & ->). reflexivity.
Qed.

(** *** [GROUP BY] on an integer key *)

Section GroupBy.

Context {A : Type}.
Variable key : A -> Z.
Variable merge : A -> A -> A.
Hypothesis merge_key : forall x y, key (merge x y) = key x.

Lemma group_insert_keys (x : A) (l : list A) (k : Z) :
  In k (map key (group_insert key merge x l)) <->
  k = key x \/ In k (map key l).
Proof.
  induction l as [|y l IH]; cbn [group_insert map In].
  - intuition.
  - destruct (key x <? key y)%Z eqn:E1; cbn [map In]; [intuition|].
    destruct (key x =? key y)%Z eqn:E2; cbn [map In].
    + apply Z.eqb_eq in E2. rewrite merge_key. intuition congruence.
    + rewrite IH. intuition.
Qed.

Lemma group_insert_sorted (x : A) (l : list A) :
  Sorted Z.lt (map key l) ->
  Sorted Z.lt (map key (group_insert key merge x l)).
Proof.
  induction l as [|y l IH]; cbn [group_insert map]; intros Hs.
  - repeat constructor.
  - apply Sorted_inv in Hs. destruct Hs as [Hs Hd].
    destruct (key x <? key y)%Z eqn:E1; cbn [map].
    + apply Z.ltb_lt in E1. repeat constructor; assumption.
    + destruct (key x =? key y)%Z eqn:E2; cbn [map].
      * rewrite merge_key. now constructor.
      * apply Z.ltb_ge in E1. apply Z.eqb_neq in E2.
        constructor; [now apply IH|].
        destruct l as [|z l]; cbn [group_insert map].
        -- constructor. lia.
        -- apply HdRel_inv in Hd. cbn [map] in Hd.
           destruct (key x <? key z)%Z; cbn [map]; [constructor; lia|].
           destruct (key x =? key z)%Z; cbn [map]; constructor;
             [now rewrite merge_key|exact Hd].
Qed.

Lemma group_insert_not_nil (x : A) (l : list A) :
  group_insert key merge x l <> [].
Proof.
  destruct l as [|y l]; cbn [group_insert]; [discriminate|].
  destruct (key x <? key y)%Z; [discriminate|].
  destruct (key x =? key y)%Z; discriminate.
Qed.

Lemma GROUP_BY_from (acc rows : list A) :
  Sorted Z.lt (map key acc) ->
  let out := fold_left (fun acc x => group_insert key merge x acc) rows acc in
  Sorted Z.lt (map key out) /\
  (forall k, In k (map key out) <-> In k (map key acc) \/ In k (map key rows))
  /\ (out = [] <-> acc = [] /\ rows = []).
Proof.
  revert acc. induction rows as [|x rows IH]; intros acc Hs; cbn [fold_left].
  - cbn [map In]. intuition.
  - destruct (IH (group_insert key merge x acc) (group_insert_sorted x acc Hs))
      as (H1 & H2 & H3).
    split; [exact H1|]. split.
    + intros k. rewrite H2, group_insert_keys. cbn [map In]. intuition.
    + rewrite H3. split.
      * intros [H _]. now apply group_insert_not_nil in H.
      * intros [_ H]. discriminate.
Qed.

(** The rows of a [GROUP BY] come by strictly ascending key, one per key of
    the rows grouped. *)
Lemma GROUP_BY_sorted (rows : list A) :
  StronglySorted Z.lt (map key (GROUP_BY key merge rows)).
Proof.
  apply Sorted_StronglySorted; [intros x y z; apply Z.lt_trans|].
  apply (GROUP_BY_from [] rows). constructor.
Qed.

Lemma GROUP_BY_keys (rows : list A) (k : Z) :
  In k (map key (GROUP_BY key merge rows)) <-> In k (map key rows).
Proof.
  destruct (GROUP_BY_from [] rows ltac:(constructor)) as (_ & H & _).
  unfold GROUP_BY. rewrite H. cbn [map In]. intuition.
Qed.

Lemma GROUP_BY_nil (rows : list A) :
  GROUP_BY key merge rows = [] <-> rows = [].
Proof.
  destruct (GROUP_BY_from [] rows ltac:(constructor)) as (_ & _ & H).
  unfold GROUP_BY. rewrite H. intuition.
Qed.

End GroupBy.


(** [DISTINCT] keeps the texts and drops the repetitions. *)
Lemma DISTINCT_In (l : list string) (x : string) :
  In x (DISTINCT l) <-> In x l.
Proof.
  induction l as [|y l IH]; cbn [DISTINCT In]; [reflexivity|].
  rewrite filter_In, IH, negb_true_iff, bool_decide_eq_false.
  destruct (decide (y = x)) as [->|Hne]; intuition congruence.
Qed.

End SqlFacts.

(** * [fcsigB.py]: which groups are selected *)

Module FcSigBFacts.
Import Sql SqlFacts FcSigB Samples.

Lemma choice_magnitude (c : Q) :
  extra_filter_choice c = UseTreatGtCtrlRatioFilter <-> c == 1.
Proof.
  unfold extra_filter_choice.
  destruct (Qeq_bool c 1) eqn:E; simpl.
  - apply Qeq_bool_iff in E. tauto.
  - split; [discriminate|].
    intros H. apply Qeq_bool_iff in H. congruence.
Qed.

Lemma choice_significance (c : Q) :
  extra_filter_choice c = UseSigBFilter <-> ~ c == 1.
Proof.
  rewrite <- choice_magnitude.
  destruct (extra_filter_choice c); split; congruence.
Qed.

(** C4: with a significance cutoff the argument check accepts (between 0
    and 1), the magnitude comparison is the filter exactly when the cutoff
    equals 1, and the significance filter for every other cutoff. *)
Theorem mode_selected_by_sentinel (a : args) :
  check_args a = None ->
  0 <= sigB_cutoff a <= 1 /\
  (extra_filter_choice (sigB_cutoff a) = UseTreatGtCtrlRatioFilter
     <-> sigB_cutoff a == 1) /\
  (~ sigB_cutoff a == 1 ->
     extra_filter_choice (sigB_cutoff a) = UseSigBFilter /\
     forall r, extra_filter a r = sigB_filter (sigB_cutoff a) r) /\
  (sigB_cutoff a == 1 ->
     forall r, extra_filter a r = treat_gt_ctrl_ratio_filter r).
Proof.
  intros Hok. unfold check_args in Hok.
  destruct (Qltb (fc_cutoff a) 1); [discriminate|].
  destruct (Qltb (sigB_cutoff a) 0) eqn:E0; [discriminate|].
  destruct (Qltb 1 (sigB_cutoff a)) eqn:E1; [discriminate|].
  split.
  { split; apply Qnot_lt_le; intros H; apply Qltb_lt in H; congruence. }
  split; [apply choice_magnitude|].
  split.
  - intros Hne. apply choice_significance in Hne.
    split; [exact Hne|]. intros r. unfold extra_filter. now rewrite Hne.
  - intros Heq. apply choice_magnitude in Heq.
    intros r. unfold extra_filter. now rewrite Heq.
Qed.

Lemma mode_selected_by_sentinel_witness :
  check_args sig_args = None /\
  extra_filter_choice (sigB_cutoff sig_args) = UseSigBFilter.
Proof.
  split; [reflexivity|].
  apply (mode_selected_by_sentinel sig_args); [reflexivity|].
  intros H. discriminate H.
Defined.

Ltac invert_cells :=
  repeat match goal with
  | H : lift2 _ _ _ = Some _ |- _ =>
      apply lift2_Some in H; destruct H as (? & ? & ? & ? & ?)
  | H : exists _, _ |- _ => destruct H
  | H : _ /\ _ |- _ => destruct H
  end.

(** What [treat_gt_ctrl_ratio_filter] asks of the twelve ratios. *)
Lemma treat_gt_ctrl_ratio_filter_spec (r : quant_row) :
  holds (treat_gt_ctrl_ratio_filter r) = true <->
  exists hl1 lh1 hm1 mh1 lh2 hl2 mh2 hm2 lm1 ml1 lm2 ml2,
    L0_M0_H1_norm_ratio_HL r = Some hl1 /\
    L0_M0_H1_norm_ratio_LH r = Some lh1 /\
    L0_M0_H1_norm_ratio_HM r = Some hm1 /\
    L0_M0_H1_norm_ratio_MH r = Some mh1 /\
    L1_M1_H0_norm_ratio_LH r = Some lh2 /\
    L1_M1_H0_norm_ratio_HL r = Some hl2 /\
    L1_M1_H0_norm_ratio_MH r = Some mh2 /\
    L1_M1_H0_norm_ratio_HM r = Some hm2 /\
    L0_M0_H1_norm_ratio_LM r = Some lm1 /\
    L0_M0_H1_norm_ratio_ML r = Some ml1 /\
    L1_M1_H0_norm_ratio_LM r = Some lm2 /\
    L1_M1_H0_norm_ratio_ML r = Some ml2 /\
    Qmax (Qmax (Qmax lm1 ml1) lm2) ml2 <
    Qmin (Qmin (Qmin (Qmax hl1 lh1) (Qmax hm1 mh1)) (Qmax lh2 hl2))
         (Qmax mh2 hm2).
Proof.
  unfold treat_gt_ctrl_ratio_filter, gt. rewrite holds_cmp.
  unfold MIN, MAX. simpl. split.
  - intros (x & y & Hx & Hy & Hlt). apply Qltb_lt in Hlt.
    invert_cells. subst.
    do 12 eexists. repeat (split; [eassumption|]). exact Hlt.
  - intros (hl1 & lh1 & hm1 & mh1 & lh2 & hl2 & mh2 & hm2 & lm1 & ml1
            & lm2 & ml2 & H).
    destruct H as (-> & -> & -> & -> & -> & -> & -> & -> & -> & -> & ->
                   & -> & Hlt).
    simpl. do 2 eexists. repeat split. now apply Qltb_lt.
Qed.

(** C1 (amended): in magnitude-comparison mode a group is selected exactly
    when it passes the dye-swap fold-change test, all twelve ratios are
    present, and the smallest of the four treatment slots, each taken as the
    larger of the ratio and its inverse, is strictly greater than the largest
    of the four control-direction ratios. *)
Theorem magnitude_mode_rule (a : args) (r : quant_row) :
  sigB_cutoff a == 1 ->
  selected a r = true <->
  holds (fc_filter (fc_cutoff a) r) = true /\
  exists hl1 lh1 hm1 mh1 lh2 hl2 mh2 hm2 lm1 ml1 lm2 ml2,
    L0_M0_H1_norm_ratio_HL r = Some hl1 /\
    L0_M0_H1_norm_ratio_LH r = Some lh1 /\
    L0_M0_H1_norm_ratio_HM r = Some hm1 /\
    L0_M0_H1_norm_ratio_MH r = Some mh1 /\
    L1_M1_H0_norm_ratio_LH r = Some lh2 /\
    L1_M1_H0_norm_ratio_HL r = Some hl2 /\
    L1_M1_H0_norm_ratio_MH r = Some mh2 /\
    L1_M1_H0_norm_ratio_HM r = Some hm2 /\
    L0_M0_H1_norm_ratio_LM r = Some lm1 /\
    L0_M0_H1_norm_ratio_ML r = Some ml1 /\
    L1_M1_H0_norm_ratio_LM r = Some lm2 /\
    L1_M1_H0_norm_ratio_ML r = Some ml2 /\
    Qmax (Qmax (Qmax lm1 ml1) lm2) ml2 <
    Qmin (Qmin (Qmin (Qmax hl1 lh1) (Qmax hm1 mh1)) (Qmax lh2 hl2))
         (Qmax mh2 hm2).
Proof.
  intros Hone. apply choice_magnitude in Hone.
  unfold selected, where_clause, extra_filter. rewrite Hone.
  rewrite holds_and3, andb_true_iff, treat_gt_ctrl_ratio_filter_spec.
  reflexivity.
Qed.

Lemma magnitude_mode_rule_witness :
  sigB_cutoff default_args == 1 /\
  selected default_args regulated_group = true.
Proof.
  split; [reflexivity|].
  apply (magnitude_mode_rule default_args regulated_group); [reflexivity|].
  split; [reflexivity|].
  do 12 eexists. repeat (split; [reflexivity|]). reflexivity.
Defined.

(** C1, as stated, fails: a group that passes the fold-change test and whose
    largest treatment ratio (10) exceeds its largest control ratio (5) is not
    selected, because three of its treatment slots (2) do not. *)
Lemma magnitude_rule_is_not_max_of_treatments :
  extra_filter_choice (sigB_cutoff default_args) = UseTreatGtCtrlRatioFilter /\
  holds (fc_filter (fc_cutoff default_args) lopsided_group) = true /\
  holds (spec_treat_gt_ctrl lopsided_group) = true /\
  selected default_args lopsided_group = false.
Proof. repeat split. Qed.

(** What [sigB_filter] asks of the six p-values. *)
Lemma sigB_filter_spec (c : Q) (r : quant_row) :
  holds (sigB_filter c r) = true <->
  exists t1 t3 t2 t4 c1 c2,
    L0_M0_H1_sig_ratio_HL r = Some t1 /\
    L0_M0_H1_sig_ratio_HM r = Some t3 /\
    L1_M1_H0_sig_ratio_LH r = Some t2 /\
    L1_M1_H0_sig_ratio_MH r = Some t4 /\
    L0_M0_H1_sig_ratio_LM r = Some c1 /\
    L1_M1_H0_sig_ratio_LM r = Some c2 /\
    t1 < c /\ t3 < c /\ t2 < c /\ t4 < c /\ c <= c1 /\ c <= c2.
Proof.
  unfold sigB_filter. rewrite holds_all3. simpl.
  rewrite !andb_true_iff, !holds_lt, !holds_ge. split.
  - intros ((t1 & E1 & H1) & (t3 & E3 & H3) & (t2 & E2 & H2)
            & (t4 & E4 & H4) & (c1 & E5 & H5) & (c2 & E6 & H6) & _).
    exists t1, t3, t2, t4, c1, c2. tauto.
  - intros (t1 & t3 & t2 & t4 & c1 & c2 & E1 & E3 & E2 & E4 & E5 & E6
            & H1 & H3 & H2 & H4 & H5 & H6).
    repeat split; eauto.
Qed.

(** C2 (amended): in significance-test mode a group is selected exactly when
    it passes the dye-swap fold-change test, its four treatment p-values
    (H/L and H/M of the first experiment, L/H and M/H of the second) are all
    below the cutoff, and its two control p-values (L/M of each experiment)
    are at or above the cutoff. *)
Theorem significance_mode_rule (a : args) (r : quant_row) :
  ~ sigB_cutoff a == 1 ->
  selected a r = true <->
  holds (fc_filter (fc_cutoff a) r) = true /\
  exists t1 t3 t2 t4 c1 c2,
    L0_M0_H1_sig_ratio_HL r = Some t1 /\
    L0_M0_H1_sig_ratio_HM r = Some t3 /\
    L1_M1_H0_sig_ratio_LH r = Some t2 /\
    L1_M1_H0_sig_ratio_MH r = Some t4 /\
    L0_M0_H1_sig_ratio_LM r = Some c1 /\
    L1_M1_H0_sig_ratio_LM r = Some c2 /\
    t1 < sigB_cutoff a /\ t3 < sigB_cutoff a /\
    t2 < sigB_cutoff a /\ t4 < sigB_cutoff a /\
    sigB_cutoff a <= c1 /\ sigB_cutoff a <= c2.
Proof.
  intros Hne. apply choice_significance in Hne.
  unfold selected, where_clause, extra_filter. rewrite Hne.
  rewrite holds_and3, andb_true_iff, sigB_filter_spec.
  reflexivity.
Qed.

Lemma significance_mode_rule_witness :
  ~ sigB_cutoff sig_args == 1 /\
  selected sig_args regulated_group = true.
Proof.
  assert (Hne : ~ sigB_cutoff sig_args == 1) by (intros H; discriminate H).
  split; [exact Hne|].
  apply (significance_mode_rule sig_args regulated_group Hne).
  split; [reflexivity|].
  do 6 eexists. repeat (split; [reflexivity|]).
  repeat split; discriminate.
Defined.

(** C2, as stated, fails: a selected group whose control p-values (0.9) are
    not below the cutoff (0.05) and whose treatment p-values (0.01) are not
    at or above it. *)
Lemma significance_rule_roles_are_swapped :
  extra_filter_choice (sigB_cutoff sig_args) = UseSigBFilter /\
  selected sig_args regulated_group = true /\
  holds (spec_ctrl_below (sigB_cutoff sig_args) regulated_group) = false /\
  holds (spec_treat_at_or_above (sigB_cutoff sig_args) regulated_group)
    = false.
Proof. repeat split. Qed.

End FcSigBFacts.

(** * The user-defined functions *)

Module UdfFacts.
Import Sql.

Lemma try_except_returns {A : Type} (body : Py.result A) (a : A) :
  exists r, Py.try_except body (Py.Return a) = Py.Return r.
Proof. destruct body as [x|e]; simpl; eauto. Qed.

Lemma mz_log_is_fc_log (ln : Q -> Q) (value base : Py.value) :
  MzScore.log ln value base = FcSigB.log ln value base.
Proof. reflexivity. Qed.

(** Whatever the body of [log] does, the bare [except] returns. *)
Lemma log_returns (ln : Q -> Q) (value base : Py.value) :
  exists r, MzScore.log ln value base = Py.Return r /\
            FcSigB.log ln value base = Py.Return r.
Proof.
  destruct (try_except_returns
              (let* a := MzScore.math_log ln value in
               let* b := MzScore.math_log ln base in
               let* q := Py.truediv a b in
               Py.Return (Py.VFloat q))
              Py.VNone) as (r & Hr).
  exists r. split; exact Hr.
Qed.

(** The value [log] returns on two numbers. *)
Lemma log_on_numbers (ln : Q -> Q) (v b : Q) :
  MzScore.log ln (Py.VFloat v) (Py.VFloat b) =
  Py.Return (if Qltb 0 v && Qltb 0 b && negb (Qeq_bool (ln b) 0)
             then Py.VFloat (ln v / ln b) else Py.VNone).
Proof.
  unfold MzScore.log, MzScore.math_log, Py.truediv. simpl.
  destruct (Qltb 0 v); simpl; [|reflexivity].
  destruct (Qltb 0 b); simpl; [|reflexivity].
  destruct (Qeq_bool (ln b) 0); reflexivity.
Qed.

Lemma log_on_non_number (ln : Q -> Q) (value base : Py.value) :
  (forall q, value <> Py.VFloat q) \/ (forall q, base <> Py.VFloat q) ->
  MzScore.log ln value base = Py.Return Py.VNone.
Proof.
  intros [H|H].
  - destruct value as [|q|s]; try reflexivity. now destruct (H q).
  - destruct base as [|q|s]; [|now destruct (H q)|];
      unfold MzScore.log; simpl;
      destruct (MzScore.math_log ln value); reflexivity.
Qed.

(** C10: [log(value, base)], in both scripts, returns for every pair of
    arguments and never raises: the quotient of the logarithms when both
    arguments are positive numbers and the logarithm of the base is not
    zero, and [None] otherwise, in particular for an absent or non-positive
    value and for a base whose logarithm is zero (base 1). *)
Theorem log_never_raises (ln : Q -> Q) (value base : Py.value) :
  (exists r,
     MzScore.log ln value base = Py.Return r /\
     FcSigB.log ln value base = Py.Return r /\
     (r = Py.VNone \/
      exists v b, value = Py.VFloat v /\ base = Py.VFloat b /\
                  0 < v /\ 0 < b /\ ~ ln b == 0 /\
                  r = Py.VFloat (ln v / ln b))) /\
  (forall v b, 0 < v -> 0 < b -> ~ ln b == 0 ->
     MzScore.log ln (Py.VFloat v) (Py.VFloat b)
     = Py.Return (Py.VFloat (ln v / ln b))) /\
  (forall v b, v <= 0 \/ b <= 0 \/ ln b == 0 ->
     MzScore.log ln (Py.VFloat v) (Py.VFloat b) = Py.Return Py.VNone) /\
  MzScore.log ln Py.VNone base = Py.Return Py.VNone /\
  MzScore.log ln value Py.VNone = Py.Return Py.VNone.
Proof.
  assert (Hpos : forall v b, 0 < v -> 0 < b -> ~ ln b == 0 ->
            Qltb 0 v && Qltb 0 b && negb (Qeq_bool (ln b) 0) = true).
  { intros v b Hv Hb Hl.
    apply Qltb_lt in Hv, Hb. rewrite Hv, Hb. simpl.
    destruct (Qeq_bool (ln b) 0) eqn:E; [|reflexivity].
    apply Qeq_bool_iff in E. contradiction. }
  assert (Hneg : forall v b, v <= 0 \/ b <= 0 \/ ln b == 0 ->
            Qltb 0 v && Qltb 0 b && negb (Qeq_bool (ln b) 0) = false).
  { intros v b H.
    destruct (Qltb 0 v) eqn:Ev; [|reflexivity].
    destruct (Qltb 0 b) eqn:Eb; [|reflexivity]. simpl.
    apply Qltb_lt in Ev, Eb.
    destruct H as [H|[H|H]].
    - exfalso. apply (Qlt_not_le _ _ Ev H).
    - exfalso. apply (Qlt_not_le _ _ Eb H).
    - apply Qeq_bool_iff in H. now rewrite H. }
  split; [|split; [|split; [|split]]].
  - change (FcSigB.log ln value base) with (MzScore.log ln value base).
    destruct value as [|v|s].
    1,3: exists Py.VNone; split; [|split; [|now left]];
         apply log_on_non_number; left; discriminate.
    destruct base as [|b|s].
    1,3: exists Py.VNone; split; [|split; [|now left]];
         apply log_on_non_number; right; discriminate.
    rewrite log_on_numbers.
    destruct (Qltb 0 v) eqn:Ev; simpl;
      [|exists Py.VNone; split; [|split]; try reflexivity; now left].
    destruct (Qltb 0 b) eqn:Eb; simpl;
      [|exists Py.VNone; split; [|split]; try reflexivity; now left].
    destruct (Qeq_bool (ln b) 0) eqn:El; simpl;
      [exists Py.VNone; split; [|split]; try reflexivity; now left|].
    exists (Py.VFloat (ln v / ln b)).
    split; [reflexivity|]. split; [reflexivity|]. right.
    exists v, b.
    split; [reflexivity|]. split; [reflexivity|].
    split; [now apply Qltb_lt|]. split; [now apply Qltb_lt|].
    split; [|reflexivity].
    intros H. apply Qeq_bool_iff in H. congruence.
  - intros v b Hv Hb Hl. rewrite log_on_numbers, Hpos; auto.
  - intros v b H. rewrite log_on_numbers, Hneg; auto.
  - apply log_on_non_number. left. discriminate.
  - apply log_on_non_number. right. discriminate.
Qed.

(** [LOG(x, 2)] always yields a cell. *)
Lemma LOG2_returns (ln : Q -> Q) (x : value) :
  exists v, MzScore.LOG2 ln x = Py.Return v.
Proof.
  unfold MzScore.LOG2.
  destruct (log_returns ln (Py.of_sql x) (Py.VFloat 2)) as (r & H & _).
  eauto.
Qed.

(** [pvalue] on binary64 scores has the same shape: twice the distribution
    function at minus the absolute score, [None] for anything that is not a
    number. *)
Lemma pvalue_never_raises (norm_cdf : Q -> Q) (score : Py.value) :
  MzScore.pvalue norm_cdf score =
  Py.Return match score with
            | Py.VFloat q => Py.VFloat (2 * norm_cdf (- Qabs q))
            | _ => Py.VNone
            end.
Proof. now destruct score. Qed.

End UdfFacts.

(** * Rounding to a number of decimals *)

Module RoundFacts.

Lemma scale_pos (digits : nat) : 0 < scale digits.
Proof.
  unfold scale. change 0 with (inject_Z 0). rewrite <- Zlt_Qlt.
  apply Z.pow_pos_nonneg; lia.
Qed.

Lemma round_half_away_comp (digits : nat) (p q : Q) :
  p == q -> round_half_away digits p == round_half_away digits q.
Proof.
  intros H. unfold round_half_away.
  assert (Qfloor (Qabs p * scale digits + (1 # 2))
          = Qfloor (Qabs q * scale digits + (1 # 2)))
    as -> by (now rewrite H).
  assert (Qle_bool 0 p = Qle_bool 0 q) as -> by (now rewrite H).
  reflexivity.
Qed.

Lemma floor_half : Qfloor (0 + (1 # 2)) = 0%Z.
Proof. reflexivity. Qed.

(** Rounding commutes with the change of sign. *)
Lemma round_half_away_opp (digits : nat) (q : Q) :
  round_half_away digits (- q) == - round_half_away digits q.
Proof.
  unfold round_half_away.
  assert (Qfloor (Qabs (- q) * scale digits + (1 # 2))
          = Qfloor (Qabs q * scale digits + (1 # 2)))
    as -> by (now rewrite Qabs_opp).
  destruct (Qle_bool 0 q) eqn:E1, (Qle_bool 0 (- q)) eqn:E2.
  - apply Qle_bool_iff in E1, E2.
    assert (Hq : q == 0) by lra.
    assert (Qfloor (Qabs q * scale digits + (1 # 2))
            = 0%Z) as ->.
    { rewrite Hq. simpl Qabs. rewrite Qmult_0_l. exact floor_half. }
    unfold Qdiv. rewrite Qmult_0_l. reflexivity.
  - reflexivity.
  - now rewrite Qopp_involutive.
  - exfalso.
    assert (H1 : ~ 0 <= q) by (intros H; apply Qle_bool_iff in H; congruence).
    assert (H2 : ~ 0 <= - q)
      by (intros H; apply Qle_bool_iff in H; congruence).
    lra.
Qed.

(** The rounded number is a whole number of units [10 ^ -digits]. *)
Lemma round_half_away_grid (digits : nat) (q : Q) :
  exists k : Z, round_half_away digits q == inject_Z k / scale digits.
Proof.
  unfold round_half_away.
  set (m := Qfloor (Qabs q * scale digits + (1 # 2))).
  destruct (Qle_bool 0 q).
  - exists m. reflexivity.
  - exists (- m)%Z. rewrite inject_Z_opp. unfold Qdiv. ring.
Qed.

(** The rounded number is within half a unit of the number. *)
Lemma round_half_away_close (digits : nat) (q : Q) :
  Qabs (round_half_away digits q - q) <= (1 # 2) / scale digits.
Proof.
  unfold round_half_away.
  set (s := scale digits).
  assert (Hs : 0 < s) by apply scale_pos.
  set (x := Qabs q * s + (1 # 2)).
  assert (Hlo : inject_Z (Qfloor x) <= x) by apply Qfloor_le.
  assert (Hhi : x < inject_Z (Qfloor x + 1)) by apply Qlt_floor.
  rewrite inject_Z_plus in Hhi. change (inject_Z 1) with 1 in Hhi.
  set (m := inject_Z (Qfloor x)) in *.
  assert (Hm : Qabs (m / s - Qabs q) <= (1 # 2) / s).
  { apply Qabs_Qle_condition. unfold x in *.
    assert (E : m / s - Qabs q == (m - Qabs q * s) / s)
      by (field; lra).
    rewrite E. split.
    - assert (E' : - ((1 # 2) / s) == (- (1 # 2)) / s) by (field; lra).
      rewrite E'.
      apply Qmult_le_compat_r; [lra|].
      apply Qlt_le_weak, Qinv_lt_0_compat, Hs.
    - apply Qmult_le_compat_r; [lra|].
      apply Qlt_le_weak, Qinv_lt_0_compat, Hs. }
  destruct (Qle_bool 0 q) eqn:E.
  - apply Qle_bool_iff in E. rewrite (Qabs_pos q E) in Hm. exact Hm.
  - assert (Hneg : q <= 0).
    { apply Qlt_le_weak, Qnot_le_lt. intros H.
      apply Qle_bool_iff in H. congruence. }
    rewrite (Qabs_neg q Hneg) in Hm.
    rewrite <- Qabs_opp.
    assert (E' : - (- (m / s) - q) == m / s - - q) by ring.
    rewrite E'. exact Hm.
Qed.

Example round_half_away_tie :
  round_half_away 4 (1 # 32) == 313 # 10000 /\
  round_half_away 4 (- (1 # 32)) == - (313 # 10000) /\
  round_half_away 4 (123456 # 100000) == 12346 # 10000.
Proof. repeat split. Qed.

End RoundFacts.

(** * [mzscore.py]: statistics, scores and channels *)

Module MzScoreFacts.
Import Sql SqlFacts MzScore Samples.

Lemma mapM_returns {A B : Type} (f : A -> Py.result B) (l : list A) :
  (forall a, exists b, f a = Py.Return b) ->
  exists bs, Py.mapM f l = Py.Return bs /\ length bs = length l.
Proof.
  intros Hf. induction l as [|a l (bs & IH & Hlen)]; simpl.
  - now exists [].
  - destruct (Hf a) as (b & ->). simpl. rewrite IH. simpl.
    exists (b :: bs). simpl. now rewrite Hlen.
Qed.

Lemma np_array_floats (xs : list Q) :
  np_array (map Py.VFloat xs) = Py.Return xs.
Proof.
  unfold np_array. induction xs as [|x xs IH]; simpl; [reflexivity|].
  now rewrite IH.
Qed.

Lemma Stdev_steps (cells : list Py.value) (self : Stdev) :
  vec (fold_left Stdev_step cells self) = vec self ++ cells.
Proof.
  revert self. induction cells as [|c cells IH]; intros self; simpl.
  - now rewrite app_nil_r.
  - rewrite IH. simpl. now rewrite <- app_assoc.
Qed.

(** The deviation of a single value from its own mean is zero. *)
Lemma sq_dev_singleton (x : Q) : sq_dev [x] == 0.
Proof.
  unfold sq_dev, np_mean, Qsum, Qlen. simpl.
  change (inject_Z 1) with 1. field.
Qed.

(** With [ddof = 1] the standard deviation is never infinite. *)
Lemma np_std_1_not_Inf (fsqrt : Q -> Q) (xs : list Q) :
  np_std fsqrt 1 xs <> Inf.
Proof.
  unfold np_std. destruct xs as [|x [|y xs]]; try discriminate.
  - assert (H : Qeq_bool (sq_dev [x]) 0 = true)
      by (apply Qeq_bool_iff, sq_dev_singleton).
    simpl. rewrite H. discriminate.
  - destruct (Z.of_nat (length (x :: y :: xs)) =? 0)%Z; [discriminate|].
    destruct (Z.max (Z.of_nat (length (x :: y :: xs)) - 1) 0 =? 0)%Z eqn:E;
      [|discriminate].
    exfalso. apply Z.eqb_eq in E. simpl length in E. lia.
Qed.

(** On numbers the aggregate is [std(ddof=1)] of the array. *)
Lemma STDEV_on_floats (fsqrt : Q -> Q) (xs : list Q) :
  STDEV fsqrt (map Py.VFloat xs)
  = Py.Return (result_double (np_std fsqrt 1 xs)).
Proof.
  unfold STDEV, Stdev_finalize.
  rewrite Stdev_steps. simpl. now rewrite np_array_floats.
Qed.

(** A bucket that holds a value [log] could not transform fails the
    statement that aggregates it. *)
Lemma stdev_raises_on_None (fsqrt : Q -> Q) (before after : list Py.value) :
  STDEV fsqrt (before ++ Py.VNone :: after) = Py.Raise finalize_error.
Proof.
  unfold STDEV, Stdev_finalize. rewrite Stdev_steps. simpl.
  assert (H : np_array (before ++ Py.VNone :: after) = Py.Raise Py.TypeError).
  { unfold np_array. induction before as [|b before IH]; simpl.
    - reflexivity.
    - destruct b; try reflexivity. now rewrite IH. }
  now rewrite H.
Qed.

(** C6, amended: on a bucket of numbers the aggregate [Stdev] divides the
    sum of squared deviations by [n - 1], and its result is NULL on fewer
    than two numbers; on a bucket that holds a [None], which is what [LOG]
    hands over for a ratio without logarithm, [finalize] raises and the
    statement fails, whatever the size of the bucket. *)
Theorem stdev_is_sample_deviation (fsqrt : Q -> Q) (xs : list Q) :
  ((length xs < 2)%nat ->
     STDEV fsqrt (map Py.VFloat xs) = Py.Return None) /\
  ((2 <= length xs)%nat ->
     STDEV fsqrt (map Py.VFloat xs) =
     Py.Return
       (Some (fsqrt (sq_dev xs / inject_Z (Z.of_nat (length xs) - 1))))) /\
  (forall before after,
     STDEV fsqrt (before ++ Py.VNone :: after) = Py.Raise finalize_error).
Proof.
  split; [|split; [|apply stdev_raises_on_None]];
    rewrite STDEV_on_floats; intros Hn.
  - destruct (np_std fsqrt 1 xs) eqn:E; try reflexivity.
    exfalso. unfold np_std in E.
    destruct xs as [|x [|y xs]]; simpl in *; try discriminate; try lia.
    destruct (Qeq_bool (sq_dev [x]) 0); discriminate.
  - unfold np_std.
    assert (H0 : (Z.of_nat (length xs) =? 0)%Z = false)
      by (apply Z.eqb_neq; lia).
    assert (H1 : Z.max (Z.of_nat (length xs) - 1) 0
                 = (Z.of_nat (length xs) - 1)%Z) by lia.
    rewrite H0, H1.
    assert (H2 : (Z.of_nat (length xs) - 1 =? 0)%Z = false)
      by (apply Z.eqb_neq; lia).
    rewrite H2. reflexivity.
Qed.

(** C6, as stated, fails: the bucket of a single negative ratio has fewer
    than two values, and its standard deviation is not NULL.  The ratio
    enters the view and is counted, [LOG] hands [None] over for it,
    [Stdev.finalize] raises on it, and the statement that computes the
    statistics fails. *)
Lemma stdev_of_lone_negative_ratio_raises :
  V_PGROUP_RATIO negative_quant [1%Z] =
    [ RatioRow 1 "VH10_L0_M0_H1" (Some "raw_ratio_HL") (Some (-1 # 1)) ] /\
  COUNT (map ratio_value (V_PGROUP_RATIO negative_quant [1%Z])) = 1%Z /\
  (forall ln, LOG2 ln (Some (-1 # 1)) = Py.Return Py.VNone) /\
  (forall fsqrt,
     STDEV fsqrt [Py.VNone] = Py.Raise finalize_error /\
     STDEV fsqrt [Py.VNone] <> Py.Return None) /\
  (forall ln fsqrt,
     PGROUP_LOG2RATIO_STAT ln fsqrt (V_PGROUP_RATIO negative_quant [1%Z])
     = Py.Raise finalize_error).
Proof.
  split; [reflexivity|]. split; [reflexivity|]. split; [reflexivity|].
  split; [|reflexivity].
  intros fsqrt. split; [reflexivity|discriminate].
Qed.

(** The statistics of the log ratios 0, 1, 2, 3: the median is 3/2, the
    median absolute deviation is 1, and the standard deviation is the square
    root of 5/3. *)
Example stats_of_0_1_2_3 (fsqrt : Q -> Q) :
  let logs := map Py.VFloat [0; 1; 2; 3] in
  MEDIAN logs = Py.Return (Some ((1 + 2) / 2)) /\
  (exists m, MAD logs = Py.Return (Some m) /\ m == 1) /\
  (exists v, STDEV fsqrt logs = Py.Return (Some (fsqrt v)) /\ v == 5 # 3).
Proof.
  split; [reflexivity|]. split.
  - eexists. split; reflexivity.
  - eexists. split; reflexivity.
Qed.

(** The row of statistics of a bucket with a single positive ratio: the
    standard deviation is NULL, and so is every Z-score of the bucket. *)
Lemma stat_of_single_row (ln fsqrt : Q -> Q) (key : string * option string)
    (row : ratio_row) (v : Q) :
  ratio_value row = Some v -> 0 < v -> ~ ln 2 == 0 ->
  exists st,
    stat_of_bucket ln fsqrt key [row] = Py.Return st /\
    n st = 1%Z /\ sd st = None /\
    forall l B, div (sub l (mean B)) (sd st) = None.
Proof.
  intros Hv Hpos Hln. unfold stat_of_bucket, LOG2.
  cbn [Py.mapM Py.bind]. rewrite Hv. cbn [Py.of_sql].
  rewrite UdfFacts.log_on_numbers.
  assert (Qltb 0 v && Qltb 0 2 && negb (Qeq_bool (ln 2) 0) = true) as ->.
  { apply Qltb_lt in Hpos. rewrite Hpos. simpl.
    destruct (Qeq_bool (ln 2) 0) eqn:E; [|reflexivity].
    apply Qeq_bool_iff in E. contradiction. }
  cbn [Py.bind].
  change [Py.VFloat (ln v / ln 2)] with (map Py.VFloat [ln v / ln 2]).
  rewrite STDEV_on_floats.
  assert (Hs : result_double (np_std fsqrt 1 [ln v / ln 2]) = None).
  { destruct (np_std fsqrt 1 [ln v / ln 2]) eqn:E; try reflexivity.
    unfold np_std in E. simpl in E.
    destruct (Qeq_bool (sq_dev [ln v / ln 2]) 0); discriminate. }
  rewrite Hs.
  eexists. split; [reflexivity|]. cbn [n sd].
  split; [simpl; now rewrite Hv|]. split; [reflexivity|].
  intros l B. now destruct (sub l (mean B)).
Qed.

(** *** The ratio view *)

Lemma holds_truthy (a : value) :
  holds (truthy a) = true <-> exists q, a = Some q /\ ~ q == 0.
Proof.
  destruct a as [q|]; simpl.
  - destruct (Qeq_bool q 0) eqn:E; simpl; split.
    + discriminate.
    + intros (q' & [= <-] & H). apply Qeq_bool_iff in E. contradiction.
    + intros _. exists q. split; [reflexivity|].
      intros H. apply Qeq_bool_iff in H. congruence.
    + reflexivity.
  - split; [discriminate|]. intros (q & H & _). discriminate.
Qed.

Lemma ratio_where_spec (A : pgroup_quant) (B : Z) :
  holds (ratio_where A B) = true <->
  pq_grp_id A = B /\ quant_type A ∈ map fst ratio_types /\
  exists q, quant_value A = Some q /\ ~ q == 0.
Proof.
  assert (Hb : forall b : bool, holds (Some b) = b) by (now intros []).
  unfold ratio_where. rewrite holds_all3. cbn [forallb].
  rewrite !Hb, !andb_true_iff, holds_truthy, !bool_decide_eq_true.
  tauto.
Qed.

Lemma V_PGROUP_RATIO_rows (PGROUP_QUANT : list pgroup_quant)
    (V_PGROUP : list Z) (row : ratio_row) :
  In row (V_PGROUP_RATIO PGROUP_QUANT V_PGROUP) <->
  exists A B, In A PGROUP_QUANT /\ In B V_PGROUP /\
              holds (ratio_where A B) = true /\
              row = RatioRow (pq_grp_id A) (pq_exp_name A)
                      (assoc (quant_type A) ratio_types) (quant_value A).
Proof.
  unfold V_PGROUP_RATIO. rewrite in_flat_map. split.
  - intros (A & HA & H). apply in_flat_map in H. destruct H as (B & HB & H).
    destruct (holds (ratio_where A B)) eqn:E; [|destruct H].
    destruct H as [<-|[]]. now exists A, B.
  - intros (A & B & HA & HB & E & ->). exists A. split; [exact HA|].
    apply in_flat_map. exists B. split; [exact HB|].
    rewrite E. now left.
Qed.

(** C7 (amended): every ratio value that is absent or zero is excluded from
    the ratio view, so the view contains only rows with a non-zero ratio
    value; every other value of a known ratio type, a negative one
    included, enters the view. *)
Theorem ratio_view_excludes_absent_and_zero
    (PGROUP_QUANT : list pgroup_quant) (V_PGROUP : list Z) :
  Forall (fun row => exists q, ratio_value row = Some q /\ ~ q == 0)
         (V_PGROUP_RATIO PGROUP_QUANT V_PGROUP) /\
  (forall A q,
     In A PGROUP_QUANT -> In (pq_grp_id A) V_PGROUP ->
     quant_type A ∈ map fst ratio_types ->
     quant_value A = Some q -> ~ q == 0 ->
     In (RatioRow (pq_grp_id A) (pq_exp_name A)
           (assoc (quant_type A) ratio_types) (Some q))
        (V_PGROUP_RATIO PGROUP_QUANT V_PGROUP)).
Proof.
  split.
  - apply List.Forall_forall. intros row Hrow.
    apply V_PGROUP_RATIO_rows in Hrow.
    destruct Hrow as (A & B & _ & _ & Hw & ->). simpl.
    apply ratio_where_spec in Hw. tauto.
  - intros A q HA HB Ht Hv Hq.
    apply V_PGROUP_RATIO_rows. exists A, (pq_grp_id A).
    repeat split; try assumption.
    + apply ratio_where_spec. repeat split; try assumption. now exists q.
    + now rewrite Hv.
Qed.

(** C7, as stated, fails: a negative ratio passes the filter of the view,
    which then holds a row whose ratio is not positive and whose logarithm
    is undefined. *)
Lemma negative_ratio_enters_the_view :
  V_PGROUP_RATIO negative_quant [1%Z] =
    [ RatioRow 1 "VH10_L0_M0_H1" (Some "raw_ratio_HL") (Some (-1 # 1)) ] /\
  (forall ln, LOG2 ln (Some (-1 # 1)) = Py.Return Py.VNone) /\
  (spec_positive_only (V_PGROUP_RATIO negative_quant [1%Z]) -> False).
Proof.
  split; [reflexivity|]. split; [reflexivity|].
  intros H. apply List.Forall_inv in H.
  destruct H as (q & [= <-] & H). discriminate H.
Qed.

(** *** Scores and channels *)

(** The table of scores is built for every ratio view and every table of
    statistics: no score aborts the statement. *)
Lemma PGROUP_MZSCORE_returns (ln : Q -> Q) (ratios : list ratio_row)
    (stats : list stat_row) :
  exists table, PGROUP_MZSCORE ln ratios stats = Py.Return table.
Proof.
  unfold PGROUP_MZSCORE.
  edestruct (mapM_returns (fun AB => mzscore_of ln (fst AB) (snd AB)))
    as (table & H & _); [|eauto].
  intros [A B]. unfold mzscore_of. simpl.
  destruct (UdfFacts.LOG2_returns ln (ratio_value A)) as (v & ->).
  simpl. eauto.
Qed.

Example inverse_ratio_names :
  inverse_ratio "raw_ratio_HL" = "raw_ratio_LH" /\
  inverse_ratio "norm_ratio_ML" = "norm_ratio_LM" /\
  inverse_ratio "x" = "x".
Proof. repeat split. Qed.

Lemma neg_is_opp (q : Q) : (-1 # 1) * q = - q.
Proof. destruct q as [[|n|n] d]; reflexivity. Qed.

Lemma omap_neg (cells : list value) :
  omap id (map neg cells) = map Qopp (omap id cells).
Proof.
  induction cells as [|[q|] cells IH]; [reflexivity| |exact IH].
  change (- q :: map Qopp (omap id cells)) with
    (map Qopp (q :: omap id cells)).
  change (omap id (map neg (Some q :: cells))) with
    ((-1 # 1) * q :: omap id (map neg cells)).
  now rewrite neg_is_opp, IH.
Qed.

Lemma case_when_neg (e r : string) (f : mzscore_row -> value)
    (rows : list mzscore_row) :
  omap id (map (case_when e r (fun x => neg (f x))) rows)
  = map Qopp (omap id (map (case_when e r f) rows)).
Proof.
  rewrite <- omap_neg, map_map. f_equal.
  apply map_ext. intros row. unfold case_when.
  now destruct (bool_decide (mz_exp_name row = e)
                && bool_decide (mz_ratio_type row = Some r)).
Qed.

Section Channels.

Variable text_roundtrip : Q -> Q.

(** Writing a number as text and reading it back commutes with the change
    of sign: the sign is written apart from the digits. *)
Hypothesis text_roundtrip_opp :
  forall q, text_roundtrip (- q) == - text_roundtrip q.

Lemma channel_column_neg (e r : string) (f : mzscore_row -> value)
    (rows : list mzscore_row) :
  same (channel_column text_roundtrip e r (fun x => neg (f x)) rows)
       (option_map Qopp (channel_column text_roundtrip e r f rows)).
Proof.
  unfold channel_column, GROUP_CONCAT_NUMERIC.
  rewrite case_when_neg.
  destruct (omap id (map (case_when e r f) rows)) as [|q qs]; simpl.
  - exact I.
  - rewrite <- RoundFacts.round_half_away_opp.
    apply RoundFacts.round_half_away_comp, text_roundtrip_opp.
Qed.

(** An inverse column is NULL exactly when its forward column is. *)
Lemma inverse_null_iff_forward_null (e r : string)
    (f : mzscore_row -> value) (rows : list mzscore_row) :
  channel_column text_roundtrip e r (fun x => neg (f x)) rows = None <->
  channel_column text_roundtrip e r f rows = None.
Proof.
  generalize (channel_column_neg e r f rows).
  destruct (channel_column text_roundtrip e r (fun x => neg (f x)) rows),
           (channel_column text_roundtrip e r f rows); simpl;
    intros H; split; intros E; try discriminate; try reflexivity;
    destruct H.
Qed.

(** C3: for every experiment and ratio type, on every set of rows of the
    score table (whatever ratios they come from), the four columns of the
    channel are the forward Z-score, its inverse, the forward M-score and
    its inverse, under the forward and the reversed ratio name; each
    inverse column, rounding to four decimals included, is the negation of
    its forward column, and NULL exactly when the forward column is. *)
Theorem inverse_channel_is_negated (e r : string)
    (rows : list mzscore_row) :
  exists zf zi mf mi,
    channel text_roundtrip e r rows =
      [ (e +:+ "_z_score_" +:+ r, zf);
        (e +:+ "_z_score_" +:+ inverse_ratio r, zi);
        (e +:+ "_m_score_" +:+ r, mf);
        (e +:+ "_m_score_" +:+ inverse_ratio r, mi) ] /\
    same zi (option_map Qopp zf) /\
    same mi (option_map Qopp mf).
Proof.
  do 4 eexists. split; [reflexivity|].
  split; apply channel_column_neg.
Qed.

End Channels.

Lemma inverse_channel_is_negated_witness :
  (forall q, (fun x : Q => x) (- q) == - (fun x : Q => x) q) /\
  exists zf zi mf mi,
    channel (fun x => x) "VH10_L0_M0_H1" "raw_ratio_HL" scored_group =
      [ ("VH10_L0_M0_H1_z_score_raw_ratio_HL", zf);
        ("VH10_L0_M0_H1_z_score_raw_ratio_LH", zi);
        ("VH10_L0_M0_H1_m_score_raw_ratio_HL", mf);
        ("VH10_L0_M0_H1_m_score_raw_ratio_LH", mi) ] /\
    same zi (option_map Qopp zf) /\
    same mi (option_map Qopp mf).
Proof.
  assert (H : forall q, (fun x : Q => x) (- q) == - (fun x : Q => x) q)
    by (intros q; reflexivity).
  split; [exact H|].
  exact (inverse_channel_is_negated (fun x => x) H
           "VH10_L0_M0_H1" "raw_ratio_HL" scored_group).
Defined.

End MzScoreFacts.

(** * The output files *)

Module OutputFacts.
Import Sql Samples.

Section Fcsigb.

Variable ln : Q -> Q.
Variable str_float : Q -> string.
Variable path_in_dir_of : string -> string -> string.

(** A cell of [fcsigB.py]: the marker for NULL, the number rounded to four
    decimals otherwise. *)
Lemma fcsigB_render_cell (x : value) :
  FcSigB.render_cell str_float x =
  Py.Return match x with
            | None => "NA"
            | Some q => str_float (round_half_away 4 q)
            end.
Proof. now destruct x. Qed.

Lemma fcsigB_render_row_returns (row : FcSigB.result_row) :
  exists line, FcSigB.render_row str_float row = Py.Return line.
Proof.
  unfold FcSigB.render_row.
  destruct (MzScoreFacts.mapM_returns (FcSigB.render_cell str_float)
              (FcSigB.r_cells row)) as (cells & -> & _).
  - intros x. rewrite fcsigB_render_cell. eauto.
  - simpl. eauto.
Qed.

(** The loop of [fcsigB.py] writes every row: no cell raises. *)
Lemma fcsigB_write_rows_returns (path : string)
    (rows : list FcSigB.result_row) (n : nat) (w : Os.world) :
  exists w',
    FcSigB.write_rows str_float path rows n w
    = (w', Py.Return (n + length rows)%nat).
Proof.
  revert n w. induction rows as [|row rows IH]; intros n w.
  - exists w. simpl. now rewrite Nat.add_0_r.
  - cbn [FcSigB.write_rows length].
    destruct (fcsigB_render_row_returns row) as (line & ->).
    edestruct IH as (w' & ->).
    exists w'. now rewrite Nat.add_succ_r.
Qed.

Lemma fcsigB_select_list_returns (g : FcSigB.group) :
  exists row, FcSigB.select_list ln g = Py.Return row.
Proof.
  unfold FcSigB.select_list.
  edestruct (MzScoreFacts.mapM_returns (FcSigB.LOG2 ln)) as (logs & -> & _).
  - intros x. unfold FcSigB.LOG2.
    destruct (UdfFacts.log_returns ln (Py.of_sql x) (Py.VFloat 2))
      as (r & _ & ->).
    simpl. eauto.
  - simpl. eauto.
Qed.

(** A run of [fcsigB.py] always ends with an exit status: no row of the
    result set, with or without NULL cells, aborts it. *)
Lemma fcsigB_run_exits (a : FcSigB.args) (db : FcSigB.database)
    (w : Os.world) :
  exists w' code,
    FcSigB.run ln str_float path_in_dir_of a db w = (w', Py.Exit code).
Proof.
  unfold FcSigB.run, FcSigB.execute.
  destruct (db !! FcSigB.dts a) as [groups|]; [|eauto].
  edestruct (MzScoreFacts.mapM_returns (FcSigB.select_list ln))
    as (rows & -> & _); [apply fcsigB_select_list_returns|].
  edestruct fcsigB_write_rows_returns as (w' & ->).
  destruct (Os.is_empty _ w'); eauto.
Qed.

(** When the columns of the data set do not exist, [fcsigB.py] removes the
    output file it opened and exits with status 1. *)
Lemma fcsigB_removes_output_file (a : FcSigB.args) (db : FcSigB.database)
    (w : Os.world) :
  db !! FcSigB.dts a = None ->
  exists w',
    FcSigB.run ln str_float path_in_dir_of a db w = (w', Py.Exit 1) /\
    Os.files w' !! FcSigB.outfile_of path_in_dir_of a = None.
Proof.
  intros Hdb. unfold FcSigB.run, FcSigB.execute. rewrite Hdb.
  eexists. split; [reflexivity|].
  unfold Os.remove, Os.eprint, Os.open_w. cbn [Os.files].
  apply lookup_delete_eq.
Qed.

End Fcsigb.

Section Mzscore.

Variable norm_cdf : Q -> Q.
Variable str_float : Q -> string.
Variable path_in_dir_of : string -> string -> string.
Variable format_float : nat -> Q -> string.

(** A cell of [mzscore.py]: a NULL raises. *)
Lemma mzscore_render_cell (x : value) :
  MzScore.render_cell str_float x =
  match x with
  | None => Py.Raise Py.TypeError
  | Some q => Py.Return (str_float (round_half_away 4 q))
  end.
Proof. now destruct x. Qed.

(** C8 (the claim fails on [mzscore.py]): a selected group with a NULL
    score is not written with the marker; after the header line the run
    ends with an uncaught [TypeError]. *)
Theorem mzscore_null_cell_aborts (w : Os.world) :
  let res :=
    MzScore.write_results norm_cdf str_float path_in_dir_of format_float
      mz_args
      (Some null_forward_view) one_gene w in
  holds (MzScore.where_clause mz_args null_forward_row) = true /\
  snd res = Py.Uncaught Py.TypeError /\
  Os.files (fst res) !! "out.tab"
  = Some (String.concat Os.tab (MzScore.header mz_args) +:+ Os.linesep).
Proof.
  intros res. subst res. split; [reflexivity|].
  unfold MzScore.write_results.
  assert (E : exists cells,
            MzScore.execute norm_cdf mz_args (Some null_forward_view) one_gene
            = Py.Return [MzScore.ResultRow 5 "TP53" (None :: cells)]).
  { eexists. vm_compute. reflexivity. }
  destruct E as (cells & ->).
  cbn [MzScore.write_rows MzScore.render_row MzScore.r_cells Py.mapM Py.bind
       MzScore.render_cell Py.float Nat.eqb fst snd].
  split; [reflexivity|].
  unfold Os.write, Os.open_w. cbn [Os.files].
  rewrite lookup_insert_eq. f_equal. rewrite lookup_insert_eq. reflexivity.
Qed.

(** C9 (the claim fails on [mzscore.py]): when the statement raises an
    [OperationalError], the script exits with status 1 and leaves the
    output file it opened, empty, in place. *)
Theorem mzscore_leaves_output_file (w : Os.world)
    (gene_of : gmap Z (list (option string))) :
  let res :=
    MzScore.write_results norm_cdf str_float path_in_dir_of format_float
      mz_args
      None gene_of w in
  snd res = Py.Exit 1 /\
  Os.files (fst res) !! "out.tab" = Some "".
Proof.
  intros res. subst res. split; [reflexivity|].
  unfold MzScore.write_results, MzScore.execute, Os.eprint, Os.open_w.
  cbn [fst Os.files MzScore.outfile_of MzScore.outfile mz_args].
  apply lookup_insert_eq.
Qed.

(** The same holds when the view exists and a named column does not. *)
Lemma mzscore_leaves_output_file_on_missing_column (a : MzScore.args)
    (v : MzScore.view) (gene_of : gmap Z (list (option string)))
    (w : Os.world) :
  forallb (fun c => bool_decide (c ∈ MzScore.view_columns v))
          (MzScore.named_columns a) = false ->
  let res :=
    MzScore.write_results norm_cdf str_float path_in_dir_of format_float a
      (Some v) gene_of w in
  snd res = Py.Exit 1 /\
  Os.files (fst res) !! MzScore.outfile_of path_in_dir_of format_float a
  = Some "".
Proof.
  intros H res. subst res.
  unfold MzScore.write_results, MzScore.execute. rewrite H.
  split; [reflexivity|].
  unfold Os.eprint, Os.open_w. cbn [fst Os.files].
  apply lookup_insert_eq.
Qed.

End Mzscore.

End OutputFacts.

(** * The two-tailed probability *)

Module NormalFacts.
Import Reals Lra Normal.
Local Open Scope R_scope.

Lemma sqrt_2PI_pos : 0 < sqrt (2 * PI).
Proof. apply sqrt_lt_R0. generalize PI_RGT_0. lra. Qed.

(** The symmetry of the distribution function. *)
Lemma Phi_opp (x : R) : Phi (- x) = 1 - Phi x.
Proof.
  unfold Phi. replace (- x * - x / 2) with (x * x / 2) by field.
  generalize sqrt_2PI_pos. intros H. field. lra.
Qed.

Lemma term_pos (y : R) (n : nat) : 0 <= y -> 0 <= term y n.
Proof.
  intros Hy. unfold term. apply Rmult_le_pos.
  - now apply pow_le.
  - apply Rlt_le, Rinv_0_lt_compat, Rmult_lt_0_compat.
    + apply INR_fact_lt_0.
    + apply lt_0_INR. lia.
Qed.

Lemma term_decreasing (y : R) : 0 <= y <= 2 -> Un_decreasing (term y).
Proof.
  intros [Hy0 Hy2] n. unfold term.
  replace (2 * S n + 1)%nat with (2 * n + 3)%nat by lia.
  rewrite fact_simpl, mult_INR, <- tech_pow_Rmult.
  assert (H1 : 0 < INR (fact n)) by apply INR_fact_lt_0.
  assert (H2 : 0 < INR (2 * n + 1)) by (apply lt_0_INR; lia).
  assert (H3 : 0 < INR (2 * n + 3)) by (apply lt_0_INR; lia).
  assert (H4 : 0 < INR (S n)) by (apply lt_0_INR; lia).
  assert (Hp : 0 <= y ^ n) by now apply pow_le.
  replace (y * y ^ n / (INR (S n) * INR (fact n) * INR (2 * n + 3)))
    with (y ^ n / (INR (fact n) * INR (2 * n + 1)) *
          (y * INR (2 * n + 1) / (INR (S n) * INR (2 * n + 3))))
    by (field; repeat split; apply Rgt_not_eq; assumption).
  rewrite <- (Rmult_1_r (y ^ n / (INR (fact n) * INR (2 * n + 1)))) at 2.
  apply Rmult_le_compat_l.
  - apply Rmult_le_pos; [exact Hp|].
    apply Rlt_le, Rinv_0_lt_compat, Rmult_lt_0_compat; assumption.
  - apply (Rmult_le_reg_r (INR (S n) * INR (2 * n + 3)));
      [apply Rmult_lt_0_compat; assumption|].
    replace (y * INR (2 * n + 1) / (INR (S n) * INR (2 * n + 3)) *
             (INR (S n) * INR (2 * n + 3))) with (y * INR (2 * n + 1))
      by (field; split; apply Rgt_not_eq; assumption).
    rewrite Rmult_1_l.
    rewrite S_INR, !plus_INR, !mult_INR. simpl INR.
    assert (Hn : 0 <= INR n) by apply pos_INR.
    nra.
Qed.

Lemma term_cv_0 (y : R) : 0 <= y -> Un_cv (term y) 0.
Proof.
  intros Hy eps Heps.
  destruct (cv_speed_pow_fact y eps Heps) as (N & HN).
  exists N. intros n Hn. specialize (HN n Hn).
  unfold Rdist in *. rewrite Rminus_0_r in *.
  eapply Rle_lt_trans; [|exact HN].
  assert (H1 : 0 < INR (fact n)) by apply INR_fact_lt_0.
  assert (H2 : 1 <= INR (2 * n + 1)).
  { replace 1 with (INR 1) by reflexivity. apply le_INR. lia. }
  assert (Hp : 0 <= y ^ n) by now apply pow_le.
  rewrite !Rabs_pos_eq.
  - unfold term, Rdiv. apply Rmult_le_compat_l; [exact Hp|].
    apply Rinv_le_contravar; [exact H1|]. nra.
  - apply Rmult_le_pos; [exact Hp|].
    apply Rlt_le, Rinv_0_lt_compat, H1.
  - now apply term_pos.
Qed.

Lemma series_cv (y : R) :
  Un_cv (fun N => sum_f_R0 (tg_alt (term y)) N) (series y).
Proof.
  unfold series. destruct (series_exists y) as (l & Hl). simpl.
  intros eps Heps. destruct (Hl eps Heps) as (N & HN).
  exists N. intros n Hn. specialize (HN n Hn).
  replace (sum_f_R0 (tg_alt (term y)) n)
    with (sum_f_R0 (fun i => coef i * y ^ i) n); [exact HN|].
  apply sum_eq. intros i _. unfold tg_alt, term, coef.
  field. split.
  - apply not_0_INR. lia.
  - apply INR_fact_neq_0.
Qed.

(** For [0 <= y <= 2] the partial sums bracket the series. *)
Lemma series_bracket (y : R) (N : nat) :
  0 <= y <= 2 ->
  sum_f_R0 (tg_alt (term y)) (S (2 * N)) <= series y
  <= sum_f_R0 (tg_alt (term y)) (2 * N).
Proof.
  intros Hy. apply alternated_series_ineq.
  - now apply term_decreasing.
  - apply term_cv_0. tauto.
  - apply series_cv.
Qed.

Lemma PI_bounds : 31415 / 10000 < PI < 31421 / 10000.
Proof.
  generalize (PI_2_3_7_ineq 1).
  unfold sum_f_R0, tg_alt, PI_2_3_7_tg, Ratan_seq. simpl.
  lra.
Qed.

Lemma sqrt_2PI_bounds : 25064 / 10000 < sqrt (2 * PI) < 25070 / 10000.
Proof.
  destruct PI_bounds as [Hlo Hhi].
  split.
  - rewrite <- (sqrt_square (25064 / 10000)) by lra.
    apply sqrt_lt_1_alt. lra.
  - rewrite <- (sqrt_square (25070 / 10000)) by lra.
    apply sqrt_lt_1_alt. lra.
Qed.

Ltac eval_of_nat :=
  repeat match goal with
  | |- context [Z.of_nat ?n] =>
      let v := eval vm_compute in (Z.of_nat n) in
      change (Z.of_nat n) with v
  end.

(** The series at [1.96 * 1.96 / 2], between its partial sums of eight and
    of nine terms. *)
Lemma series_bounds_196 :
  6072 / 10000 < series (2401 / 1250) < 6076 / 10000.
Proof.
  assert (Hy : 0 <= 2401 / 1250 <= 2) by lra.
  generalize (series_bracket _ 3 Hy), (series_bracket _ 4 Hy).
  unfold tg_alt, term.
  change (2 * 3)%nat with 6%nat. change (2 * 4)%nat with 8%nat.
  cbv [sum_f_R0].
  rewrite !INR_IZR_INZ. eval_of_nat.
  lra.
Qed.

Lemma p_value_196 :
  Rabs (2 * (1 - Phi (196 / 100)) - 5 / 100) < 1 / 1000.
Proof.
  generalize series_bounds_196, sqrt_2PI_bounds.
  intros [Hg1 Hg2] [Hs1 Hs2].
  unfold Phi.
  replace (196 / 100 * (196 / 100) / 2) with (2401 / 1250) by field.
  set (g := series (2401 / 1250)) in *.
  set (s := sqrt (2 * PI)) in *.
  assert (Hlo : 949 / 1000 < 2 * (196 / 100 * g / s)).
  { apply (Rmult_lt_reg_r s); [lra|].
    replace (2 * (196 / 100 * g / s) * s) with (2 * (196 / 100) * g)
      by (field; lra).
    lra. }
  assert (Hhi : 2 * (196 / 100 * g / s) < 951 / 1000).
  { apply (Rmult_lt_reg_r s); [lra|].
    replace (2 * (196 / 100 * g / s) * s) with (2 * (196 / 100) * g)
      by (field; lra).
    lra. }
  apply Rabs_def1; lra.
Qed.

(** C5: in exact arithmetic, [pvalue] returns [2 * (1 - Phi |s|)] for every
    real score [s], with [Phi] the standard normal distribution function;
    it returns [None] for [None], returns for every argument, and its value
    at 1.96 is within 0.001 of 0.05. *)
Theorem pvalue_is_two_tailed :
  (forall s : R,
     pvalue (VFloat s) = Py.Return (VFloat (2 * (1 - Phi (Rabs s))))) /\
  pvalue VNone = Py.Return VNone /\
  (forall v : value, exists r, pvalue v = Py.Return r) /\
  (exists p,
     pvalue (VFloat (196 / 100)) = Py.Return (VFloat p) /\
     Rabs (p - 5 / 100) < 1 / 1000).
Proof.
  assert (H : forall s : R,
            pvalue (VFloat s) = Py.Return (VFloat (2 * (1 - Phi (Rabs s))))).
  { intros s. unfold pvalue. simpl. now rewrite Phi_opp. }
  split; [exact H|]. split; [reflexivity|]. split.
  - intros [|s|t]; [now exists VNone|rewrite H; eauto|now exists VNone].
  - exists (2 * (1 - Phi (Rabs (196 / 100)))). split; [apply H|].
    rewrite (Rabs_pos_eq (196 / 100)) by lra. exact p_value_196.
Qed.

End NormalFacts.

(** * [fcsigB.py]: the fold-change test, the arguments and the output file *)

Module FcSigBMore.
Import Sql SqlFacts FcSigB Samples Terms.

Lemma fc_filter_exceeds (c : Q) (r : quant_row) :
  holds (fc_filter c r) = true <->
  (exceeds (L0_M0_H1_norm_ratio_HL r) c /\
   exceeds (L0_M0_H1_norm_ratio_HM r) c /\
   exceeds (L1_M1_H0_norm_ratio_LH r) c /\
   exceeds (L1_M1_H0_norm_ratio_MH r) c) \/
  (exceeds (L0_M0_H1_norm_ratio_LH r) c /\
   exceeds (L0_M0_H1_norm_ratio_MH r) c /\
   exceeds (L1_M1_H0_norm_ratio_HL r) c /\
   exceeds (L1_M1_H0_norm_ratio_HM r) c).
Proof.
  unfold fc_filter, exceeds.
  rewrite holds_or3, orb_true_iff, !holds_all3. cbn [forallb].
  rewrite !andb_true_iff, !holds_gt. tauto.
Qed.

(** The dye-swap fold-change test passes exactly when the four treatment
    ratios of one labelling (H/L and H/M of the first experiment, L/H and
    M/H of the second), or the four of the mirrored labelling, are all
    present and above the cutoff; a NULL among the four fails the branch. *)
Theorem dye_swap_test (c : Q) (r : quant_row) :
  holds (fc_filter c r) = true <->
  (exceeds (L0_M0_H1_norm_ratio_HL r) c /\
   exceeds (L0_M0_H1_norm_ratio_HM r) c /\
   exceeds (L1_M1_H0_norm_ratio_LH r) c /\
   exceeds (L1_M1_H0_norm_ratio_MH r) c) \/
  (exceeds (L0_M0_H1_norm_ratio_LH r) c /\
   exceeds (L0_M0_H1_norm_ratio_MH r) c /\
   exceeds (L1_M1_H0_norm_ratio_HL r) c /\
   exceeds (L1_M1_H0_norm_ratio_HM r) c).
Proof.
  unfold fc_filter, exceeds.
  rewrite holds_or3, orb_true_iff, !holds_all3. cbn [forallb].
  rewrite !andb_true_iff, !holds_gt. tauto.
Qed.

Lemma exceeds_mono (v : value) (c c' : Q) :
  c <= c' -> exceeds v c' -> exceeds v c.
Proof.
  intros Hc (x & -> & H). exists x. split; [reflexivity|].
  eapply Qle_lt_trans; eassumption.
Qed.

(** Raising the fold-change cutoff never adds a group: with the same
    significance cutoff, a group selected under the higher fold-change
    cutoff is selected under the lower one. *)
Theorem raising_fc_cutoff_only_removes (a a' : args) (r : quant_row) :
  fc_cutoff a <= fc_cutoff a' ->
  sigB_cutoff a = sigB_cutoff a' ->
  selected a' r = true -> selected a r = true.
Proof.
  intros Hfc Hsig. unfold selected, where_clause.
  rewrite !holds_and3, !andb_true_iff. intros [Hf He]. split.
  - apply fc_filter_exceeds. apply fc_filter_exceeds in Hf.
    destruct Hf as [(H1 & H2 & H3 & H4)|(H1 & H2 & H3 & H4)];
      [left|right]; repeat split; eapply exceeds_mono; eassumption.
  - unfold extra_filter in *. now rewrite Hsig.
Qed.

Lemma raising_fc_cutoff_only_removes_witness :
  selected default_args regulated_group = true.
Proof.
  apply (raising_fc_cutoff_only_removes default_args
           (Args "VH10" 2 1 None "piqmie.sqlite") regulated_group).
  - discriminate.
  - reflexivity.
  - reflexivity.
Defined.

(** The argument check accepts exactly a fold-change cutoff of at least 1
    and a significance cutoff between 0 and 1, bounds included. *)
Lemma check_args_accepts (a : args) :
  check_args a = None <->
  1 <= fc_cutoff a /\ 0 <= sigB_cutoff a <= 1.
Proof.
  unfold check_args.
  destruct (Qltb (fc_cutoff a) 1) eqn:E1.
  { apply Qltb_lt in E1. split; [discriminate|].
    intros [H _]. exfalso. apply (Qlt_not_le _ _ E1 H). }
  destruct (Qltb (sigB_cutoff a) 0) eqn:E2; simpl.
  { apply Qltb_lt in E2. split; [discriminate|].
    intros (_ & H & _). exfalso. apply (Qlt_not_le _ _ E2 H). }
  destruct (Qltb 1 (sigB_cutoff a)) eqn:E3.
  { apply Qltb_lt in E3. split; [discriminate|].
    intros (_ & _ & H). exfalso. apply (Qlt_not_le _ _ E3 H). }
  split; [intros _|reflexivity].
  repeat split; apply Qnot_lt_le; intros H; apply Qltb_lt in H; congruence.
Qed.

Section Run.

Variable ln : Q -> Q.
Variable str_float : Q -> string.
Variable path_in_dir_of : string -> string -> string.

Variable format_float : nat -> Q -> string.

(** [main] stops with status 2, leaving every file as it was and printing
    nothing, when the data base file does not exist, the fold-change cutoff
    is below 1 or the significance cutoff is outside [0, 1]; otherwise it
    prints its arguments and runs the query. *)
Theorem main_checks_arguments_first (a : args) (dbs : gmap string database)
    (w : Os.world) :
  let res := main ln str_float path_in_dir_of format_float a dbs w in
  (dbs !! dbfile a = None \/ fc_cutoff a < 1 \/
   sigB_cutoff a < 0 \/ 1 < sigB_cutoff a ->
   snd res = Py.Exit 2 /\ Os.files (fst res) = Os.files w /\
   Os.stdout (fst res) = Os.stdout w) /\
  (forall db,
     dbs !! dbfile a = Some db ->
     1 <= fc_cutoff a -> 0 <= sigB_cutoff a <= 1 ->
     res = run ln str_float path_in_dir_of a db
             (Os.print (banner path_in_dir_of format_float a) w)).
Proof.
  intros res. subst res. unfold main. split.
  - intros H. destruct (dbs !! dbfile a) as [db|] eqn:Edb;
      [|repeat split].
    destruct (check_args a) as [[]|] eqn:E; [repeat split..|].
    exfalso. apply check_args_accepts in E.
    destruct E as (H1 & H2 & H3).
    destruct H as [H|[H|[H|H]]]; [discriminate| | |];
      eapply Qlt_not_le; eassumption.
  - intros db -> H1 H2.
    assert (E : check_args a = None) by (apply check_args_accepts; tauto).
    now rewrite E.
Qed.

End Run.

End FcSigBMore.

(** * The output file of a run *)

Module OutputMore.
Import Sql Samples MoreSamples Terms.

Lemma append_assoc (s1 s2 s3 : string) :
  (s1 +:+ s2) +:+ s3 = s1 +:+ (s2 +:+ s3).
Proof.
  induction s1 as [|c s1 IH]; [reflexivity|].
  change (String c ((s1 +:+ s2) +:+ s3) = String c (s1 +:+ (s2 +:+ s3))).
  now f_equal.
Qed.

Lemma append_nil_r (s : string) : s +:+ "" = s.
Proof.
  induction s as [|c s IH]; [reflexivity|].
  change (String c (s +:+ "") = String c s). now f_equal.
Qed.

(** Two writes to a file are one write of the two texts. *)
Lemma write_write (path s1 s2 : string) (w : Os.world) :
  Os.write path s2 (Os.write path s1 w) = Os.write path (s1 +:+ s2) w.
Proof.
  unfold Os.write. cbn [Os.files Os.stdout Os.stderr].
  rewrite lookup_insert_eq, insert_insert_eq. simpl.
  now rewrite append_assoc.
Qed.

Lemma write_frame (path other s : string) (w : Os.world) :
  other <> path ->
  Os.files (Os.write path s w) !! other = Os.files w !! other.
Proof. intros H. unfold Os.write. simpl. now apply lookup_insert_ne. Qed.

Lemma write_streams (path s : string) (w : Os.world) :
  Os.stdout (Os.write path s w) = Os.stdout w /\
  Os.stderr (Os.write path s w) = Os.stderr w.
Proof. split; reflexivity. Qed.

(** The loops of the two scripts are instances of [write_loop]. *)
Lemma fcsigB_write_rows_is_loop (str_float : Q -> string) (path : string)
    (rows : list FcSigB.result_row) (n : nat) (w : Os.world) :
  FcSigB.write_rows str_float path rows n w =
  write_loop fc_header_line (FcSigB.render_row str_float) path rows n w.
Proof.
  revert n w. induction rows as [|row rows IH]; intros n w; [reflexivity|].
  cbn [FcSigB.write_rows write_loop]. fold fc_header_line.
  destruct (FcSigB.render_row str_float row); [apply IH|reflexivity].
Qed.

Lemma mzscore_write_rows_is_loop (str_float : Q -> string)
    (a : MzScore.args) (path : string) (rows : list MzScore.result_row)
    (n : nat) (w : Os.world) :
  MzScore.write_rows str_float a path rows n w =
  write_loop (mz_header_line a) (MzScore.render_row str_float) path rows n w.
Proof.
  revert n w. induction rows as [|row rows IH]; intros n w; [reflexivity|].
  cbn [MzScore.write_rows write_loop]. fold (mz_header_line a).
  destruct (MzScore.render_row str_float row); [apply IH|reflexivity].
Qed.

Section Loop.

Context {R : Type}.
Variable hdr : string.
Variable render : R -> Py.result string.

(** When every row can be written, the loop appends to the file the header
    line, if it starts the count at 0, and one line per row. *)
Lemma write_loop_text (path : string) (rows : list R)
    (lines : list string) (n : nat) (w : Os.world) :
  rows <> [] ->
  Py.mapM render rows = Py.Return lines ->
  write_loop hdr render path rows n w =
  (Os.write path ((if Nat.eqb n 0 then hdr else "") +:+ text lines) w,
   Py.Return (n + length rows)%nat).
Proof.
  revert lines n w.
  induction rows as [|row rows IH]; intros lines n w Hne Hl; [easy|].
  cbn [Py.mapM] in Hl. cbn [write_loop].
  destruct (render row) as [line|e]; [|discriminate].
  cbn [Py.bind] in Hl.
  destruct (Py.mapM render rows) as [ls|e] eqn:El; [|discriminate].
  injection Hl as <-. cbn [text fold_right length]. fold (text ls).
  destruct rows as [|row2 rows].
  - injection El as <-. cbn [write_loop text fold_right].
    rewrite append_nil_r, Nat.add_1_r.
    destruct (Nat.eqb n 0); [now rewrite write_write|reflexivity].
  - rewrite (IH ls (S n) _ ltac:(discriminate) eq_refl).
    cbn [Nat.eqb]. rewrite Nat.add_succ_r. f_equal.
    change ("" +:+ text ls) with (text ls).
    destruct (Nat.eqb n 0).
    + rewrite !write_write. try rewrite append_assoc. reflexivity.
    + now rewrite write_write.
Qed.

(** When a row cannot be written, the loop stops there: the file keeps the
    header line and the lines of the rows before it. *)
Lemma write_loop_raises (path : string) (before : list R) (row : R)
    (after : list R) (lines : list string) (e : Py.exn) (w : Os.world) :
  Py.mapM render before = Py.Return lines ->
  render row = Py.Raise e ->
  write_loop hdr render path (before ++ row :: after) 0 w =
  (Os.write path (hdr +:+ text lines) w, Py.Raise e).
Proof.
  intros Hl He.
  assert (G : forall before lines n w,
            Py.mapM render before = Py.Return lines ->
            write_loop hdr render path (before ++ row :: after) n w =
            (match before, n with
             | [], S _ => w
             | _, _ =>
                 Os.write path
                   ((if Nat.eqb n 0 then hdr else "") +:+ text lines) w
             end, Py.Raise e)).
  { clear before lines w Hl.
    induction before as [|b before IH]; intros lines n w Hl.
    - injection Hl as <-. cbn [app write_loop text fold_right].
      rewrite He. destruct n; [|reflexivity].
      cbn [Nat.eqb]. now rewrite append_nil_r.
    - cbn [Py.mapM] in Hl. cbn [app write_loop].
      destruct (render b) as [line|e']; [|discriminate].
      cbn [Py.bind] in Hl.
      destruct (Py.mapM render before) as [ls|e'] eqn:El; [|discriminate].
      injection Hl as <-. rewrite (IH ls (S n) _ eq_refl).
      cbn [Nat.eqb text fold_right]. fold (text ls). f_equal.
      change ("" +:+ text ls) with (text ls).
      destruct before as [|b2 before].
      + injection El as <-. cbn [text fold_right]. rewrite append_nil_r.
        destruct (Nat.eqb n 0); [now rewrite write_write|reflexivity].
      + destruct (Nat.eqb n 0).
        * rewrite !write_write. try rewrite append_assoc. reflexivity.
        * now rewrite write_write. }
  rewrite (G before lines 0%nat w Hl). cbn [Nat.eqb].
  now destruct before.
Qed.

(** The loop writes to no other file, and to neither stream. *)
Lemma write_loop_frame (path : string) (rows : list R) (n : nat)
    (w : Os.world) :
  let w' := fst (write_loop hdr render path rows n w) in
  (forall other, other <> path ->
     Os.files w' !! other = Os.files w !! other) /\
  Os.stdout w' = Os.stdout w /\ Os.stderr w' = Os.stderr w.
Proof.
  revert n w. induction rows as [|row rows IH]; intros n w; [easy|].
  cbn [write_loop].
  set (w1 := if Nat.eqb n 0 then Os.write path hdr w else w).
  assert (H1 : (forall other, other <> path ->
                  Os.files w1 !! other = Os.files w !! other) /\
               Os.stdout w1 = Os.stdout w /\ Os.stderr w1 = Os.stderr w).
  { subst w1. destruct (Nat.eqb n 0); [|easy].
    split; [|easy]. intros other Ho. now apply write_frame. }
  destruct (render row) as [line|e]; [|exact H1].
  destruct (IH (S n) (Os.write path line w1)) as (Hf & Ho & He).
  destruct H1 as (Hf1 & Ho1 & He1).
  split; [|split].
  - intros other Hne. rewrite (Hf other Hne), write_frame by exact Hne.
    now apply Hf1.
  - rewrite Ho. exact Ho1.
  - rewrite He. exact He1.
Qed.

End Loop.

Section Fcsigb.

Variable ln : Q -> Q.
Variable str_float : Q -> string.
Variable path_in_dir_of : string -> string -> string.


Lemma fcsigB_select_list_grp_id (g : FcSigB.group) (row : FcSigB.result_row) :
  FcSigB.select_list ln g = Py.Return row ->
  FcSigB.r_grp_id row = FcSigB.grp_id (FcSigB.quant g).
Proof.
  unfold FcSigB.select_list.
  destruct (Py.mapM (FcSigB.LOG2 ln) _) as [logs|e]; cbn [Py.bind];
    [|discriminate].
  now intros [= <-].
Qed.

Lemma mapM_map {A B C : Type} (f : A -> Py.result B) (p : B -> C)
    (q : A -> C) (l : list A) (bs : list B) :
  (forall a b, f a = Py.Return b -> p b = q a) ->
  Py.mapM f l = Py.Return bs -> map p bs = map q l.
Proof.
  intros Hk. revert bs. induction l as [|a l IH]; intros bs H.
  - now injection H as <-.
  - cbn [Py.mapM] in H. destruct (f a) as [b|] eqn:E; [|discriminate].
    cbn [Py.bind] in H.
    destruct (Py.mapM f l) as [bs'|]; [|discriminate].
    injection H as <-. cbn [map]. now rewrite (Hk a b E), (IH bs' eq_refl).
Qed.

(** The statement of [fcsigB.py] returns one row per [grp_id] that has a
    row with a protein passing the WHERE clause, by ascending [grp_id]. *)
Lemma fcsigB_execute_returns (a : FcSigB.args) (groups : list FcSigB.group)
    (db : FcSigB.database) :
  db !! FcSigB.dts a = Some groups ->
  exists rows,
    FcSigB.execute ln a db = Py.Return rows /\
    StronglySorted Z.lt (map FcSigB.r_grp_id rows) /\
    (forall g,
       In g (map FcSigB.r_grp_id rows) <->
       exists grp, In grp groups /\
                   FcSigB.grp_id (FcSigB.quant grp) = g /\
                   FcSigB.gene grp <> [] /\
                   FcSigB.selected a (FcSigB.quant grp) = true).
Proof.
  intros Hdb. unfold FcSigB.execute. rewrite Hdb.
  set (key := fun g => FcSigB.grp_id (FcSigB.quant g)).
  set (kept := List.filter
                 (fun g => FcSigB.joined g
                           && FcSigB.selected a (FcSigB.quant g)) groups).
  destruct (MzScoreFacts.mapM_returns (FcSigB.select_list ln)
              (GROUP_BY key FcSigB.same_group kept)
              (OutputFacts.fcsigB_select_list_returns ln))
    as (rows & Hex & _).
  exists rows. split; [exact Hex|].
  assert (Hk : forall x y, key (FcSigB.same_group x y) = key x)
    by reflexivity.
  rewrite (mapM_map _ FcSigB.r_grp_id key _ rows
             fcsigB_select_list_grp_id Hex).
  split; [apply SqlFacts.GROUP_BY_sorted, Hk|].
  intros g. rewrite (SqlFacts.GROUP_BY_keys key _ Hk), in_map_iff.
  subst kept. split.
  - intros (grp & Hg & Hin). apply filter_In in Hin.
    destruct Hin as (Hin & Hsel). apply andb_true_iff in Hsel.
    destruct Hsel as (Hj & Hs). exists grp.
    repeat split; try assumption.
    unfold FcSigB.joined in Hj. apply negb_true_iff in Hj.
    now apply bool_decide_eq_false in Hj.
  - intros (grp & Hin & Hg & Hj & Hs). exists grp. split; [exact Hg|].
    apply filter_In. split; [exact Hin|]. apply andb_true_iff.
    split; [|exact Hs]. unfold FcSigB.joined. apply negb_true_iff.
    now apply bool_decide_eq_false.
Qed.


(** When the columns of the data set do not exist, a run of [fcsigB.py]
    ends with status 1, the output file it opened does not exist afterwards,
    one message is written to the standard error and nothing is printed. *)
Theorem fcsigB_missing_dataset (a : FcSigB.args) (db : FcSigB.database)
    (w : Os.world) :
  db !! FcSigB.dts a = None ->
  let res := FcSigB.run ln str_float path_in_dir_of a db w in
  snd res = Py.Exit 1 /\
  Os.files (fst res) !! FcSigB.outfile_of path_in_dir_of a = None /\
  Os.stdout (fst res) = Os.stdout w /\
  exists msg, Os.stderr (fst res) = Os.stderr w ++ [msg].
Proof.
  intros Hdb res. subst res. unfold FcSigB.run, FcSigB.execute.
  rewrite Hdb. cbn [fst snd].
  split; [reflexivity|]. split; [|split; [reflexivity|eexists; reflexivity]].
  unfold Os.remove. cbn [Os.files]. apply lookup_delete_eq.
Qed.

(** A run of [fcsigB.py] changes no file other than its output file. *)
Theorem fcsigB_run_touches_only_outfile (a : FcSigB.args)
    (db : FcSigB.database) (w : Os.world) (other : string) :
  other <> FcSigB.outfile_of path_in_dir_of a ->
  Os.files (fst (FcSigB.run ln str_float path_in_dir_of a db w)) !! other
  = Os.files w !! other.
Proof.
  intros Hne. unfold FcSigB.run.
  set (out := FcSigB.outfile_of path_in_dir_of a) in *.
  assert (Hopen : Os.files (Os.open_w out w) !! other = Os.files w !! other).
  { unfold Os.open_w. cbn [Os.files]. now apply lookup_insert_ne. }
  destruct (db !! FcSigB.dts a) as [groups|] eqn:Hdb.
  - destruct (fcsigB_execute_returns a groups db Hdb) as (rows & -> & _).
    rewrite fcsigB_write_rows_is_loop.
    destruct (write_loop_frame fc_header_line
                (FcSigB.render_row str_float) out rows 0 (Os.open_w out w))
      as (Hf & _).
    specialize (Hf other Hne).
    destruct (write_loop fc_header_line (FcSigB.render_row str_float) out
                rows 0 (Os.open_w out w)) as [w' [n|e]]; cbn [fst] in *.
    + destruct (Os.is_empty out w'); cbn [fst].
      * unfold Os.remove, Os.print. cbn [Os.files].
        rewrite lookup_delete_ne by (intros E; now apply Hne).
        now rewrite Hf.
      * unfold Os.print. cbn [Os.files]. now rewrite Hf.
    + destruct e; cbn [fst]; try (now rewrite Hf).
      unfold Os.remove, Os.eprint. cbn [Os.files].
      rewrite lookup_delete_ne by (intros E; now apply Hne).
      now rewrite Hf.
  - unfold FcSigB.execute. rewrite Hdb. cbn [fst].
    unfold Os.remove, Os.eprint. cbn [Os.files].
    rewrite lookup_delete_ne by (intros E; now apply Hne).
    exact Hopen.
Qed.

End Fcsigb.

Section Mzscore.

Variable ln : Q -> Q.
Variable fsqrt : Q -> Q.
Variable norm_cdf : Q -> Q.
Variable text_roundtrip : Q -> Q.
Variable str_float : Q -> string.
Variable path_in_dir_of : string -> string -> string.
Variable format_float : nat -> Q -> string.

(** A row of [mzscore.py] with a NULL cell cannot be written. *)
Lemma mzscore_render_row_raises (row : MzScore.result_row) :
  In None (MzScore.r_cells row) ->
  MzScore.render_row str_float row = Py.Raise Py.TypeError.
Proof.
  intros Hin. unfold MzScore.render_row.
  assert (H : Py.mapM (MzScore.render_cell str_float) (MzScore.r_cells row)
              = Py.Raise Py.TypeError).
  { induction (MzScore.r_cells row) as [|[q|] cells IH]; [easy| |reflexivity].
    destruct Hin as [Hin|Hin]; [discriminate|].
    cbn [Py.mapM]. rewrite (IH Hin). reflexivity. }
  now rewrite H.
Qed.

(** When the statement of [mzscore.py] returns rows that can all be
    written, the run ends with status 0.  If no group is selected, the
    output file does not exist afterwards and "Nothing to write onto
    outfile." is printed.  Otherwise the file holds the header line followed
    by one line per selected group, and their count is printed. *)
Theorem mzscore_writes_selected_groups (a : MzScore.args)
    (v : option MzScore.view) (gene_of : gmap Z (list (option string)))
    (rows : list MzScore.result_row) (lines : list string) (w : Os.world) :
  MzScore.execute norm_cdf a v gene_of = Py.Return rows ->
  Py.mapM (MzScore.render_row str_float) rows = Py.Return lines ->
  let out := MzScore.outfile_of path_in_dir_of format_float a in
  let res :=
    MzScore.write_results norm_cdf str_float path_in_dir_of format_float a v
      gene_of w in
  snd res = Py.Exit 0 /\
  Os.stderr (fst res) = Os.stderr w /\
  (rows = [] ->
     Os.files (fst res) !! out = None /\
     Os.stdout (fst res) = Os.stdout w ++ ["Nothing to write onto outfile."]) /\
  (rows <> [] ->
     Os.files (fst res) !! out = Some (mz_header_line a +:+ text lines) /\
     Os.stdout (fst res)
     = Os.stdout w ++ ["Ndiff = " +:+ pretty (length rows)]).
Proof.
  intros Hex Hl out res. subst res.
  unfold MzScore.write_results. rewrite Hex. fold out.
  destruct rows as [|row rows].
  - cbn [MzScore.write_rows].
    assert (He : Os.is_empty out (Os.open_w out w) = true).
    { unfold Os.is_empty, Os.open_w. cbn [Os.files].
      now rewrite lookup_insert_eq. }
    rewrite He. cbn [fst snd].
    split; [reflexivity|]. split; [reflexivity|]. split; [|easy].
    intros _. split; [|reflexivity].
    unfold Os.remove. cbn [Os.files]. apply lookup_delete_eq.
  - rewrite mzscore_write_rows_is_loop.
    rewrite (write_loop_text (mz_header_line a) _ out (row :: rows) lines 0
               (Os.open_w out w) ltac:(discriminate) Hl).
    cbn [Nat.eqb Nat.add].
    assert (Hf : Os.files (Os.write out (mz_header_line a +:+ text lines)
                             (Os.open_w out w)) !! out
                 = Some (mz_header_line a +:+ text lines)).
    { unfold Os.write, Os.open_w. cbn [Os.files].
      now rewrite !lookup_insert_eq. }
    assert (He : Os.is_empty out
                   (Os.write out (mz_header_line a +:+ text lines)
                      (Os.open_w out w)) = false).
    { unfold Os.is_empty. rewrite Hf. reflexivity. }
    rewrite He. cbn [fst snd].
    split; [reflexivity|]. split; [reflexivity|]. split; [easy|].
    intros _. split; [exact Hf|reflexivity].
Qed.

(** When a selected group of [mzscore.py] has a NULL cell, the run ends
    there with an uncaught [TypeError]: the output file stays, holding the
    header line and the lines of the groups before it, and neither the
    count nor an error message is written. *)
Theorem mzscore_abort_leaves_partial_file (a : MzScore.args)
    (v : option MzScore.view) (gene_of : gmap Z (list (option string)))
    (before after : list MzScore.result_row) (row : MzScore.result_row)
    (lines : list string) (w : Os.world) :
  MzScore.execute norm_cdf a v gene_of
  = Py.Return (before ++ row :: after) ->
  Py.mapM (MzScore.render_row str_float) before = Py.Return lines ->
  In None (MzScore.r_cells row) ->
  let out := MzScore.outfile_of path_in_dir_of format_float a in
  let res :=
    MzScore.write_results norm_cdf str_float path_in_dir_of format_float a v
      gene_of w in
  snd res = Py.Uncaught Py.TypeError /\
  Os.files (fst res) !! out = Some (mz_header_line a +:+ text lines) /\
  Os.stdout (fst res) = Os.stdout w /\
  Os.stderr (fst res) = Os.stderr w.
Proof.
  intros Hex Hl Hnull out res. subst res.
  unfold MzScore.write_results. rewrite Hex. fold out.
  rewrite mzscore_write_rows_is_loop.
  rewrite (write_loop_raises (mz_header_line a) _ out before row after lines
             Py.TypeError (Os.open_w out w) Hl
             (mzscore_render_row_raises row Hnull)).
  cbn [fst snd]. split; [reflexivity|]. split; [|split; reflexivity].
  unfold Os.write, Os.open_w. cbn [Os.files].
  now rewrite !lookup_insert_eq.
Qed.

(** Whatever the data base holds, a run of [mzscore.py] changes no file
    other than its output file.  The tables and views rebuilt under [-n]
    are part of the data base, which is not among these files. *)
Theorem mzscore_run_touches_only_outfile (a : MzScore.args)
    (db : MzScore.database) (w : Os.world) (other : string) :
  other <> MzScore.outfile_of path_in_dir_of format_float a ->
  Os.files
    (fst (MzScore.run ln fsqrt norm_cdf text_roundtrip str_float
            path_in_dir_of format_float a db w)) !! other
  = Os.files w !! other.
Proof.
  intros Hne.
  assert (G : forall v,
            Os.files
              (fst (MzScore.write_results norm_cdf str_float path_in_dir_of
                      format_float a v (MzScore.gene db) w)) !! other
            = Os.files w !! other).
  { intros v. unfold MzScore.write_results.
    set (out := MzScore.outfile_of path_in_dir_of format_float a) in *.
    assert (Hopen : Os.files (Os.open_w out w) !! other
                    = Os.files w !! other).
    { unfold Os.open_w. cbn [Os.files]. now apply lookup_insert_ne. }
    destruct (MzScore.execute norm_cdf a v (MzScore.gene db))
      as [rows|e].
    - rewrite mzscore_write_rows_is_loop.
      destruct (write_loop_frame (mz_header_line a)
                  (MzScore.render_row str_float) out rows 0
                  (Os.open_w out w)) as (Hf & _).
      specialize (Hf other Hne).
      destruct (write_loop (mz_header_line a) (MzScore.render_row str_float)
                  out rows 0 (Os.open_w out w)) as [w' [n|e]];
        cbn [fst] in *.
      + destruct (Os.is_empty out w'); cbn [fst].
        * unfold Os.remove, Os.print. cbn [Os.files].
          rewrite lookup_delete_ne by (intros E; now apply Hne).
          now rewrite Hf.
        * unfold Os.print. cbn [Os.files]. now rewrite Hf.
      + destruct e; unfold Os.eprint; cbn [fst Os.files]; now rewrite Hf.
    - destruct e; unfold Os.eprint; cbn [fst Os.files]; exact Hopen. }
  unfold MzScore.run. destruct (MzScore.new_tabs a); [|apply G].
  destruct (MzScore.populate ln fsqrt text_roundtrip db) as [v|e];
    [apply G|reflexivity].
Qed.

End Mzscore.


Lemma fcsigB_missing_dataset_witness :
  (∅ : FcSigB.database) !! FcSigB.dts default_args = None /\
  snd (FcSigB.run (fun q => q) (fun _ => "0.0") (fun _ f => f)
         default_args ∅ empty_world) = Py.Exit 1.
Proof.
  assert (H : (∅ : FcSigB.database) !! FcSigB.dts default_args = None)
    by reflexivity.
  split; [exact H|].
  exact (proj1 (fcsigB_missing_dataset (fun q => q) (fun _ => "0.0")
                  (fun _ f => f) default_args ∅ empty_world H)).
Defined.

Lemma fcsigB_run_touches_only_outfile_witness :
  "notes.txt" <> FcSigB.outfile_of (fun _ f => f) default_args /\
  Os.files (fst (FcSigB.run (fun q => q) (fun _ => "0.0") (fun _ f => f)
                   default_args sample_db empty_world)) !! "notes.txt"
  = Os.files empty_world !! "notes.txt".
Proof.
  assert (H : "notes.txt" <> FcSigB.outfile_of (fun _ f => f) default_args)
    by discriminate.
  split; [exact H|].
  exact (fcsigB_run_touches_only_outfile (fun q => q) (fun _ => "0.0")
           (fun _ f => f) default_args sample_db empty_world "notes.txt" H).
Defined.

(** The statement of [fcsigB.py] on three rows that pass the WHERE clause,
    met in the order 11, 9, 7: the group without protein is not returned,
    the others come by ascending [grp_id], each gene once. *)
Example fcsigB_statement_on_mixed_db :
  exists rows,
    FcSigB.execute (fun q => q) default_args mixed_db = Py.Return rows /\
    map (fun r => (FcSigB.r_grp_id r, FcSigB.r_genes r)) rows
    = [ (7%Z, "B,A"); (11%Z, "TP53") ].
Proof. eexists. split; vm_compute; reflexivity. Qed.

(** The statement of [mzscore.py] on a stored view of three regulated
    groups, and the file of a run without [-o]. *)
Example mzscore_statement_on_three_groups :
  (exists rows,
     MzScore.execute (fun q => q) mz_args_no_outfile (Some three_group_view)
       some_genes = Py.Return rows /\
     map (fun r => (MzScore.r_grp_id r, MzScore.r_genes r)) rows
     = [ (5%Z, "B,A"); (8%Z, "-") ]) /\
  MzScore.outfile_of (fun _ f => f) (fun _ _ => "2.00") mz_args_no_outfile
  = "VH10_mzscore_Zr_2.00.tab".
Proof. split; [eexists; split|]; vm_compute; reflexivity. Qed.

Lemma mzscore_writes_selected_groups_witness :
  let res :=
    MzScore.write_results (fun q => q) (fun _ => "0.0") (fun _ f => f)
      (fun _ _ => "2.00") mz_args_no_outfile (Some three_group_view)
      some_genes empty_world in
  snd res = Py.Exit 0 /\
  is_Some (Os.files (fst res) !! "VH10_mzscore_Zr_2.00.tab") /\
  Os.stdout (fst res) = [ "Ndiff = 2" ].
Proof.
  destruct (mzscore_writes_selected_groups (fun q => q) (fun _ => "0.0")
              (fun _ f => f) (fun _ _ => "2.00") mz_args_no_outfile
              (Some three_group_view) some_genes _ _ empty_world
              eq_refl eq_refl) as (H1 & _ & _ & H2).
  split; [exact H1|].
  destruct (H2 ltac:(discriminate)) as (H3 & H4).
  split; [|exact H4]. eexists. exact H3.
Defined.

Lemma mzscore_abort_leaves_partial_file_witness :
  snd (MzScore.write_results (fun q => q) (fun _ => "0.0") (fun _ f => f)
         (fun _ _ => "0.00") mz_args (Some null_forward_view) one_gene
         empty_world)
  = Py.Uncaught Py.TypeError.
Proof.
  refine (proj1 (mzscore_abort_leaves_partial_file (fun q => q)
                   (fun _ => "0.0") (fun _ f => f) (fun _ _ => "0.00") mz_args
                   (Some null_forward_view) one_gene [] [] _ [] empty_world
                   _ _ _)).
  - reflexivity.
  - reflexivity.
  - left. reflexivity.
Defined.

Lemma mzscore_run_touches_only_outfile_witness :
  "VH10_mzscore_Zr_2.0.tab"
  <> MzScore.outfile_of (fun _ f => f) (fun _ _ => "2.00")
       mz_args_no_outfile /\
  Os.files
    (fst (MzScore.run (fun q => q) (fun q => q) (fun q => q) (fun q => q)
            (fun _ => "2.0") (fun _ f => f) (fun _ _ => "2.00")
            mz_args_no_outfile
            (MzScore.Database [] [] [] (Some three_group_view) some_genes)
            empty_world)) !! "VH10_mzscore_Zr_2.0.tab"
  = Os.files empty_world !! "VH10_mzscore_Zr_2.0.tab".
Proof.
  assert (H : "VH10_mzscore_Zr_2.0.tab"
              <> MzScore.outfile_of (fun _ f => f) (fun _ _ => "2.00")
                   mz_args_no_outfile)
    by (intros H; vm_compute in H; discriminate H).
  split; [exact H|].
  exact (mzscore_run_touches_only_outfile (fun q => q) (fun q => q)
           (fun q => q) (fun q => q) (fun _ => "2.0") (fun _ f => f)
           (fun _ _ => "2.00") mz_args_no_outfile
           (MzScore.Database [] [] [] (Some three_group_view) some_genes)
           empty_world "VH10_mzscore_Zr_2.0.tab" H).
Defined.

End OutputMore.

(** * [mzscore.py]: the arguments, the functions and the selection *)

Module MzScoreMore.
Import Sql SqlFacts MzScore Samples MoreSamples Terms.

(** The selection of [mzscore.py]: the four treatment scores of one
    labelling, or the four of the mirrored labelling, are present and above
    the cutoff, and the four control scores (M/L and L/M of both
    experiments) are present and at most the cutoff.  A group with a NULL
    control score is never selected. *)
Theorem mzscore_selection_rule (a : args) (row : list (string * value)) :
  let c := cutoff a in
  let v exp dir := cell row (column a exp dir) in
  holds (where_clause a row) = true <->
  ((exceeds (v "L0_M0_H1" "HL") c /\ exceeds (v "L0_M0_H1" "HM") c /\
    exceeds (v "L1_M1_H0" "LH") c /\ exceeds (v "L1_M1_H0" "MH") c) \/
   (exceeds (v "L0_M0_H1" "LH") c /\ exceeds (v "L0_M0_H1" "MH") c /\
    exceeds (v "L1_M1_H0" "HL") c /\ exceeds (v "L1_M1_H0" "HM") c)) /\
  at_most (v "L0_M0_H1" "ML") c /\ at_most (v "L0_M0_H1" "LM") c /\
  at_most (v "L1_M1_H0" "ML") c /\ at_most (v "L1_M1_H0" "LM") c.
Proof.
  intros c v. unfold where_clause, exceeds, at_most. fold c. fold v.
  rewrite holds_and3, holds_or3, !holds_all3. cbn [forallb].
  rewrite !andb_true_iff, orb_true_iff, !andb_true_iff,
    !holds_gt, !holds_le.
  tauto.
Qed.

(** The argument check accepts exactly a non-empty score family with a
    positive cutoff.  A cutoff of 0 is refused with the message that asks
    for [-s] and [-c] together, a negative one with the message about the
    sign. *)
Theorem mzscore_check_args (a : args) :
  (check_args a = None <-> s a <> "" /\ 0 < cutoff a) /\
  (check_args a = Some NegativeCutoff <-> s a <> "" /\ cutoff a < 0) /\
  (check_args a = Some ScoreAndCutoffTogether <->
   s a = "" \/ cutoff a == 0).
Proof.
  unfold check_args.
  destruct (bool_decide (s a = "")) eqn:Es; simpl.
  { apply bool_decide_eq_true in Es.
    intuition (try discriminate; try congruence). }
  apply bool_decide_eq_false in Es.
  destruct (Qeq_bool (cutoff a) 0) eqn:E0; simpl.
  { apply Qeq_bool_iff in E0.
    intuition (try discriminate; try congruence; try lra). }
  assert (Hn0 : ~ cutoff a == 0)
    by (intros H; apply Qeq_bool_iff in H; congruence).
  destruct (Qltb (cutoff a) 0) eqn:E1.
  - apply Qltb_lt in E1.
    intuition (try discriminate; try congruence; try lra).
  - assert (Hpos : 0 < cutoff a).
    { apply Qnot_le_lt. intros Hle.
      apply Qle_lteq in Hle. destruct Hle as [Hlt|Heq].
      - apply Qltb_lt in Hlt. congruence.
      - contradiction. }
    intuition (try discriminate; try congruence; try lra).
Qed.

Lemma mz_check_args_accepts (a : args) :
  check_args a = None <-> s a <> "" /\ 0 < cutoff a.
Proof.
  unfold check_args.
  destruct (bool_decide (s a = "")) eqn:Es; simpl.
  { apply bool_decide_eq_true in Es.
    intuition (try discriminate; try congruence). }
  apply bool_decide_eq_false in Es.
  destruct (Qeq_bool (cutoff a) 0) eqn:E0; simpl.
  { apply Qeq_bool_iff in E0.
    intuition (try discriminate; try congruence; try lra). }
  destruct (Qltb (cutoff a) 0) eqn:E1.
  - apply Qltb_lt in E1.
    intuition (try discriminate; try congruence; try lra).
  - split; [intros _|reflexivity]. split; [exact Es|].
    apply Qnot_le_lt. intros Hle.
    apply Qle_lteq in Hle. destruct Hle as [Hlt|Heq].
    + apply Qltb_lt in Hlt. congruence.
    + apply Qeq_bool_iff in Heq. congruence.
Qed.


Section Main.

Variable ln : Q -> Q.
Variable fsqrt : Q -> Q.
Variable norm_cdf : Q -> Q.
Variable text_roundtrip : Q -> Q.
Variable str_float : Q -> string.
Variable path_in_dir_of : string -> string -> string.

Variable format_float : nat -> Q -> string.

(** The script stops with status 2, leaving every file as it was and
    printing nothing, when the data base file does not exist or the score
    family and cutoff are not accepted (a cutoff of 0 included); otherwise
    it prints its arguments and runs. *)
Theorem mzscore_main_checks_arguments_first (a : args)
    (dbs : gmap string database) (w : Os.world) :
  let res :=
    main ln fsqrt norm_cdf text_roundtrip str_float path_in_dir_of
      format_float a dbs w in
  (dbs !! dbfile a = None \/ s a = "" \/ cutoff a <= 0 ->
   snd res = Py.Exit 2 /\ Os.files (fst res) = Os.files w /\
   Os.stdout (fst res) = Os.stdout w) /\
  (forall db,
     dbs !! dbfile a = Some db -> s a <> "" -> 0 < cutoff a ->
     res = run ln fsqrt norm_cdf text_roundtrip str_float path_in_dir_of
             format_float a db
             (Os.print (banner path_in_dir_of format_float a) w)).
Proof.
  intros res. subst res. unfold main.
  pose proof (mz_check_args_accepts a) as Hok. split.
  - intros H. destruct (dbs !! dbfile a) as [db|] eqn:Edb;
      [|repeat split].
    destruct (check_args a) as [[]|] eqn:E; [repeat split..|].
    exfalso. destruct (proj1 Hok eq_refl) as [Hs Hc].
    destruct H as [H|[H|H]]; [discriminate|contradiction|].
    apply (Qlt_not_le _ _ Hc H).
  - intros db -> Hs Hc.
    assert (E : check_args a = None) by (apply Hok; tauto).
    now rewrite E.
Qed.

End Main.

(** The user-defined function [sqrt] returns for every argument: the
    square root of a number that is not negative, and [None] for a negative
    number, [None] or a text. *)
Theorem sqrt_never_raises (fsqrt : Q -> Q) (value : Py.value) :
  sqrt fsqrt value =
  Py.Return match value with
            | Py.VFloat q =>
                if Qle_bool 0 q then Py.VFloat (fsqrt q) else Py.VNone
            | _ => Py.VNone
            end.
Proof.
  destruct value as [|q|t]; try reflexivity.
  unfold sqrt, math_sqrt. now destruct (Qle_bool 0 q).
Qed.

Lemma Qabs_opp_eq (q : Q) : Qabs (- q) = Qabs q.
Proof. destruct q as [n d]. unfold Qabs, Qopp. simpl. now rewrite Z.abs_opp. Qed.

(** The p-value does not depend on the sign of the score: the user-defined
    function returns the same value on a score and on its opposite, so the
    p-value of [-1 * x] in a statement is that of [x]. *)
Theorem pvalue_ignores_sign (norm_cdf : Q -> Q) (q : Q) (x : value) :
  pvalue norm_cdf (Py.VFloat (- q)) = pvalue norm_cdf (Py.VFloat q) /\
  PVALUE norm_cdf (neg x) = PVALUE norm_cdf x.
Proof.
  assert (H : forall q, pvalue norm_cdf (Py.VFloat (- q))
                        = pvalue norm_cdf (Py.VFloat q)).
  { intros q'. unfold pvalue, abs. cbn [Py.bind Py.try_except].
    now rewrite Qabs_opp_eq. }
  split; [apply H|].
  destruct x as [y|]; [|reflexivity].
  unfold PVALUE, neg. cbn [option_map Py.of_sql].
  now rewrite MzScoreFacts.neg_is_opp, H.
Qed.

(** *** Names of inverse ratios *)

Lemma list_of_append (p r : string) :
  String.list_ascii_of_string (p +:+ r)
  = String.list_ascii_of_string p ++ String.list_ascii_of_string r.
Proof.
  induction p as [|c p IH]; [reflexivity|].
  change (c :: String.list_ascii_of_string (p +:+ r)
          = c :: (String.list_ascii_of_string p
                  ++ String.list_ascii_of_string r)).
  now f_equal.
Qed.

Lemma string_of_app (l1 l2 : list Ascii.ascii) :
  String.string_of_list_ascii (l1 ++ l2)
  = String.string_of_list_ascii l1 +:+ String.string_of_list_ascii l2.
Proof.
  induction l1 as [|c l1 IH]; [reflexivity|].
  change (String c (String.string_of_list_ascii (l1 ++ l2))
          = String c (String.string_of_list_ascii l1
                      +:+ String.string_of_list_ascii l2)).
  now f_equal.
Qed.

Lemma length_list_of_string (r : string) :
  length (String.list_ascii_of_string r) = String.length r.
Proof. induction r as [|c r IH]; [reflexivity|]. simpl. now f_equal. Qed.

Lemma inverse_ratio_app (p r : string) :
  (2 <= String.length r)%nat ->
  inverse_ratio (p +:+ r) = p +:+ inverse_ratio r.
Proof.
  intros Hr. unfold inverse_ratio.
  rewrite list_of_append, length_app, <- (length_list_of_string r) in *.
  set (lp := String.list_ascii_of_string p).
  set (lr := String.list_ascii_of_string r) in *.
  replace (length lp + length lr - 2)%nat
    with (length lp + (length lr - 2))%nat by lia.
  rewrite take_app_add, drop_app_add, <- app_assoc, string_of_app.
  subst lp. now rewrite String.string_of_list_ascii_of_string.
Qed.



(** Swapping the last two letters of a ratio name twice gives the name
    back, keeps its length, and touches nothing before the last two
    letters. *)
Theorem inverse_ratio_round_trip (r p : string) :
  inverse_ratio (inverse_ratio r) = r /\
  String.length (inverse_ratio r) = String.length r /\
  ((2 <= String.length r)%nat ->
   inverse_ratio (p +:+ r) = p +:+ inverse_ratio r).
Proof.
  split; [|split; [|apply inverse_ratio_app]].
  - unfold inverse_ratio.
    rewrite String.list_ascii_of_string_of_list_ascii.
    set (l := String.list_ascii_of_string r).
    set (k := (length l - 2)%nat).
    assert (Hk : (k <= length l)%nat) by (subst k; lia).
    assert (Hlen : length (take k l ++ rev (drop k l)) = length l).
    { rewrite length_app, length_rev, length_take, length_drop. lia. }
    rewrite Hlen. fold k.
    assert (Htk : length (take k l) = k) by (rewrite length_take; lia).
    rewrite <- Htk at 1. rewrite take_app_length.
    rewrite <- Htk at 2. rewrite drop_app_length.
    rewrite rev_involutive, take_drop.
    apply String.string_of_list_ascii_of_string.
  - unfold inverse_ratio.
    rewrite <- !length_list_of_string,
      String.list_ascii_of_string_of_list_ascii.
    rewrite length_app, length_rev, length_take, length_drop. lia.
Qed.

End MzScoreMore.

(** * [mzscore.py]: the tables built under [-n] *)

Module TablesMore.
Import Sql SqlFacts MzScore Samples MoreSamples Terms MzScoreFacts.

Lemma assoc_of_key {A : Type} (k : string) (l : list (string * A)) :
  k ∈ map fst l -> exists v, assoc k l = Some v /\ v ∈ map snd l.
Proof.
  induction l as [|[k' v'] l IH]; intros Hin.
  - now apply elem_of_nil in Hin.
  - cbn [assoc]. destruct (bool_decide (k = k')) eqn:E.
    + exists v'. split; [reflexivity|]. cbn. apply elem_of_cons. now left.
    + apply bool_decide_eq_false in E. cbn in Hin.
      apply elem_of_cons in Hin. destruct Hin as [Hin|Hin]; [contradiction|].
      destruct (IH Hin) as (v & Hv & Hs). exists v. split; [exact Hv|].
      cbn. apply elem_of_cons. now right.
Qed.

Lemma ratio_view_types_aux (PGROUP_QUANT : list pgroup_quant)
    (V_PGROUP : list Z) :
  Forall (fun row =>
            (exists t, rr_ratio_type row = Some t /\
                       t ∈ map snd ratio_types) /\
            exists A, In A PGROUP_QUANT /\
                      rr_grp_id row = pq_grp_id A /\
                      rr_exp_name row = pq_exp_name A /\
                      ratio_value row = quant_value A /\
                      In (pq_grp_id A) V_PGROUP)
         (V_PGROUP_RATIO PGROUP_QUANT V_PGROUP).
Proof.
  apply List.Forall_forall. intros row Hrow.
  apply V_PGROUP_RATIO_rows in Hrow.
  destruct Hrow as (A & B & HA & HB & Hw & ->).
  apply ratio_where_spec in Hw. destruct Hw as (<- & Ht & _).
  split.
  - cbn [rr_ratio_type]. now apply assoc_of_key.
  - exists A. now repeat split.
Qed.

(** Every row of the ratio view carries the group and the experiment of a
    row of the source table and one of the six ratio types of
    [ratio_types]; its ratio type is never NULL. *)
Theorem ratio_view_types (PGROUP_QUANT : list pgroup_quant)
    (V_PGROUP : list Z) :
  Forall (fun row =>
            (exists t, rr_ratio_type row = Some t /\
                       t ∈ map snd ratio_types) /\
            exists A, In A PGROUP_QUANT /\
                      rr_grp_id row = pq_grp_id A /\
                      rr_exp_name row = pq_exp_name A /\
                      ratio_value row = quant_value A /\
                      In (pq_grp_id A) V_PGROUP)
         (V_PGROUP_RATIO PGROUP_QUANT V_PGROUP).
Proof.
  apply List.Forall_forall. intros row Hrow.
  exact (proj1 (List.Forall_forall _ _)
           (ratio_view_types_aux PGROUP_QUANT V_PGROUP) row Hrow).
Qed.

(** *** The logarithm of a cell *)

Lemma LOG2_of_positive (ln : Q -> Q) (q : Q) :
  ~ ln 2 == 0 -> 0 < q ->
  LOG2 ln (Some q) = Py.Return (Py.VFloat (ln q / ln 2)).
Proof.
  intros Hln Hq. unfold LOG2. cbn [Py.of_sql].
  rewrite UdfFacts.log_on_numbers.
  apply Qltb_lt in Hq. rewrite Hq. cbn [andb].
  destruct (Qeq_bool (ln 2) 0) eqn:E; [|reflexivity].
  apply Qeq_bool_iff in E. contradiction.
Qed.

Lemma LOG2_of_other (ln : Q -> Q) (x : value) :
  (forall q, x = Some q -> q <= 0) ->
  LOG2 ln x = Py.Return Py.VNone.
Proof.
  intros H. unfold LOG2. destruct x as [q|]; [|reflexivity].
  cbn [Py.of_sql]. rewrite UdfFacts.log_on_numbers.
  destruct (Qltb 0 q) eqn:E; [|reflexivity].
  apply Qltb_lt in E. exfalso.
  apply (Qlt_not_le _ _ E). now apply H.
Qed.

Lemma LOG2_cases (ln : Q -> Q) (x : value) :
  LOG2 ln x = Py.Return Py.VNone \/
  exists l, LOG2 ln x = Py.Return (Py.VFloat l).
Proof.
  unfold LOG2. destruct x as [q|]; [|now left].
  cbn [Py.of_sql]. rewrite UdfFacts.log_on_numbers.
  destruct (Qltb 0 q && Qltb 0 2 && negb (Qeq_bool (ln 2) 0)); eauto.
Qed.

(** *** The aggregates on the cells of a bucket *)

Lemma Median_steps (cells : list Py.value) (self : Median) :
  arr (fold_left Median_step cells self) = arr self ++ cells.
Proof.
  revert self. induction cells as [|c cells IH]; intros self; simpl.
  - now rewrite app_nil_r.
  - rewrite IH. simpl. now rewrite <- app_assoc.
Qed.

Lemma Mad_steps (cells : list Py.value) (self : Mad) :
  mad_arr (fold_left Mad_step cells self) = mad_arr self ++ cells.
Proof.
  revert self. induction cells as [|c cells IH]; intros self; simpl.
  - now rewrite app_nil_r.
  - rewrite IH. simpl. now rewrite <- app_assoc.
Qed.

Lemma MEDIAN_on_floats (xs : list Q) :
  MEDIAN (map Py.VFloat xs) = Py.Return (result_double (np_median xs)).
Proof.
  unfold MEDIAN, Median_finalize.
  rewrite Median_steps. simpl. now rewrite np_array_floats.
Qed.

Lemma MAD_on_floats (xs : list Q) :
  MAD (map Py.VFloat xs) =
  Py.Return
    (result_double
       match np_median xs with
       | Finite median => np_median (map (fun x => Qabs (x - median)) xs)
       | other => other
       end).
Proof.
  unfold MAD, Mad_finalize.
  rewrite Mad_steps. simpl. rewrite np_array_floats. simpl.
  now destruct (np_median xs).
Qed.

(** An array is built exactly from lists of numbers. *)
Lemma np_array_cases (cells : list Py.value) :
  (exists xs, cells = map Py.VFloat xs) \/
  np_array cells = Py.Raise Py.TypeError.
Proof.
  induction cells as [|c cells IH].
  - left. now exists [].
  - destruct c as [|q|t]; [now right| |now right].
    destruct IH as [(xs & ->)|IH].
    + left. now exists (q :: xs).
    + right. unfold np_array in *. cbn [Py.mapM Py.bind]. now rewrite IH.
Qed.

Lemma MEDIAN_raises (cells : list Py.value) :
  np_array cells = Py.Raise Py.TypeError ->
  MEDIAN cells = Py.Raise finalize_error.
Proof.
  intros H. unfold MEDIAN, Median_finalize.
  rewrite Median_steps. simpl. now rewrite H.
Qed.

(** *** The table of statistics *)

Lemma mapM_raises {A B : Type} (f : A -> Py.result B) (e : Py.exn)
    (l : list A) :
  (forall a, (exists b, f a = Py.Return b) \/ f a = Py.Raise e) ->
  Exists (fun a => f a = Py.Raise e) l ->
  Py.mapM f l = Py.Raise e.
Proof.
  intros Hf Hex. induction l as [|a l IH]; [inversion Hex|].
  cbn [Py.mapM]. destruct (Hf a) as [(b & Hb)|Hr].
  - rewrite Hb. cbn [Py.bind].
    inversion Hex as [? ? H|? ? H]; subst; [congruence|].
    now rewrite (IH H).
  - now rewrite Hr.
Qed.

Lemma mapM_Forall2 {A B : Type} (f : A -> Py.result B) (P : A -> B -> Prop)
    (l : list A) :
  List.Forall (fun a => exists b, f a = Py.Return b /\ P a b) l ->
  exists bs, Py.mapM f l = Py.Return bs /\ Forall2 P l bs.
Proof.
  induction 1 as [|a l (b & Hb & HP) _ (bs & IH & HF)].
  - exists []. split; [reflexivity|constructor].
  - exists (b :: bs). cbn [Py.mapM]. rewrite Hb. cbn [Py.bind].
    rewrite IH. split; [reflexivity|now constructor].
Qed.

Lemma logs_of_bucket (ln : Q -> Q) (rows : list ratio_row) :
  exists logs,
    Py.mapM (fun r => LOG2 ln (ratio_value r)) rows = Py.Return logs /\
    (~ ln 2 == 0 -> List.Forall transformable rows ->
     exists xs, logs = map Py.VFloat xs /\ length xs = length rows) /\
    (Exists (fun r => ~ transformable r) rows ->
     np_array logs = Py.Raise Py.TypeError).
Proof.
  induction rows as [|r rows (logs & Hl & Hpos & Hneg)].
  - exists []. split; [reflexivity|]. split.
    + intros _ _. now exists [].
    + intros H. inversion H.
  - destruct (LOG2_cases ln (ratio_value r)) as [Hr|(l & Hr)].
    + exists (Py.VNone :: logs). cbn [Py.mapM]. rewrite Hr, Hl.
      split; [reflexivity|]. split; [|reflexivity].
      intros Hln HF. exfalso.
      apply List.Forall_inv in HF. destruct HF as (q & Hq & Hq0).
      rewrite Hq, (LOG2_of_positive ln q Hln Hq0) in Hr. discriminate.
    + exists (Py.VFloat l :: logs). cbn [Py.mapM]. rewrite Hr, Hl.
      split; [reflexivity|]. split.
      * intros Hln HF. inversion HF as [|? ? _ HF']; subst.
        destruct (Hpos Hln HF') as (xs & -> & Hlen).
        exists (l :: xs). split; [reflexivity|]. simpl. now f_equal.
      * intros Hex. inversion Hex as [? ? H|? ? H]; subst.
        -- exfalso. apply H.
           destruct (ratio_value r) as [q|] eqn:Eq.
           ++ exists q. split; [exact Eq|].
              apply Qnot_le_lt. intros Hle.
              rewrite (LOG2_of_other ln (Some q)) in Hr; [discriminate|].
              intros q' [= <-]. exact Hle.
           ++ rewrite (LOG2_of_other ln None) in Hr; [discriminate|].
              intros q' Hq'. discriminate.
        -- unfold np_array in *. cbn [Py.mapM Py.bind].
           now rewrite (Hneg H).
Qed.

Lemma COUNT_transformable (rows : list ratio_row) :
  List.Forall transformable rows ->
  COUNT (map ratio_value rows) = Z.of_nat (length rows).
Proof.
  intros HF. unfold COUNT. f_equal.
  induction HF as [|r rows (q & Hq & _) _ IH]; [reflexivity|].
  cbn. rewrite Hq. cbn. now f_equal.
Qed.

(** The row of statistics of a bucket: built when every ratio of the bucket
    has a logarithm, an [OperationalError] otherwise. *)
Lemma stat_of_bucket_cases (ln fsqrt : Q -> Q)
    (key : string * option string) (rows : list ratio_row) :
  (Exists (fun r => ~ transformable r) rows ->
   stat_of_bucket ln fsqrt key rows = Py.Raise finalize_error) /\
  (~ ln 2 == 0 -> List.Forall transformable rows ->
   exists st, stat_of_bucket ln fsqrt key rows = Py.Return st /\
              stat_key st = key /\ n st = Z.of_nat (length rows)) /\
  ((exists st, stat_of_bucket ln fsqrt key rows = Py.Return st) \/
   stat_of_bucket ln fsqrt key rows = Py.Raise finalize_error).
Proof.
  unfold stat_of_bucket.
  destruct (logs_of_bucket ln rows) as (logs & -> & Hpos & Hneg).
  cbn [Py.bind].
  assert (Hfloats : forall xs, logs = map Py.VFloat xs ->
            exists st,
              (let* med := MEDIAN logs in
               let* dev := STDEV fsqrt logs in
               let* md := MAD logs in
               Py.Return
                 (StatRow (fst key) (snd key) (COUNT (map ratio_value rows))
                    (agg Qmin (map Py.to_sql logs))
                    (agg Qmax (map Py.to_sql logs))
                    (AVG (map Py.to_sql logs)) med dev md))
              = Py.Return st /\
              stat_key st = key /\ n st = COUNT (map ratio_value rows)).
  { intros xs ->.
    rewrite MEDIAN_on_floats, STDEV_on_floats, MAD_on_floats.
    cbn [Py.bind]. eexists. split; [reflexivity|].
    split; [now destruct key|reflexivity]. }
  split; [|split].
  - intros Hex. now rewrite (MEDIAN_raises logs (Hneg Hex)).
  - intros Hln HF. destruct (Hpos Hln HF) as (xs & Hxs & _).
    destruct (Hfloats xs Hxs) as (st & Hst & Hk & Hn).
    exists st. split; [exact Hst|]. split; [exact Hk|].
    now rewrite Hn, COUNT_transformable.
  - destruct (np_array_cases logs) as [(xs & Hxs)|Hr].
    + left. destruct (Hfloats xs Hxs) as (st & Hst & _). eauto.
    + right. now rewrite (MEDIAN_raises logs Hr).
Qed.

Lemma bucket_spec (view : list ratio_row) (key : string * option string)
    (r : ratio_row) :
  In r (bucket view key) <-> In r view /\ bucket_key r = key.
Proof.
  unfold bucket. rewrite filter_In, bool_decide_eq_true. reflexivity.
Qed.

Lemma stat_table_fails (ln fsqrt : Q -> Q) (view : list ratio_row) :
  (Exists (fun r => ~ transformable r) view ->
   PGROUP_LOG2RATIO_STAT ln fsqrt view = Py.Raise finalize_error) /\
  (~ ln 2 == 0 -> List.Forall transformable view ->
   exists stats,
     PGROUP_LOG2RATIO_STAT ln fsqrt view = Py.Return stats /\
     map stat_key stats = remove_dups (map bucket_key view) /\
     List.Forall
       (fun st => n st = Z.of_nat (length (bucket view (stat_key st))) /\
                  (1 <= n st)%Z)
       stats).
Proof.
  unfold PGROUP_LOG2RATIO_STAT.
  change (map (fun r => (rr_exp_name r, rr_ratio_type r)) view)
    with (map bucket_key view).
  split.
  - intros Hex. apply mapM_raises.
    + intros key. apply (stat_of_bucket_cases ln fsqrt key).
    + apply List.Exists_exists in Hex. destruct Hex as (r & Hr & Hbad).
      apply List.Exists_exists. exists (bucket_key r). split.
      * apply list_elem_of_In, elem_of_remove_dups, list_elem_of_In.
        now apply in_map.
      * apply (stat_of_bucket_cases ln fsqrt).
        apply List.Exists_exists. exists r. split; [|exact Hbad].
        now apply bucket_spec.
  - intros Hln HF.
    destruct (mapM_Forall2
                (fun key => stat_of_bucket ln fsqrt key (bucket view key))
                (fun key st =>
                   stat_key st = key /\
                   n st = Z.of_nat (length (bucket view key)) /\
                   (1 <= n st)%Z)
                (remove_dups (map bucket_key view))) as (stats & Hst & HF2).
    { apply List.Forall_forall. intros key Hkey.
      destruct (proj1 (proj2 (stat_of_bucket_cases ln fsqrt key
                                (bucket view key))) Hln)
        as (st & Hs & Hk & Hn).
      - apply List.Forall_forall. intros r Hr.
        apply bucket_spec in Hr. destruct Hr as [Hr _].
        now apply (proj1 (List.Forall_forall _ _) HF).
      - exists st. split; [exact Hs|]. split; [exact Hk|].
        split; [exact Hn|]. rewrite Hn.
        apply list_elem_of_In, elem_of_remove_dups, list_elem_of_In,
          in_map_iff in Hkey.
        destruct Hkey as (r & Hkr & Hr).
        assert (Hin : In r (bucket view key)) by now apply bucket_spec.
        destruct (bucket view key); [destruct Hin|simpl; lia]. }
    exists stats. split; [exact Hst|].
    clear Hst. induction HF2 as [|key st keys stats (Hk & Hn & H1) _ IH].
    + split; [reflexivity|constructor].
    + destruct IH as [IH1 IH2]. split.
      * cbn [map]. now rewrite Hk, IH1.
      * constructor; [|exact IH2]. rewrite Hk. now split.
Qed.

(** The table of statistics is built exactly when every ratio of the view
    has a logarithm.  It then has one row per distinct pair of experiment
    and ratio type of the view, and [n] counts the rows of the pair; a
    single ratio without a logarithm fails the statement with an
    [OperationalError]. *)
Theorem stat_table_needs_positive_ratios (ln fsqrt : Q -> Q)
    (view : list ratio_row) :
  (Exists (fun r => ~ transformable r) view ->
   PGROUP_LOG2RATIO_STAT ln fsqrt view = Py.Raise finalize_error) /\
  (~ ln 2 == 0 -> List.Forall transformable view ->
   exists stats,
     PGROUP_LOG2RATIO_STAT ln fsqrt view = Py.Return stats /\
     NoDup (map stat_key stats) /\
     (forall r, In r view -> bucket_key r ∈ map stat_key stats) /\
     List.Forall
       (fun st => n st = Z.of_nat (length (bucket view (stat_key st))) /\
                  (1 <= n st)%Z)
       stats).
Proof.
  split; [apply stat_table_fails|].
  intros Hln HF.
  destruct (proj2 (stat_table_fails ln fsqrt view) Hln HF)
    as (stats & Hs & Hk & Hn).
  exists stats. split; [exact Hs|]. rewrite Hk.
  split; [apply NoDup_remove_dups|]. split; [|exact Hn].
  intros r Hr. apply elem_of_remove_dups, list_elem_of_In.
  now apply in_map.
Qed.

(** *** The table of scores *)

Lemma mzscore_where_spec (A : ratio_row) (B : stat_row) :
  mzscore_where A B = true <->
  bucket_key A = stat_key B /\ rr_ratio_type A <> None.
Proof.
  unfold mzscore_where, bucket_key, stat_key.
  rewrite andb_true_iff, bool_decide_eq_true.
  destruct (rr_ratio_type A) as [t|], (st_ratio_type B) as [t'|];
    try rewrite bool_decide_eq_true;
    intuition (try discriminate; try congruence).
Qed.

(** With distinct keys, a row of the ratio view joins exactly one row of
    statistics. *)
Lemma join_one (A : ratio_row) (stats : list stat_row) :
  NoDup (map stat_key stats) ->
  rr_ratio_type A <> None ->
  bucket_key A ∈ map stat_key stats ->
  exists B,
    In B stats /\ stat_key B = bucket_key A /\
    flat_map (fun B => if mzscore_where A B then [(A, B)] else []) stats
    = [(A, B)].
Proof.
  intros Hnd Ht Hin. induction stats as [|B stats IH].
  - now apply elem_of_nil in Hin.
  - cbn [map] in Hnd, Hin. apply NoDup_cons in Hnd.
    destruct Hnd as [Hnot Hnd]. cbn [flat_map].
    apply elem_of_cons in Hin.
    destruct (mzscore_where A B) eqn:E.
    + apply mzscore_where_spec in E. destruct E as [E _].
      exists B. split; [now left|]. split; [now symmetry|].
      assert (Hnone : flat_map
                (fun B0 => if mzscore_where A B0 then [(A, B0)] else [])
                stats = []).
      { clear IH Hin Hnd. induction stats as [|B' stats IH']; [reflexivity|].
        cbn [flat_map]. destruct (mzscore_where A B') eqn:E'.
        - exfalso. apply mzscore_where_spec in E'. destruct E' as [E' _].
          apply Hnot. cbn [map]. apply elem_of_cons. left. congruence.
        - apply IH'. intros H. apply Hnot. cbn [map].
          apply elem_of_cons. now right. }
      now rewrite Hnone.
    + destruct Hin as [Hin|Hin].
      * exfalso. assert (mzscore_where A B = true)
          by (apply mzscore_where_spec; split; assumption).
        congruence.
      * destruct (IH Hnd Hin) as (B' & HB' & Hk & Hf).
        exists B'. split; [now right|]. split; [exact Hk|exact Hf].
Qed.

Lemma stat_of_bucket_key (ln fsqrt : Q -> Q) (key : string * option string)
    (rows : list ratio_row) (st : stat_row) :
  stat_of_bucket ln fsqrt key rows = Py.Return st -> stat_key st = key.
Proof.
  unfold stat_of_bucket.
  destruct (Py.mapM _ rows) as [logs|]; [|discriminate]. cbn [Py.bind].
  destruct (MEDIAN logs); [|discriminate]. cbn [Py.bind].
  destruct (STDEV fsqrt logs); [|discriminate]. cbn [Py.bind].
  destruct (MAD logs); [|discriminate]. cbn [Py.bind].
  intros [= <-]. now destruct key.
Qed.

Lemma mapM_keys {A B : Type} (f : A -> Py.result B) (key : B -> A)
    (l : list A) (bs : list B) :
  (forall a b, f a = Py.Return b -> key b = a) ->
  Py.mapM f l = Py.Return bs -> map key bs = l.
Proof.
  intros Hk. revert bs. induction l as [|a l IH]; intros bs H.
  - now injection H as <-.
  - cbn [Py.mapM] in H. destruct (f a) as [b|] eqn:E; [|discriminate].
    cbn [Py.bind] in H.
    destruct (Py.mapM f l) as [bs'|]; [|discriminate].
    injection H as <-. cbn [map]. now rewrite (Hk a b E), (IH bs' eq_refl).
Qed.

Lemma score_rows_of_pairs (ln : Q -> Q)
    (pairs : list (ratio_row * stat_row)) :
  exists table,
    Py.mapM (fun AB => mzscore_of ln (fst AB) (snd AB)) pairs
    = Py.Return table /\
    map score_id table = map (fun AB => ratio_id (fst AB)) pairs.
Proof.
  induction pairs as [|[A B] pairs (table & IH & Hid)].
  - now exists [].
  - cbn [Py.mapM fst snd]. unfold mzscore_of at 1.
    destruct (UdfFacts.LOG2_returns ln (ratio_value A)) as (v & ->).
    cbn [Py.bind]. rewrite IH. cbn [Py.bind].
    eexists. split; [reflexivity|]. cbn [map fst]. now rewrite Hid.
Qed.

(** When the table of statistics has been built from the ratio view, the
    table of scores is built too and holds exactly one row per row of the
    view, for the same group, experiment and ratio type and in the same
    order: no measurement is dropped or doubled by the join. *)
Theorem one_score_row_per_measurement (ln fsqrt : Q -> Q)
    (PGROUP_QUANT : list pgroup_quant) (V_PGROUP : list Z)
    (stats : list stat_row) :
  let view := V_PGROUP_RATIO PGROUP_QUANT V_PGROUP in
  PGROUP_LOG2RATIO_STAT ln fsqrt view = Py.Return stats ->
  exists table,
    PGROUP_MZSCORE ln view stats = Py.Return table /\
    map score_id table = map ratio_id view.
Proof.
  intros view Hstats.
  assert (Hkeys : map stat_key stats = remove_dups (map bucket_key view)).
  { apply (mapM_keys _ stat_key _ _
             (fun key st => stat_of_bucket_key ln fsqrt key _ st) Hstats). }
  assert (Hnd : NoDup (map stat_key stats))
    by (rewrite Hkeys; apply NoDup_remove_dups).
  assert (Hpairs :
            map fst
              (flat_map
                 (fun A =>
                    flat_map
                      (fun B => if mzscore_where A B then [(A, B)] else [])
                      stats) view) = view).
  { assert (Hall : List.Forall
                     (fun A => rr_ratio_type A <> None /\
                               bucket_key A ∈ map stat_key stats) view).
    { apply List.Forall_forall. intros A HA. split.
      - pose proof (ratio_view_types_aux PGROUP_QUANT V_PGROUP) as HF.
        destruct (proj1 (List.Forall_forall _ _) HF A HA)
          as ((t & Ht & _) & _).
        congruence.
      - rewrite Hkeys. apply elem_of_remove_dups, list_elem_of_In.
        now apply in_map. }
    clear Hstats Hkeys. induction Hall as [|A rest (Ht & Hk) _ IH].
    - reflexivity.
    - cbn [flat_map]. destruct (join_one A stats Hnd Ht Hk) as (B & _ & _ & ->).
      cbn [app map fst]. now rewrite IH. }
  unfold PGROUP_MZSCORE.
  destruct (score_rows_of_pairs ln
              (flat_map
                 (fun A =>
                    flat_map
                      (fun B => if mzscore_where A B then [(A, B)] else [])
                      stats) view)) as (table & Ht & Hid).
  exists table. split; [exact Ht|].
  rewrite Hid, <- (map_map fst ratio_id). now rewrite Hpairs.
Qed.

Lemma one_score_row_per_measurement_witness :
  exists table,
    PGROUP_MZSCORE (fun q => q) (V_PGROUP_RATIO two_quant [1; 2; 3]%Z)
      (match PGROUP_LOG2RATIO_STAT (fun q => q) (fun q => q)
               (V_PGROUP_RATIO two_quant [1; 2; 3]%Z) with
       | Py.Return stats => stats
       | Py.Raise _ => []
       end) = Py.Return table /\
    map score_id table
    = [ (1%Z, "VH10_L0_M0_H1", Some "raw_ratio_HL");
        (2%Z, "VH10_L0_M0_H1", Some "raw_ratio_HL");
        (2%Z, "VH10_L0_M0_H1", Some "raw_ratio_HM") ].
Proof.
  exact (one_score_row_per_measurement (fun q => q) (fun q => q) two_quant
           [1; 2; 3]%Z _ eq_refl).
Defined.

(** *** The statements of [-n] as a whole *)

Lemma view_rows_transformable (PGROUP_QUANT : list pgroup_quant)
    (V_PGROUP : list Z) :
  List.Forall (fun A => forall q, quant_value A = Some q -> 0 <= q)
              PGROUP_QUANT ->
  List.Forall transformable (V_PGROUP_RATIO PGROUP_QUANT V_PGROUP).
Proof.
  intros HF. apply List.Forall_forall. intros row Hrow.
  apply V_PGROUP_RATIO_rows in Hrow.
  destruct Hrow as (A & B & HA & _ & Hw & ->).
  apply ratio_where_spec in Hw. destruct Hw as (_ & _ & q & Hq & Hq0).
  exists q. split; [exact Hq|].
  assert (H0 : 0 <= q)
    by (apply (proj1 (List.Forall_forall _ _) HF A HA); exact Hq).
  apply Qle_lteq in H0. destruct H0 as [H0|H0]; [exact H0|].
  exfalso. apply Hq0. now symmetry.
Qed.

Lemma remove_dups_nil {A : Type} `{EqDecision A} (l : list A) :
  remove_dups l = [] <-> l = [].
Proof.
  split; [|now intros ->].
  destruct l as [|x l]; [reflexivity|]. intros H. exfalso.
  assert (Hx : x ∈ remove_dups (x :: l))
    by (apply elem_of_remove_dups, elem_of_cons; now left).
  rewrite H in Hx. now apply elem_of_nil in Hx.
Qed.

(** With positive ratios only, the statistics have no row exactly when the
    ratio view has none. *)
Lemma stats_of_positive_view (ln fsqrt : Q -> Q) (view : list ratio_row) :
  ~ ln 2 == 0 -> List.Forall transformable view ->
  exists stats,
    PGROUP_LOG2RATIO_STAT ln fsqrt view = Py.Return stats /\
    (stats = [] <-> view = []).
Proof.
  intros Hln HF.
  destruct (proj2 (stat_table_fails ln fsqrt view) Hln HF)
    as (stats & Hst & Hkeys & _).
  exists stats. split; [exact Hst|]. split.
  - intros ->. cbn [map] in Hkeys. symmetry in Hkeys.
    apply (proj1 (remove_dups_nil _)) in Hkeys.
    destruct view; [reflexivity|]. cbn [map] in Hkeys. discriminate Hkeys.
  - intros ->. cbn [map remove_dups] in Hkeys.
    destruct stats; [reflexivity|]. cbn [map] in Hkeys. discriminate Hkeys.
Qed.

(** The outcomes of the statements run under [-n].  When a negative ratio
    enters the ratio view, the statistics fail and the script ends with an
    uncaught [OperationalError].  When no ratio of the source table is
    negative but there is no experiment, or no ratio enters the view, the
    statement that creates the view of channels has no column to select and
    the script ends with an uncaught [OperationalError] too.  In both cases
    the output file is not yet opened: the files and the standard streams
    stay as they were.  With no negative ratio, an experiment and a ratio in
    the view, the tables and the view are built. *)
Theorem rebuild_needs_nonnegative_ratios (ln fsqrt text_roundtrip : Q -> Q)
    (db : database) :
  let view := V_PGROUP_RATIO (PGROUP_QUANT db) (V_PGROUP db) in
  let nonnegative :=
    List.Forall (fun A => forall q, quant_value A = Some q -> 0 <= q)
                (PGROUP_QUANT db) in
  (Exists (fun A =>
             In (pq_grp_id A) (V_PGROUP db) /\
             quant_type A ∈ map fst ratio_types /\
             exists q, quant_value A = Some q /\ q < 0)
          (PGROUP_QUANT db) ->
   populate ln fsqrt text_roundtrip db = Py.Raise finalize_error /\
   forall norm_cdf str_float path_in_dir_of format_float a w,
     new_tabs a = true ->
     run ln fsqrt norm_cdf text_roundtrip str_float path_in_dir_of
       format_float a db w
     = (w, Py.Uncaught finalize_error)) /\
  (~ ln 2 == 0 -> nonnegative ->
   EXPERIMENT db = [] \/ view = [] ->
   populate ln fsqrt text_roundtrip db = Py.Raise empty_select_list /\
   forall norm_cdf str_float path_in_dir_of format_float a w,
     new_tabs a = true ->
     run ln fsqrt norm_cdf text_roundtrip str_float path_in_dir_of
       format_float a db w
     = (w, Py.Uncaught empty_select_list)) /\
  (~ ln 2 == 0 -> nonnegative ->
   EXPERIMENT db <> [] -> view <> [] ->
   exists stats table,
     PGROUP_LOG2RATIO_STAT ln fsqrt view = Py.Return stats /\
     PGROUP_MZSCORE ln view stats = Py.Return table /\
     populate ln fsqrt text_roundtrip db
     = Py.Return
         (V_PGROUP_MZSCORE text_roundtrip (remove_dups (EXPERIMENT db))
            (remove_dups
               (map (fun st => default "None" (st_ratio_type st)) stats))
            table)).
Proof.
  intros view nonnegative.
  assert (Hrun : forall e,
            populate ln fsqrt text_roundtrip db = Py.Raise e ->
            forall norm_cdf str_float path_in_dir_of format_float a w,
              new_tabs a = true ->
              run ln fsqrt norm_cdf text_roundtrip str_float path_in_dir_of
                format_float a db w
              = (w, Py.Uncaught e)).
  { intros e Hp norm_cdf str_float path_in_dir_of format_float a w Hn.
    unfold run. now rewrite Hn, Hp. }
  split; [|split].
  - intros Hex.
    assert (Hp : populate ln fsqrt text_roundtrip db
                 = Py.Raise finalize_error).
    { unfold populate.
      rewrite (proj1 (stat_table_fails ln fsqrt
                        (V_PGROUP_RATIO (PGROUP_QUANT db) (V_PGROUP db))));
        [reflexivity|].
      apply List.Exists_exists in Hex.
      destruct Hex as (A & HA & HB & Ht & q & Hq & Hneg).
      apply List.Exists_exists.
      exists (RatioRow (pq_grp_id A) (pq_exp_name A)
                (assoc (quant_type A) ratio_types) (quant_value A)).
      split.
      - apply V_PGROUP_RATIO_rows. exists A, (pq_grp_id A).
        repeat split; try assumption.
        apply ratio_where_spec. repeat split; try assumption.
        exists q. split; [exact Hq|]. intros H0. rewrite H0 in Hneg.
        discriminate Hneg.
      - intros (q' & Hq' & Hpos). cbn [ratio_value] in Hq'.
        rewrite Hq in Hq'. injection Hq' as <-.
        apply (Qlt_irrefl 0). eapply Qlt_trans; eassumption. }
    split; [exact Hp|]. exact (Hrun _ Hp).
  - intros Hln HF Hempty.
    assert (Hp : populate ln fsqrt text_roundtrip db
                 = Py.Raise empty_select_list).
    { unfold populate. fold view.
      destruct (stats_of_positive_view ln fsqrt view Hln
                  (view_rows_transformable _ _ HF)) as (stats & -> & Hnil).
      cbn [Py.bind].
      destruct (PGROUP_MZSCORE_returns ln view stats) as (table & ->).
      cbn [Py.bind].
      destruct Hempty as [He|Hv].
      - rewrite He. reflexivity.
      - rewrite (proj2 Hnil Hv). cbn [map remove_dups].
        now destruct (remove_dups (EXPERIMENT db)). }
    split; [exact Hp|]. exact (Hrun _ Hp).
  - intros Hln HF He Hv.
    destruct (stats_of_positive_view ln fsqrt view Hln
                (view_rows_transformable _ _ HF)) as (stats & Hst & Hnil).
    destruct (PGROUP_MZSCORE_returns ln view stats) as (table & Ht).
    exists stats, table. split; [exact Hst|]. split; [exact Ht|].
    unfold populate. fold view. rewrite Hst. cbn [Py.bind]. rewrite Ht.
    cbn [Py.bind].
    destruct (remove_dups (EXPERIMENT db)) as [|e exps] eqn:Ee.
    { apply (proj1 (remove_dups_nil _)) in Ee. contradiction. }
    destruct (remove_dups
                (map (fun st => default "None" (st_ratio_type st)) stats))
      as [|r rats] eqn:Er; [|reflexivity].
    apply (proj1 (remove_dups_nil _)) in Er.
    destruct stats; [|cbn [map] in Er; discriminate Er].
    exfalso. apply Hv. now apply Hnil.
Qed.

End TablesMore.

(** * [mzscore.py]: the view of channels and what the selection emits *)

Module ViewMore.
Import Sql SqlFacts MzScore Samples MoreSamples Terms MzScoreFacts.
Import MzScoreMore OutputMore TablesMore.

Section View.

Variable text_roundtrip : Q -> Q.

Local Abbreviation channels := (MzScore.channels text_roundtrip).
Local Abbreviation channel := (MzScore.channel text_roundtrip).
Local Abbreviation channel_column := (MzScore.channel_column text_roundtrip).

(** The names of the columns do not depend on the rows. *)
Lemma channels_names (exps rats : list string) (rows : list mzscore_row) :
  map fst (channels exps rats rows) = map fst (channels exps rats []).
Proof.
  unfold MzScore.channels.
  induction exps as [|e exps IHe]; [reflexivity|].
  cbn [flat_map]. rewrite !map_app, IHe. f_equal.
  clear IHe. induction rats as [|r rats IHr]; [reflexivity|].
  cbn [flat_map]. rewrite !map_app, IHr. reflexivity.
Qed.

Lemma channels_length (exps rats : list string) (rows : list mzscore_row) :
  length (channels exps rats rows) = (4 * length exps * length rats)%nat.
Proof.
  unfold MzScore.channels.
  assert (H : forall e, length (flat_map (fun r => channel e r rows) rats)
              = (4 * length rats)%nat).
  { intros e. induction rats as [|r rats IHr]; [reflexivity|].
    cbn [flat_map]. rewrite length_app, IHr. cbn [length MzScore.channel].
    lia. }
  induction exps as [|e exps IHe]; [reflexivity|].
  cbn [flat_map length]. rewrite length_app, IHe, H. lia.
Qed.

(** A channel without a score row is NULL in its four columns. *)
Lemma channel_column_absent (e r : string) (f : mzscore_row -> value)
    (rows : list mzscore_row) :
  List.Forall (fun z => ~ (mz_exp_name z = e /\ mz_ratio_type z = Some r))
              rows ->
  channel_column e r f rows = None.
Proof.
  intros HF. unfold MzScore.channel_column, GROUP_CONCAT_NUMERIC.
  assert (H : omap id (map (case_when e r f) rows) = []).
  { induction HF as [|z rows Hz _ IH]; [reflexivity|].
    cbn [map]. unfold case_when at 1.
    destruct (bool_decide (mz_exp_name z = e)) eqn:E1;
      destruct (bool_decide (mz_ratio_type z = Some r)) eqn:E2;
      cbn [andb]; try exact IH.
    apply bool_decide_eq_true in E1, E2. exfalso. now apply Hz. }
  now rewrite H.
Qed.

(** The view of channels is complete: it has four columns per pair of
    experiment and ratio type, one row per group of the table of scores,
    every row has all the columns of the view, and a channel for which the
    group has no score is NULL in its four columns, not left out. *)
Theorem view_of_channels_is_complete (exps rats : list string)
    (table : list mzscore_row) :
  let v := V_PGROUP_MZSCORE text_roundtrip exps rats table in
  length (view_columns v) = (4 * length exps * length rats)%nat /\
  NoDup (map fst (view_rows v)) /\
  (forall g, g ∈ map fst (view_rows v) <-> g ∈ map mz_grp_id table) /\
  List.Forall (fun gr => map fst (snd gr) = view_columns v) (view_rows v) /\
  (forall e r rows,
     List.Forall
       (fun z => ~ (mz_exp_name z = e /\ mz_ratio_type z = Some r)) rows ->
     map snd (channel e r rows) = [None; None; None; None]).
Proof.
  intros v. subst v. unfold V_PGROUP_MZSCORE.
  cbn [view_columns view_rows].
  assert (Hfst : map fst
                   (map (fun g =>
                           (g, channels exps rats
                                 (List.filter
                                    (fun x => bool_decide (mz_grp_id x = g))
                                    table)))
                        (remove_dups (map mz_grp_id table)))
                 = remove_dups (map mz_grp_id table)).
  { rewrite map_map. cbn [fst]. apply map_id. }
  split; [|split; [|split; [|split]]].
  - rewrite length_map. apply channels_length.
  - rewrite Hfst. apply NoDup_remove_dups.
  - intros g. rewrite Hfst. apply elem_of_remove_dups.
  - apply List.Forall_forall. intros [g cols] Hin.
    apply in_map_iff in Hin. destruct Hin as (g' & [= <- <-] & _).
    cbn [snd]. apply channels_names.
  - intros e r rows HF. cbn [MzScore.channel map snd].
    now rewrite !(channel_column_absent e r _ rows HF).
Qed.










End View.


Section BuiltView.

Variable norm_cdf : Q -> Q.
Variable text_roundtrip : Q -> Q.
Variable str_float : Q -> string.
Variable path_in_dir_of : string -> string -> string.
Variable format_float : nat -> Q -> string.










End BuiltView.


End ViewMore.

(** * [mzscore.py]: scores of a measurement alone in its bucket *)

Module ScoresMore.
Import Sql SqlFacts MzScore Samples MoreSamples Terms MzScoreFacts.
Import TablesMore.

Lemma mapM_inv {A B : Type} (f : A -> Py.result B) (l : list A)
    (bs : list B) :
  Py.mapM f l = Py.Return bs -> Forall2 (fun a b => f a = Py.Return b) l bs.
Proof.
  revert bs. induction l as [|a l IH]; intros bs H.
  - injection H as <-. constructor.
  - cbn [Py.mapM] in H. destruct (f a) as [b|] eqn:E; [|discriminate].
    cbn [Py.bind] in H.
    destruct (Py.mapM f l) as [bs'|]; [|discriminate].
    injection H as <-. constructor; [exact E|now apply IH].
Qed.

Lemma Forall2_In_r {A B : Type} (P : A -> B -> Prop) (l : list A)
    (bs : list B) (b : B) :
  Forall2 P l bs -> In b bs -> exists a, In a l /\ P a b.
Proof.
  induction 1 as [|x y xs ys Hxy _ IH]; intros Hin; [destruct Hin|].
  destruct Hin as [<-|Hin].
  - exists x. split; [now left|exact Hxy].
  - destruct (IH Hin) as (a & Ha & HP). exists a. split; [now right|exact HP].
Qed.

(** The statistics of a bucket with one positive ratio: no standard
    deviation, and a median absolute deviation of zero. *)
Lemma stat_of_lone_row (ln fsqrt : Q -> Q) (key : string * option string)
    (row : ratio_row) (v : Q) (st : stat_row) :
  ratio_value row = Some v -> 0 < v -> ~ ln 2 == 0 ->
  stat_of_bucket ln fsqrt key [row] = Py.Return st ->
  sd st = None /\ exists m, mad st = Some m /\ m == 0.
Proof.
  intros Hv Hpos Hln. unfold stat_of_bucket, LOG2.
  cbn [Py.mapM Py.bind]. rewrite Hv. cbn [Py.of_sql].
  rewrite UdfFacts.log_on_numbers.
  assert (Qltb 0 v && Qltb 0 2 && negb (Qeq_bool (ln 2) 0) = true) as ->.
  { apply Qltb_lt in Hpos. rewrite Hpos. simpl.
    destruct (Qeq_bool (ln 2) 0) eqn:E; [|reflexivity].
    apply Qeq_bool_iff in E. contradiction. }
  cbn [Py.bind].
  change [Py.VFloat (ln v / ln 2)] with (map Py.VFloat [ln v / ln 2]).
  rewrite STDEV_on_floats, MEDIAN_on_floats, MAD_on_floats.
  assert (Hs : result_double (np_std fsqrt 1 [ln v / ln 2]) = None).
  { destruct (np_std fsqrt 1 [ln v / ln 2]) eqn:E; try reflexivity.
    unfold np_std in E. simpl in E.
    destruct (Qeq_bool (sq_dev [ln v / ln 2]) 0); discriminate. }
  rewrite Hs. cbn [Py.bind]. intros [= <-]. cbn [sd mad].
  split; [reflexivity|].
  exists (Qabs (ln v / ln 2 - ln v / ln 2)). split; [reflexivity|].
  assert (E : ln v / ln 2 - ln v / ln 2 == 0) by ring.
  rewrite E. reflexivity.
Qed.

(** A measurement that is alone in its bucket of experiment and ratio type
    gets no score: its row of [PGROUP_MZSCORE] has a NULL Z-score, the
    standard deviation of one value being NULL, and a NULL M-score, its
    median absolute deviation being zero. *)
Theorem lone_measurement_gets_no_score (ln fsqrt : Q -> Q)
    (view : list ratio_row) (stats : list stat_row) (A : ratio_row)
    (B : stat_row) :
  ~ ln 2 == 0 ->
  PGROUP_LOG2RATIO_STAT ln fsqrt view = Py.Return stats ->
  bucket view (bucket_key A) = [A] ->
  In B stats -> mzscore_where A B = true ->
  exists row,
    mzscore_of ln A B = Py.Return row /\
    z_score row = None /\ m_score row = None.
Proof.
  intros Hln Hst Hb HB Hw.
  apply mzscore_where_spec in Hw. destruct Hw as (Hk & _).
  unfold PGROUP_LOG2RATIO_STAT in Hst. apply mapM_inv in Hst.
  destruct (Forall2_In_r _ _ _ B Hst HB) as (key & _ & HstB).
  assert (Hkey : key = bucket_key A).
  { rewrite Hk. symmetry. exact (stat_of_bucket_key ln fsqrt _ _ _ HstB). }
  subst key. rewrite Hb in HstB.
  assert (Ht : transformable A).
  { destruct (ratio_value A) as [q|] eqn:Eq.
    - destruct (Qlt_le_dec 0 q) as [Hq|Hq]; [now exists q|].
      exfalso.
      assert (Hr : stat_of_bucket ln fsqrt (bucket_key A) [A]
                   = Py.Raise finalize_error).
      { apply stat_of_bucket_cases. constructor.
        intros (q' & Eq' & Hq'). rewrite Eq in Eq'. injection Eq' as <-.
        apply (Qlt_not_le _ _ Hq' Hq). }
      congruence.
    - exfalso.
      assert (Hr : stat_of_bucket ln fsqrt (bucket_key A) [A]
                   = Py.Raise finalize_error).
      { apply stat_of_bucket_cases. constructor.
        intros (q' & Eq' & _). congruence. }
      congruence. }
  destruct Ht as (q & Eq & Hq).
  destruct (stat_of_lone_row ln fsqrt _ A q B Eq Hq Hln HstB)
    as (Hsd & m & Hmad & Hm).
  unfold mzscore_of. rewrite Eq, (LOG2_of_positive ln q Hln Hq).
  cbn [Py.bind]. eexists. split; [reflexivity|]. cbn [z_score m_score].
  rewrite Hsd, Hmad. split.
  - now destruct (sub _ _).
  - unfold div. destruct (mul _ _); [|reflexivity].
    destruct (Qeq_bool m 0) eqn:E; [reflexivity|].
    apply Qeq_bool_iff in Hm. congruence.
Qed.

Lemma lone_measurement_gets_no_score_witness :
  exists row,
    mzscore_of (fun q => q)
      (RatioRow 1 "VH10_L0_M0_H1" (Some "raw_ratio_HL") (Some 2))
      (StatRow "VH10_L0_M0_H1" (Some "raw_ratio_HL") 1
         (Some (2 # 2)) (Some (2 # 2)) (Some (2 # 2)) (Some (2 # 2)) None
         (Some (0 # 4)))
    = Py.Return row /\
    z_score row = None /\ m_score row = None.
Proof.
  refine (lone_measurement_gets_no_score (fun q => q) (fun q => q)
            [RatioRow 1 "VH10_L0_M0_H1" (Some "raw_ratio_HL") (Some 2)]
            [StatRow "VH10_L0_M0_H1" (Some "raw_ratio_HL") 1
               (Some (2 # 2)) (Some (2 # 2)) (Some (2 # 2)) (Some (2 # 2))
               None (Some (0 # 4))]
            (RatioRow 1 "VH10_L0_M0_H1" (Some "raw_ratio_HL") (Some 2))
            _ _ _ _ _ _).
  - unfold Qeq. simpl. lia.
  - vm_compute. reflexivity.
  - reflexivity.
  - left. reflexivity.
  - reflexivity.
Defined.

End ScoresMore.

(** * Numbers as they are written, and the spread of a bucket *)

Module NumbersMore.
Import Sql SqlFacts MzScore Terms MzScoreFacts RoundFacts TablesMore.

Lemma scale_4 : scale 4 == 10000.
Proof. reflexivity. Qed.

(** What [fcsigB.py] writes for a cell: the marker NA for a NULL, and for a
    number the text of a multiple of 0.0001 that lies within 0.00005 of
    it. *)
Theorem fcsigB_cell_is_marker_or_rounded (str_float : Q -> string)
    (x : value) :
  match x with
  | None => FcSigB.render_cell str_float x = Py.Return "NA"
  | Some q =>
      exists r,
        FcSigB.render_cell str_float x = Py.Return (str_float r) /\
        (exists k : Z, r == inject_Z k / 10000) /\
        Qabs (r - q) <= 1 # 20000
  end.
Proof.
  destruct x as [q|]; [|reflexivity].
  exists (round_half_away 4 q). split; [reflexivity|]. split.
  - destruct (round_half_away_grid 4 q) as (k & Hk). exists k.
    now rewrite Hk, scale_4.
  - assert (H := round_half_away_close 4 q).
    rewrite scale_4 in H. exact H.
Qed.

Lemma insert_sorted_Forall (P : Q -> Prop) (x : Q) (l : list Q) :
  P x -> List.Forall P l -> List.Forall P (insert_sorted x l).
Proof.
  intros Hx. induction 1 as [|y l Hy Hl IH]; cbn [insert_sorted].
  - now repeat constructor.
  - destruct (Qle_bool x y); repeat constructor; assumption.
Qed.

Lemma sort_Forall (P : Q -> Prop) (l : list Q) :
  List.Forall P l -> List.Forall P (sort l).
Proof.
  induction 1 as [|x l Hx _ IH]; [constructor|].
  cbn [sort fold_right]. now apply insert_sorted_Forall.
Qed.

Lemma nth_nonneg (l : list Q) (i : nat) :
  List.Forall (fun x => 0 <= x) l -> 0 <= nth i l 0.
Proof.
  intros H. revert i. induction H as [|x l Hx _ IH]; intros [|i];
    cbn [nth]; try apply Qle_refl; [exact Hx|apply IH].
Qed.

Lemma np_median_nonneg (ys : list Q) (m : Q) :
  List.Forall (fun x => 0 <= x) ys -> np_median ys = Finite m -> 0 <= m.
Proof.
  intros HF. unfold np_median. cbv zeta.
  assert (Hs := sort_Forall _ _ HF).
  generalize (nth_nonneg (sort ys) (length (sort ys) / 2 - 1) Hs)
             (nth_nonneg (sort ys) (length (sort ys) / 2) Hs).
  generalize (nth (length (sort ys) / 2 - 1) (sort ys) 0)
             (nth (length (sort ys) / 2) (sort ys) 0).
  intros u v Hu Hv.
  destruct (Nat.eqb (length (sort ys)) 0); [discriminate|].
  destruct (Nat.even (length (sort ys))); intros [= <-].
  - apply Qle_shift_div_l; [reflexivity|]. lra.
  - exact Hv.
Qed.

(** The aggregate [Mad] never gives a negative number: where the median
    absolute deviation of a bucket is not NULL it is at least zero, so an
    M-score has the sign of the deviation from the median. *)
Theorem mad_is_never_negative (cells : list Py.value) (m : Q) :
  MAD cells = Py.Return (Some m) -> 0 <= m.
Proof.
  destruct (np_array_cases cells) as [(xs & ->)|Hr].
  - rewrite MAD_on_floats.
    destruct (np_median xs) as [med| |] eqn:E;
      cbn [result_double]; try discriminate.
    destruct (np_median (map (fun x => Qabs (x - med)) xs)) as [d| |] eqn:Ed;
      cbn [result_double]; try discriminate.
    intros [= <-].
    refine (np_median_nonneg _ _ _ Ed).
    apply List.Forall_map, List.Forall_forall. intros x _. apply Qabs_nonneg.
  - unfold MAD, Mad_finalize. rewrite Mad_steps. cbn [mad_arr Mad_init app].
    rewrite Hr. discriminate.
Qed.

Lemma mad_is_never_negative_witness :
  MAD [Py.VFloat 1; Py.VFloat 2; Py.VFloat 3] = Py.Return (Some (Qabs (3 - 2)))
  /\ 0 <= Qabs (3 - 2).
Proof.
  split; [reflexivity|].
  exact (mad_is_never_negative
           [Py.VFloat 1; Py.VFloat 2; Py.VFloat 3] _ eq_refl).
Defined.

End NumbersMore.
